(** * Enrollment, capacity, conflict and waitlist subsystem

    A shallow embedding of the enhanced enrollment controller
    (registerStudent, cancelEnrollment, addToWaitlist, promoteFromWaitlist,
    logEnrollmentConflict, logAudit), of the basic enrollment controller
    (enrollStudent, withdrawEnrollment, updateEnrollmentStatus,
    deleteEnrollment), of deleteActivity, of the middleware in front of the
    enhanced routes (requireRole, checkEnrollmentWindow), and of the tables
    they read and write, with the PRIMARY and UNIQUE KEYs the schema declares
    on them.

    The relational store is a record of tables, each a list of rows in
    insertion order.  A SQL statement is a function on that record; a
    statement that fails (an undefined bind parameter, which the driver
    refuses; a request value that does not fit its INT or TEXT column, which
    MySQL refuses in strict SQL mode; a duplicate on a UNIQUE KEY) returns
    an error, which the controllers' try/catch turn into a rollback to the
    state at beginTransaction.  Rows of the store hold values that fit their
    columns: only the values a request brings are checked.  Foreign keys are
    not checked: the controllers insert rows only for an activity their
    transaction has just read.  Numbers in a request body are integers.
    TIME, DATETIME and TIMESTAMP values are integers (seconds);
    CURRENT_TIMESTAMP and [new Date()] are the parameter [now]. *)

From Stdlib Require Import ZArith List Bool String Lia Relations Permutation.
Import ListNotations.
Open Scope string_scope.
Open Scope Z_scope.
Open Scope list_scope.

(** ** Column types *)

(** activity_schedules.day_of_week ENUM *)
Inductive day_of_week : Type :=
  | monday | tuesday | wednesday | thursday | friday | saturday | sunday.

(** activities.status ENUM('active', 'inactive', 'cancelled') *)
Inductive activity_status : Type :=
  | act_active | act_inactive | act_cancelled.

(** activity_enrollments.status VARCHAR(50): the five documented values
    (validStatuses of updateEnrollmentStatus) and 'enrolled', which
    registerStudent's duplicate check names. *)
Inductive enrollment_status : Type :=
  | active | approved | rejected | withdrawn | completed | enrolled.

(** activity_waitlist.status ENUM *)
Inductive waitlist_status : Type :=
  | waiting | notified | promoted | expired | cancelled.

(** enrollment_conflicts.conflict_type ENUM *)
Inductive conflict_type : Type :=
  | time_overlap | venue_conflict | age_restriction | grade_restriction
  | quota_full.

Definition day_eqb (x y : day_of_week) : bool :=
  match x, y with
  | monday, monday | tuesday, tuesday | wednesday, wednesday
  | thursday, thursday | friday, friday | saturday, saturday
  | sunday, sunday => true
  | _, _ => false
  end.

Definition activity_status_eqb (x y : activity_status) : bool :=
  match x, y with
  | act_active, act_active | act_inactive, act_inactive
  | act_cancelled, act_cancelled => true
  | _, _ => false
  end.

Definition enrollment_status_eqb (x y : enrollment_status) : bool :=
  match x, y with
  | active, active | approved, approved | rejected, rejected
  | withdrawn, withdrawn | completed, completed | enrolled, enrolled => true
  | _, _ => false
  end.

Definition waitlist_status_eqb (x y : waitlist_status) : bool :=
  match x, y with
  | waiting, waiting | notified, notified | promoted, promoted
  | expired, expired | cancelled, cancelled => true
  | _, _ => false
  end.

(** ** Rows *)

(** activities, with the columns the enhanced schema adds. *)
Record activity : Type := mk_activity {
  a_id : Z;
  a_name : string;
  a_max_students : option Z;
  a_fee : Z;
  a_quota : Z;
  a_min_age : option Z;
  a_max_age : option Z;
  a_min_grade : option Z;
  a_max_grade : option Z;
  a_status : activity_status;
  a_registration_start : option Z;
  a_registration_end : option Z
}.

Record venue : Type := mk_venue {
  v_id : Z;
  v_name : string
}.

Record activity_schedule : Type := mk_schedule {
  sch_id : Z;
  sch_activity_id : Z;
  sch_venue_id : option Z;
  sch_day_of_week : day_of_week;
  sch_start_time : Z;
  sch_end_time : Z;
  sch_is_active : bool
}.

Record enrollment : Type := mk_enrollment {
  e_id : Z;
  e_student_id : Z;
  e_activity_id : Z;
  e_status : enrollment_status;
  e_notes : option string;
  e_grade_level : option Z;
  e_enrolled_by : option Z;
  e_payment_amount : Z;
  e_cancelled_at : option Z;
  e_cancellation_reason : option string
}.

Record waitlist_entry : Type := mk_waitlist {
  w_id : Z;
  w_student_id : Z;
  w_activity_id : Z;
  w_grade_level : option Z;
  w_priority : Z;
  w_position : Z;
  w_promoted_at : option Z;
  w_status : waitlist_status;
  w_notes : option string
}.

Record conflict_record : Type := mk_conflict {
  c_student_id : Z;
  c_attempted_activity_id : Z;
  c_conflicting_activity_id : option Z;
  c_conflicting_schedule_id : option Z;
  c_conflict_type : conflict_type
}.

Record audit_record : Type := mk_audit {
  au_user_id : Z;
  au_action : string;
  au_entity_type : string;
  au_entity_id : Z
}.

(** ** The store *)

Record DB : Type := mk_DB {
  activities : list activity;
  venues : list venue;
  activity_schedules : list activity_schedule;
  activity_enrollments : list enrollment;
  activity_waitlist : list waitlist_entry;
  enrollment_conflicts : list conflict_record;
  audit_log : list audit_record
}.

Definition with_enrollments (db : DB) (t : list enrollment) : DB :=
  mk_DB (activities db) (venues db) (activity_schedules db) t
        (activity_waitlist db) (enrollment_conflicts db) (audit_log db).

Definition with_waitlist (db : DB) (t : list waitlist_entry) : DB :=
  mk_DB (activities db) (venues db) (activity_schedules db)
        (activity_enrollments db) t (enrollment_conflicts db) (audit_log db).

Definition with_conflicts (db : DB) (t : list conflict_record) : DB :=
  mk_DB (activities db) (venues db) (activity_schedules db)
        (activity_enrollments db) (activity_waitlist db) t (audit_log db).

Definition with_audit (db : DB) (t : list audit_record) : DB :=
  mk_DB (activities db) (venues db) (activity_schedules db)
        (activity_enrollments db) (activity_waitlist db)
        (enrollment_conflicts db) t.

(** ** SQL and JavaScript primitives *)

(** What connection.execute throws in this subsystem: the driver's
    TypeError for a bind parameter that is undefined (nothing is sent), and
    MySQL's errors in strict SQL mode, the default: a value outside the range
    of its INT column, a string longer than its TEXT column, a duplicate on
    a UNIQUE KEY. *)
Inductive sql_error : Type :=
  | ER_DUP_ENTRY (key : string)
  | ER_WARN_DATA_OUT_OF_RANGE
  | ER_DATA_TOO_LONG
  | bind_undefined.

(** A statement run on the transaction's connection: an error, or a result
    and the new state. *)
Definition Tx (A : Type) : Type := DB -> sql_error + (A * DB).

Definition ret {A : Type} (a : A) : Tx A := fun db => inr (a, db).

Definition bind {A B : Type} (m : Tx A) (k : A -> Tx B) : Tx B :=
  fun db =>
    match m db with
    | inl err => inl err
    | inr (a, db1) => k a db1
    end.

Notation "x <- m ;; k" := (bind m (fun x => k))
  (at level 61, m at next level, right associativity).

(** AUTO_INCREMENT PRIMARY KEY: a key larger than every key of the table,
    here the successor of the largest one present.  The counter of a real
    table can be further ahead (it is not taken back by a delete, a rollback
    or a refused insert); the theorems rely on the new key being larger than
    the keys present, not on its value. *)
Definition next_id {A : Type} (id : A -> Z) (t : list A) : Z :=
  1 + fold_right Z.max 0 (map id t).

(** MAX(col): NULL on no rows. *)
Definition sql_max (l : list Z) : option Z :=
  match l with
  | [] => None
  | x :: t => Some (fold_right Z.max x t)
  end.

(** COALESCE(x, d) *)
Definition coalesce (x : option Z) (d : Z) : Z :=
  match x with
  | Some v => v
  | None => d
  end.

(** JavaScript truthiness of a nullable number: NULL/undefined and 0 are
    falsy. *)
Definition truthy (x : option Z) : bool :=
  match x with
  | Some v => negb (v =? 0)
  | None => false
  end.

(** [x || d] on nullable numbers. *)
Definition js_or (x : option Z) (d : Z) : Z :=
  match x with
  | Some v => if v =? 0 then d else v
  | None => d
  end.

Arguments js_or : simpl never.

(** [s || d] on nullable strings: the empty string is falsy. *)
Definition js_or_str (s : option string) (d : string) : string :=
  match s with
  | Some v => if String.eqb v EmptyString then d else v
  | None => d
  end.

(** [s || null] *)
Definition js_or_null (s : option string) : option string :=
  match s with
  | Some v => if String.eqb v EmptyString then None else Some v
  | None => None
  end.

(** [n || null] *)
Definition js_num_or_null (n : option Z) : option Z :=
  match n with
  | Some v => if v =? 0 then None else Some v
  | None => None
  end.

(** A request field that holds text: absent (undefined), or a JSON value,
    null or a string. *)
Inductive js_text : Type :=
  | js_undefined
  | js_value (s : option string).

(** [s || null] on such a field. *)
Definition js_text_or_null (s : js_text) : option string :=
  match s with
  | js_undefined => None
  | js_value v => js_or_null v
  end.

(** INT: -2147483648 .. 2147483647. *)
Definition fits_INT (v : Z) : bool :=
  (-2147483648 <=? v) && (v <=? 2147483647).

(** TEXT: at most 65535 bytes. *)
Definition fits_TEXT (s : string) : bool :=
  Z.of_nat (String.length s) <=? 65535.

(** Strict SQL mode on a value a request binds to a nullable INT column. *)
Definition strict_INT (v : option Z) : Tx unit :=
  fun db =>
    match v with
    | Some n => if fits_INT n then inr (tt, db)
                else inl ER_WARN_DATA_OUT_OF_RANGE
    | None => inr (tt, db)
    end.

(** Strict SQL mode on a value a request binds to a nullable TEXT column. *)
Definition strict_TEXT (s : option string) : Tx unit :=
  fun db =>
    match s with
    | Some v => if fits_TEXT v then inr (tt, db) else inl ER_DATA_TOO_LONG
    | None => inr (tt, db)
    end.

(** ORDER BY: stable insertion sort by a strict "sorts before" test. *)
Fixpoint order_insert {A : Type} (before : A -> A -> bool) (x : A)
  (l : list A) : list A :=
  match l with
  | [] => [x]
  | y :: t => if before x y then x :: y :: t
              else y :: order_insert before x t
  end.

Definition order_by {A : Type} (before : A -> A -> bool) (l : list A)
  : list A :=
  fold_right (order_insert before) [] l.

(** LIMIT n *)
Definition limit {A : Type} (n : nat) (l : list A) : list A := firstn n l.

(** UNIQUE KEY unique_enrollment (student_id, activity_id) *)
Definition same_enrollment_key (student_id activity_id : Z) (e : enrollment)
  : bool :=
  (e_student_id e =? student_id) && (e_activity_id e =? activity_id).

(** UNIQUE KEY unique_waitlist (student_id, activity_id) *)
Definition same_waitlist_key (student_id activity_id : Z) (w : waitlist_entry)
  : bool :=
  (w_student_id w =? student_id) && (w_activity_id w =? activity_id).

(** INSERT INTO activity_enrollments (...) VALUES (...) of values that fit
    their columns; the result is ResultSetHeader.insertId.  cancelled_at and
    cancellation_reason take their default NULL. *)
Definition insert_activity_enrollments (student_id activity_id : Z)
  (grade_level : option Z) (status : enrollment_status)
  (enrolled_by : option Z) (notes : option string) (payment_amount : Z)
  : Tx Z :=
  fun db =>
    if existsb (same_enrollment_key student_id activity_id)
               (activity_enrollments db)
    then inl (ER_DUP_ENTRY "unique_enrollment")
    else
      let insertId := next_id e_id (activity_enrollments db) in
      inr (insertId,
           with_enrollments db
             (activity_enrollments db ++
              [mk_enrollment insertId student_id activity_id status notes
                 grade_level enrolled_by payment_amount None None])).

(** INSERT INTO activity_waitlist (student_id, activity_id, grade_level,
    position, status, notes) of values that fit their columns; priority
    takes its default 0. *)
Definition insert_activity_waitlist (student_id activity_id : Z)
  (grade_level : option Z) (position : Z) (status : waitlist_status)
  (notes : option string) : Tx Z :=
  fun db =>
    if existsb (same_waitlist_key student_id activity_id)
               (activity_waitlist db)
    then inl (ER_DUP_ENTRY "unique_waitlist")
    else
      let insertId := next_id w_id (activity_waitlist db) in
      inr (insertId,
           with_waitlist db
             (activity_waitlist db ++
              [mk_waitlist insertId student_id activity_id grade_level 0
                 position None status notes])).

(** ** Enhanced enrollment controller *)

(** Helper: Log enrollment conflicts.
    INSERT INTO enrollment_conflicts (student_id, attempted_activity_id,
    conflicting_activity_id, conflicting_schedule_id, conflict_type).
    student_id is the request's; the activity and schedule ids are those of
    rows read before. *)
Definition logEnrollmentConflict (student_id attempted_activity_id : Z)
  (conflicting_activity_id : option Z) (conflict_type : conflict_type)
  (conflicting_schedule_id : option Z) : Tx unit :=
  _ <- strict_INT (Some student_id) ;;
  fun db =>
    inr (tt,
         with_conflicts db
           (enrollment_conflicts db ++
            [mk_conflict student_id attempted_activity_id
               conflicting_activity_id conflicting_schedule_id
               conflict_type])).

(** Helper: Audit logging (old_value and new_value are never passed).  The
    controllers pass ids that an earlier statement of the same request has
    written or matched against a row. *)
Definition logAudit (user_id : Z) (action entity_type : string)
  (entity_id : Z) (db : DB) : DB :=
  with_audit db
    (audit_log db ++ [mk_audit user_id action entity_type entity_id]).

(** Helper: Add student to waitlist. *)
Definition positionQuery (activity_id : Z) (db : DB) : Z :=
  coalesce
    (sql_max
       (map w_position
          (filter (fun w => (w_activity_id w =? activity_id)
                            && waitlist_status_eqb (w_status w) waiting)
                  (activity_waitlist db))))
    0 + 1.

(** The insert binds [student_id, activity_id, grade_level, position,
    notes] as they are: an absent notes is an undefined bind parameter. *)
Definition addToWaitlist (student_id activity_id : Z)
  (grade_level : option Z) (notes : js_text) : Tx Z :=
  fun db =>
    let position := positionQuery activity_id db in
    match notes with
    | js_undefined => inl bind_undefined
    | js_value notes =>
        (_ <- strict_INT (Some student_id) ;;
         _ <- strict_INT grade_level ;;
         _ <- strict_INT (Some position) ;;
         _ <- strict_TEXT notes ;;
         _ <- insert_activity_waitlist student_id activity_id grade_level
                position waiting notes ;;
         ret position) db
    end.

(** ORDER BY priority DESC, position ASC *)
Definition priority_desc_position_asc (x y : waitlist_entry) : bool :=
  (w_priority y <? w_priority x)
  || ((w_priority x =? w_priority y) && (w_position x <? w_position y)).

Definition waitlistQuery (activity_id : Z) (db : DB) : list waitlist_entry :=
  limit 1
    (order_by priority_desc_position_asc
       (filter (fun w => (w_activity_id w =? activity_id)
                         && waitlist_status_eqb (w_status w) waiting)
               (activity_waitlist db))).

(** UPDATE activity_waitlist SET status = 'promoted',
    promoted_at = CURRENT_TIMESTAMP WHERE id = ? *)
Definition set_promoted (now : Z) (w : waitlist_entry) : waitlist_entry :=
  mk_waitlist (w_id w) (w_student_id w) (w_activity_id w) (w_grade_level w)
    (w_priority w) (w_position w) (Some now) promoted (w_notes w).

Definition updateWaitlistQuery (now id : Z) : Tx unit :=
  fun db =>
    inr (tt,
         with_waitlist db
           (map (fun w => if w_id w =? id then set_promoted now w else w)
                (activity_waitlist db))).

(** Helper: Promote next student from waitlist.  The result is [null] or
    [{student_id, promoted_at}]. *)
Definition promoteFromWaitlist (now activity_id : Z) : Tx (option (Z * Z)) :=
  fun db =>
    match waitlistQuery activity_id db with
    | [] => ret None db
    | nextStudent :: _ =>
        (_ <- insert_activity_enrollments (w_student_id nextStudent)
                activity_id (w_grade_level nextStudent) active None
                (Some "Promoted from waitlist") 0 ;;
         _ <- updateWaitlistQuery now (w_id nextStudent) ;;
         ret (Some (w_student_id nextStudent, now))) db
    end.

(** The condition shared by the time and venue conflict queries, on
    (target_sch.start_time, target_sch.end_time) and
    (asch.start_time, asch.end_time). *)
Definition time_overlap_cond (target_start target_end asch_start asch_end : Z)
  : bool :=
  ((target_start >=? asch_start) && (target_start <? asch_end))
  || ((target_end >? asch_start) && (target_end <=? asch_end))
  || ((target_start <=? asch_start) && (target_end >=? asch_end)).

(** 1. activityQuery: the active activity with this id and its count of
    enrollments with status 'active'. *)
Definition activityQuery (activity_id : Z) (db : DB) : list (activity * Z) :=
  map (fun a =>
         (a, Z.of_nat
               (List.length
                  (filter (fun ae => (a_id a =? e_activity_id ae)
                                     && enrollment_status_eqb (e_status ae)
                                          active)
                          (activity_enrollments db)))))
      (filter (fun a => (a_id a =? activity_id)
                        && activity_status_eqb (a_status a) act_active)
              (activities db)).

(** 3. existingEnrollmentQuery *)
Definition existingEnrollmentQuery (student_id activity_id : Z) (db : DB)
  : list Z :=
  map e_id
    (filter (fun e => (e_student_id e =? student_id)
                      && (e_activity_id e =? activity_id)
                      && (enrollment_status_eqb (e_status e) active
                          || enrollment_status_eqb (e_status e) enrolled))
            (activity_enrollments db)).

(** A row of timeConflictQuery. *)
Record time_conflict_row : Type := mk_time_conflict {
  conflicting_activity_id : Z;
  conflicting_activity_name : string;
  conflicting_schedule_id : Z;
  tc_day_of_week : day_of_week;
  tc_start_time : Z;
  tc_end_time : Z;
  tc_venue_name : option string
}.

Definition venue_name_of (venue_id : option Z) (db : DB) : option string :=
  match venue_id with
  | Some i =>
      match filter (fun v => v_id v =? i) (venues db) with
      | v :: _ => Some (v_name v)
      | [] => None
      end
  | None => None
  end.

(** 6. timeConflictQuery, bound to [student_id, activity_id, activity_id]:
    activity_enrollments ae JOIN activities a JOIN activity_schedules asch,
    with asch.id IN (the target activity's active schedules) and EXISTS an
    active target schedule on the same day meeting the overlap condition. *)
Definition timeConflictQuery (student_id activity_id : Z) (db : DB)
  : list time_conflict_row :=
  flat_map (fun ae =>
    flat_map (fun a =>
      flat_map (fun asch =>
        if (e_activity_id ae =? a_id a)
           && (a_id a =? sch_activity_id asch)
           && (e_student_id ae =? student_id)
           && enrollment_status_eqb (e_status ae) active
           && activity_status_eqb (a_status a) act_active
           && sch_is_active asch
           && existsb (fun s => (sch_id s =? sch_id asch))
                (filter (fun s => (sch_activity_id s =? activity_id)
                                  && sch_is_active s)
                        (activity_schedules db))
           && existsb (fun target_sch =>
                         (sch_activity_id target_sch =? activity_id)
                         && sch_is_active target_sch
                         && day_eqb (sch_day_of_week target_sch)
                                    (sch_day_of_week asch)
                         && time_overlap_cond
                              (sch_start_time target_sch)
                              (sch_end_time target_sch)
                              (sch_start_time asch) (sch_end_time asch))
                (activity_schedules db)
        then [mk_time_conflict (a_id a) (a_name a) (sch_id asch)
                (sch_day_of_week asch) (sch_start_time asch)
                (sch_end_time asch) (venue_name_of (sch_venue_id asch) db)]
        else [])
      (activity_schedules db))
    (activities db))
  (activity_enrollments db).

(** 7. venueConflictQuery (LIMIT 1): the result is only printed with
    console.warn. *)
Definition venueConflictQuery (activity_id : Z) (db : DB)
  : list (Z * string) :=
  limit 1
    (flat_map (fun target_sch =>
       flat_map (fun v =>
         flat_map (fun asch =>
           flat_map (fun a =>
             if match sch_venue_id target_sch with
                | Some i => i =? v_id v
                | None => false
                end
                && match sch_venue_id asch with
                   | Some i => v_id v =? i
                   | None => false
                   end
                && negb (sch_activity_id asch =? sch_activity_id target_sch)
                && day_eqb (sch_day_of_week asch) (sch_day_of_week target_sch)
                && sch_is_active asch
                && (sch_activity_id asch =? a_id a)
                && activity_status_eqb (a_status a) act_active
                && (sch_activity_id target_sch =? activity_id)
                && sch_is_active target_sch
                && time_overlap_cond
                     (sch_start_time target_sch) (sch_end_time target_sch)
                     (sch_start_time asch) (sch_end_time asch)
             then [(a_id a, a_name a)]
             else [])
           (activities db))
         (activity_schedules db))
       (venues db))
     (activity_schedules db)).

(** req.body of POST /api/enrollments/register.  [None] is a field that is
    null or absent, for the fields the controller tests or defaults
    (student_id, activity_id, grade_level, enrolled_by); notes, which
    addToWaitlist binds as it is, is absent, null or a string. *)
Record register_body : Type := mk_register_body {
  rb_student_id : option Z;
  rb_activity_id : option Z;
  rb_grade_level : option Z;
  rb_enrolled_by : option Z;
  rb_notes : js_text
}.

(** The responses of registerStudent, by HTTP status. *)
Inductive register_response : Type :=
  | reg_400_required
  | reg_404_activity
  | reg_400_not_started (registration_starts : option Z)
  | reg_400_ended (registration_ended : option Z)
  | reg_400_already_enrolled
  | reg_400_grade_below (min_grade : option Z)
  | reg_400_grade_above (max_grade : option Z)
  | reg_409_time_overlap (conflict : time_conflict_row)
  | reg_200_waitlisted (position current_enrollments quota : Z)
  | reg_201_enrolled (data : option enrollment)
      (current_enrollments quota : Z)
  | reg_500 (error : sql_error).

(** 2. activity.registration_start && new Date(registration_start) > now *)
Definition registration_not_started (activity : activity) (now : Z) : bool :=
  match a_registration_start activity with
  | Some t => t >? now
  | None => false
  end.

(** 2. activity.registration_end && new Date(registration_end) < now *)
Definition registration_ended (activity : activity) (now : Z) : bool :=
  match a_registration_end activity with
  | Some t => t <? now
  | None => false
  end.

(** 5. activity.min_grade && grade_level < activity.min_grade *)
Definition below_min_grade (activity : activity) (grade_level : Z) : bool :=
  match a_min_grade activity with
  | Some g => negb (g =? 0) && (grade_level <? g)
  | None => false
  end.

(** 5. activity.max_grade && grade_level > activity.max_grade *)
Definition above_max_grade (activity : activity) (grade_level : Z) : bool :=
  match a_max_grade activity with
  | Some g => negb (g =? 0) && (grade_level >? g)
  | None => false
  end.

(** 8. parseInt(activity.quota || activity.max_students || 30) *)
Definition quota_of (activity : activity) : Z :=
  js_or (Some (a_quota activity)) (js_or (a_max_students activity) 30).

(** SELECT * FROM activity_enrollments WHERE id = ?, rows[0] *)
Definition enrollment_by_id (id : Z) (db : DB) : option enrollment :=
  hd_error (filter (fun e => e_id e =? id) (activity_enrollments db)).

(** 9. enrollQuery, bound to [student_id, activity_id, grade_level,
    enrolled_by || null, notes || null, activity.fee || 0]. *)
Definition enrollQuery (student_id activity_id grade_level : Z)
  (enrolled_by : option Z) (notes : option string) (payment_amount : Z)
  : Tx Z :=
  _ <- strict_INT (Some student_id) ;;
  _ <- strict_INT (Some grade_level) ;;
  _ <- strict_INT enrolled_by ;;
  _ <- strict_TEXT notes ;;
  insert_activity_enrollments student_id activity_id (Some grade_level)
    active enrolled_by notes payment_amount.

(** POST /api/enrollments/register.  Every [return] before the quota step
    follows connection.rollback(): the state is the one at beginTransaction,
    plus what logEnrollmentConflict writes after the rollback.  An error
    thrown by a statement reaches the catch block: rollback and 500; after
    the commit of the waitlist entry the rollback undoes nothing.  Step 4
    (age restrictions) has an empty body in the source and no counterpart
    here. *)
Definition registerStudent (now : Z) (req : register_body) (db : DB)
  : register_response * DB :=
  match rb_student_id req, rb_activity_id req, rb_grade_level req with
  | Some student_id, Some activity_id, Some grade_level =>
    if negb (truthy (Some student_id)) || negb (truthy (Some activity_id))
       || negb (truthy (Some grade_level))
    then (reg_400_required, db)
    else
    match activityQuery activity_id db with
    | [] => (reg_404_activity, db)
    | (activity, current_enrollments) :: _ =>
      if registration_not_started activity now
      then (reg_400_not_started (a_registration_start activity), db)
      else if registration_ended activity now
      then (reg_400_ended (a_registration_end activity), db)
      else if (0 <? Z.of_nat (List.length
                       (existingEnrollmentQuery student_id activity_id db)))
      then (reg_400_already_enrolled, db)
      else if below_min_grade activity grade_level
      then
        match logEnrollmentConflict student_id activity_id None
                grade_restriction None db with
        | inl error => (reg_500 error, db)
        | inr (_, db1) => (reg_400_grade_below (a_min_grade activity), db1)
        end
      else if above_max_grade activity grade_level
      then
        match logEnrollmentConflict student_id activity_id None
                grade_restriction None db with
        | inl error => (reg_500 error, db)
        | inr (_, db1) => (reg_400_grade_above (a_max_grade activity), db1)
        end
      else
      match timeConflictQuery student_id activity_id db with
      | conflict :: _ =>
          match logEnrollmentConflict student_id activity_id
                  (Some (conflicting_activity_id conflict)) time_overlap
                  (Some (conflicting_schedule_id conflict)) db with
          | inl error => (reg_500 error, db)
          | inr (_, db1) => (reg_409_time_overlap conflict, db1)
          end
      | [] =>
        let venueConflictResult := venueConflictQuery activity_id db in
        let currentCount := js_or (Some current_enrollments) 0 in
        let quota := quota_of activity in
        if currentCount >=? quota
        then
          match addToWaitlist student_id activity_id (Some grade_level)
                  (rb_notes req) db with
          | inl error => (reg_500 error, db)
          | inr (waitlistPosition, db1) =>
              match logEnrollmentConflict student_id activity_id None
                      quota_full None db1 with
              | inl error => (reg_500 error, db1)
              | inr (_, db2) =>
                  (reg_200_waitlisted waitlistPosition currentCount quota,
                   db2)
              end
          end
        else
          match enrollQuery student_id activity_id grade_level
                  (js_num_or_null (rb_enrolled_by req))
                  (js_text_or_null (rb_notes req))
                  (js_or (Some (a_fee activity)) 0) db with
          | inl error => (reg_500 error, db)
          | inr (insertId, db1) =>
              (reg_201_enrolled (enrollment_by_id insertId db1)
                 (currentCount + 1) quota,
               logAudit student_id "enrollment_created" "enrollment"
                 insertId db1)
          end
      end
    end
  | _, _, _ => (reg_400_required, db)
  end.

(** The HTTP status and the [success] field of each response. *)
Definition register_status (r : register_response) : Z :=
  match r with
  | reg_400_required | reg_400_not_started _ | reg_400_ended _
  | reg_400_already_enrolled | reg_400_grade_below _
  | reg_400_grade_above _ => 400
  | reg_404_activity => 404
  | reg_409_time_overlap _ => 409
  | reg_200_waitlisted _ _ _ => 200
  | reg_201_enrolled _ _ _ => 201
  | reg_500 _ => 500
  end.

Definition register_success (r : register_response) : bool :=
  match r with
  | reg_200_waitlisted _ _ _ | reg_201_enrolled _ _ _ => true
  | _ => false
  end.

(** req.body of POST /api/enrollments/cancel *)
Record cancel_body : Type := mk_cancel_body {
  cb_enrollment_id : Z;
  cb_student_id : Z;
  cb_reason : option string
}.

Inductive cancel_response : Type :=
  | cancel_404
  | cancel_200 (waitlist_promoted : option (Z * Z))
  | cancel_500 (error : sql_error).

(** SELECT * FROM activity_enrollments
    WHERE id = ? AND student_id = ? AND status = 'active' FOR UPDATE *)
Definition enrollmentQuery (enrollment_id student_id : Z) (db : DB)
  : list enrollment :=
  filter (fun e => (e_id e =? enrollment_id)
                   && (e_student_id e =? student_id)
                   && enrollment_status_eqb (e_status e) active)
         (activity_enrollments db).

Definition set_withdrawn (now : Z) (reason : string) (e : enrollment)
  : enrollment :=
  mk_enrollment (e_id e) (e_student_id e) (e_activity_id e) withdrawn
    (e_notes e) (e_grade_level e) (e_enrolled_by e) (e_payment_amount e)
    (Some now) (Some reason).

(** UPDATE activity_enrollments SET status = 'withdrawn',
    cancelled_at = CURRENT_TIMESTAMP, cancellation_reason = ? WHERE id = ? *)
Definition mark_withdrawn (now : Z) (reason : string) (enrollment_id : Z)
  (t : list enrollment) : list enrollment :=
  map (fun e => if e_id e =? enrollment_id
                then set_withdrawn now reason e else e) t.

Definition cancelQuery (now : Z) (reason : string) (enrollment_id : Z)
  : Tx unit :=
  fun db =>
    inr (tt,
         with_enrollments db
           (mark_withdrawn now reason enrollment_id
              (activity_enrollments db))).

(** POST /api/enrollments/cancel *)
Definition cancelEnrollment (now : Z) (req : cancel_body) (db : DB)
  : cancel_response * DB :=
  match enrollmentQuery (cb_enrollment_id req) (cb_student_id req) db with
  | [] => (cancel_404, db)
  | enrollment :: _ =>
      let activity_id := e_activity_id enrollment in
      match (_ <- cancelQuery now
                    (js_or_str (cb_reason req) "Student requested")
                    (cb_enrollment_id req) ;;
             promoteFromWaitlist now activity_id) db with
      | inl error => (cancel_500 error, db)
      | inr (promoted_student, db1) =>
          (cancel_200 promoted_student,
           logAudit (cb_student_id req) "enrollment_cancelled" "enrollment"
             (cb_enrollment_id req) db1)
      end
  end.

(** ** Basic enrollment controller *)

(** req.body of POST /api/enrollments *)
Record enroll_body : Type := mk_enroll_body {
  eb_student_id : option Z;
  eb_activity_id : option Z;
  eb_notes : option string
}.

Inductive enroll_response : Type :=
  | enroll_400_required
  | enroll_404_activity
  | enroll_400_full
  | enroll_400_already_enrolled
  | enroll_201 (data : option enrollment)
  | enroll_500 (error : sql_error).

(** error.code as the mysql2 driver sets it; the TypeError has none. *)
Definition error_code (error : sql_error) : option string :=
  match error with
  | ER_DUP_ENTRY _ => Some "ER_DUP_ENTRY"
  | ER_WARN_DATA_OUT_OF_RANGE => Some "ER_WARN_DATA_OUT_OF_RANGE"
  | ER_DATA_TOO_LONG => Some "ER_DATA_TOO_LONG"
  | bind_undefined => None
  end.

(** activityCheck: a.max_students and the count of 'active' enrollments, for
    the activity with this id whatever its status. *)
Definition activityCheck (activity_id : Z) (db : DB)
  : list (option Z * Z) :=
  map (fun a =>
         (a_max_students a,
          Z.of_nat
            (List.length
               (filter (fun ae => (a_id a =? e_activity_id ae)
                                  && enrollment_status_eqb (e_status ae)
                                       active)
                       (activity_enrollments db)))))
      (filter (fun a => a_id a =? activity_id) (activities db)).

(** parseInt(enrolled_count) >= parseInt(max_students); parseInt(null) is
    NaN, and every comparison with NaN is false. *)
Definition activity_is_full (max_students : option Z) (enrolled_count : Z)
  : bool :=
  match max_students with
  | Some m => enrolled_count >=? m
  | None => false
  end.

(** Enroll a student in an activity.  The statements run on the pool, each
    in its own implicit transaction. *)
Definition enrollStudent (req : enroll_body) (db : DB)
  : enroll_response * DB :=
  match eb_student_id req, eb_activity_id req with
  | Some student_id, Some activity_id =>
    if negb (truthy (Some student_id)) || negb (truthy (Some activity_id))
    then (enroll_400_required, db)
    else
    match activityCheck activity_id db with
    | [] => (enroll_404_activity, db)
    | (max_students, enrolled_count) :: _ =>
      if activity_is_full max_students enrolled_count
      then (enroll_400_full, db)
      else if (0 <? Z.of_nat (List.length
                 (filter (same_enrollment_key student_id activity_id)
                         (activity_enrollments db))))
      then (enroll_400_already_enrolled, db)
      else
        match (_ <- strict_INT (Some student_id) ;;
               _ <- strict_TEXT (js_or_null (eb_notes req)) ;;
               insert_activity_enrollments student_id activity_id None
                 active None (js_or_null (eb_notes req)) 0) db with
        | inl error =>
            if match error_code error with
               | Some code => String.eqb code "23505"
               | None => false
               end
            then (enroll_400_already_enrolled, db)
            else (enroll_500 error, db)
        | inr (insertId, db1) =>
            (enroll_201 (enrollment_by_id insertId db1), db1)
        end
    end
  | _, _ => (enroll_400_required, db)
  end.

Inductive update_response : Type :=
  | upd_200
  | upd_400
  | upd_404.

(** UPDATE activity_enrollments SET status = ? WHERE id = ?: the new table
    and affectedRows. *)
Definition update_status (status : enrollment_status) (enrollment_id : Z)
  (db : DB) : DB * Z :=
  (with_enrollments db
     (map (fun e => if e_id e =? enrollment_id
                    then mk_enrollment (e_id e) (e_student_id e)
                           (e_activity_id e) status (e_notes e)
                           (e_grade_level e) (e_enrolled_by e)
                           (e_payment_amount e) (e_cancelled_at e)
                           (e_cancellation_reason e)
                    else e)
          (activity_enrollments db)),
   Z.of_nat (List.length (filter (fun e => e_id e =? enrollment_id)
                                 (activity_enrollments db)))).

(** Withdraw a student from an activity. *)
Definition withdrawEnrollment (enrollmentId : Z) (db : DB)
  : update_response * DB :=
  let (db1, affectedRows) := update_status withdrawn enrollmentId db in
  if affectedRows =? 0 then (upd_404, db1) else (upd_200, db1).

Definition validStatuses : list enrollment_status :=
  [active; approved; rejected; withdrawn; completed].

(** Update enrollment status (for coach approval/rejection); [None] is a
    request without a status. *)
Definition updateEnrollmentStatus (enrollmentId : Z)
  (status : option enrollment_status) (db : DB) : update_response * DB :=
  match status with
  | None => (upd_400, db)
  | Some status =>
      if negb (existsb (enrollment_status_eqb status) validStatuses)
      then (upd_400, db)
      else
        let (db1, affectedRows) := update_status status enrollmentId db in
        if affectedRows =? 0 then (upd_404, db1) else (upd_200, db1)
  end.

(** Delete an enrollment (admin only). *)
Definition deleteEnrollment (enrollmentId : Z) (db : DB)
  : update_response * DB :=
  match filter (fun e => e_id e =? enrollmentId) (activity_enrollments db)
  with
  | [] => (upd_404, db)
  | _ :: _ =>
      (upd_200,
       with_enrollments db
         (filter (fun e => negb (e_id e =? enrollmentId))
                 (activity_enrollments db)))
  end.

(** Delete an activity (activity controller).  The foreign keys of
    activity_schedules, activity_enrollments and activity_waitlist are
    declared ON DELETE CASCADE. *)
Definition deleteActivity (id : Z) (db : DB) : update_response * DB :=
  match filter (fun a => a_id a =? id) (activities db) with
  | [] => (upd_404, db)
  | _ :: _ =>
      (upd_200,
       mk_DB (filter (fun a => negb (a_id a =? id)) (activities db))
             (venues db)
             (filter (fun s => negb (sch_activity_id s =? id))
                     (activity_schedules db))
             (filter (fun e => negb (e_activity_id e =? id))
                     (activity_enrollments db))
             (filter (fun w => negb (w_activity_id w =? id))
                     (activity_waitlist db))
             (enrollment_conflicts db) (audit_log db))
  end.

(** ** Constraints the schema declares *)

Definition enrollment_key (e : enrollment) : Z * Z :=
  (e_student_id e, e_activity_id e).

Definition waitlist_key (w : waitlist_entry) : Z * Z :=
  (w_student_id w, w_activity_id w).

(** UNIQUE KEY unique_enrollment (student_id, activity_id) *)
Definition unique_enrollment (db : DB) : Prop :=
  NoDup (map enrollment_key (activity_enrollments db)).

(** PRIMARY KEYs and UNIQUE KEYs of the tables the controllers use. *)
Record schema_ok (db : DB) : Prop := mk_schema_ok {
  pk_activities : NoDup (map a_id (activities db));
  pk_schedules : NoDup (map sch_id (activity_schedules db));
  pk_enrollments : NoDup (map e_id (activity_enrollments db));
  uk_enrollments : unique_enrollment db;
  pk_waitlist : NoDup (map w_id (activity_waitlist db));
  uk_waitlist : NoDup (map waitlist_key (activity_waitlist db))
}.

(** ** Reachable states *)

(** One request served by either controller. *)
Inductive step (db : DB) : DB -> Prop :=
  | step_registerStudent now req :
      step db (snd (registerStudent now req db))
  | step_cancelEnrollment now req :
      step db (snd (cancelEnrollment now req db))
  | step_enrollStudent req :
      step db (snd (enrollStudent req db))
  | step_withdrawEnrollment id :
      step db (snd (withdrawEnrollment id db))
  | step_updateEnrollmentStatus id status :
      step db (snd (updateEnrollmentStatus id status db))
  | step_deleteEnrollment id :
      step db (snd (deleteEnrollment id db))
  | step_deleteActivity id :
      step db (snd (deleteActivity id db)).

(** States reached from a store that satisfies its keys. *)
Inductive reachable : DB -> Prop :=
  | reachable_init db : schema_ok db -> reachable db
  | reachable_step db db' : reachable db -> step db db' -> reachable db'.

(** The state promoteFromWaitlist leaves when it promotes [w]. *)
Definition promoted_state (now activity_id : Z) (w : waitlist_entry)
  (db : DB) : DB :=
  with_waitlist
    (with_enrollments db
       (activity_enrollments db ++
        [mk_enrollment (next_id e_id (activity_enrollments db))
           (w_student_id w) activity_id active
           (Some "Promoted from waitlist") (w_grade_level w) None 0 None
           None]))
    (map (fun x => if w_id x =? w_id w then set_promoted now x else x)
         (activity_waitlist db)).

(** ** The spec's overlap rule *)

(** The half-open rule of the spec's Conflict Checker, in its words:
    overlap = start_A < end_B AND start_B < end_A. *)
Definition half_open_overlap (start_A end_A start_B end_B : Z) : Prop :=
  start_A < end_B /\ start_B < end_A.

(** The condition of the spec's Conflict Checker, in its words: the student
    holds an active enrollment in another active activity that has an active
    schedule on the same day-of-week whose interval overlaps, by the
    half-open rule, an active schedule of the target activity. *)
Definition true_schedule_conflict (student_id activity_id : Z) (db : DB)
  : Prop :=
  exists ae a asch target_sch,
    In ae (activity_enrollments db) /\ In a (activities db)
    /\ In asch (activity_schedules db)
    /\ In target_sch (activity_schedules db)
    /\ e_student_id ae = student_id /\ e_status ae = active
    /\ e_activity_id ae = a_id a /\ a_id a <> activity_id
    /\ a_status a = act_active
    /\ sch_activity_id asch = a_id a /\ sch_is_active asch = true
    /\ sch_activity_id target_sch = activity_id
    /\ sch_is_active target_sch = true
    /\ sch_day_of_week target_sch = sch_day_of_week asch
    /\ half_open_overlap (sch_start_time target_sch) (sch_end_time target_sch)
         (sch_start_time asch) (sch_end_time asch).

(** The spec's count for the Capacity Gate, in its words: the number of the
    activity's enrollments with status in {active, approved}. *)
Definition active_or_approved_count (activity_id : Z) (db : DB) : Z :=
  Z.of_nat
    (List.length
       (filter (fun e => (e_activity_id e =? activity_id)
                         && (enrollment_status_eqb (e_status e) active
                             || enrollment_status_eqb (e_status e) approved))
               (activity_enrollments db))).

(** ** Example stores *)

Module Examples.

Definition hm (h m : Z) : Z := h * 3600 + m * 60.

Definition plain_activity (id : Z) (name : string) (quota : Z) : activity :=
  mk_activity id name (Some quota) 0 quota (Some 5) (Some 18) (Some 1)
    (Some 12) act_active None None.

Definition plain_enrollment (id student_id activity_id : Z)
  (status : enrollment_status) : enrollment :=
  mk_enrollment id student_id activity_id status (Some "joining") (Some 5)
    None 0 None None.

Definition plain_waiting (id student_id activity_id priority position : Z)
  : waitlist_entry :=
  mk_waitlist id student_id activity_id (Some 5) priority position None
    waiting (Some "joining").

(** A request with every field but enrolled_by. *)
Definition register (student_id activity_id : Z) : register_body :=
  mk_register_body (Some student_id) (Some activity_id) (Some 5) None
    (js_value (Some "joining")).

(** Activity 1 on Monday 16:00-17:00, activity 2 on Monday 16:30-17:30,
    activity 3 on Monday 17:00-18:00; student 7 holds an active enrollment
    in activity 1. *)
Definition store_AB : DB :=
  mk_DB [plain_activity 1 "A" 30; plain_activity 2 "B" 30;
         plain_activity 3 "C" 30]
        []
        [mk_schedule 1 1 None monday (hm 16 0) (hm 17 0) true;
         mk_schedule 2 2 None monday (hm 16 30) (hm 17 30) true;
         mk_schedule 3 3 None monday (hm 17 0) (hm 18 0) true]
        [plain_enrollment 1 7 1 active]
        [] [] [].

(** One activity with a single seat. *)
Definition one_seat (enrollments : list enrollment)
  (waitlist : list waitlist_entry) : DB :=
  mk_DB [plain_activity 1 "Chess Club" 1] [] [] enrollments waitlist [] [].

(** Student 8 holds the seat; student 7 has an approved enrollment. *)
Definition store_approved_full : DB :=
  one_seat [plain_enrollment 1 8 1 active; plain_enrollment 2 7 1 approved]
    [].

(** The only enrollment of the activity is approved. *)
Definition store_approved_only : DB :=
  one_seat [plain_enrollment 1 8 1 approved] [].


(** Student 8 holds the seat; nobody waits. *)
Definition store_full : DB :=
  one_seat [plain_enrollment 1 8 1 active] [].

(** Student 7 then registered and was put on the waitlist. *)
Definition store_already_waiting : DB :=
  snd (registerStudent 1 (register 7 1) store_full).

(** No enrollment, nobody waits. *)
Definition store_empty : DB := one_seat [] [].

(** Student 7 registered in the empty store. *)
Definition store_after_register : DB :=
  snd (registerStudent 0 (register 7 1) store_empty).

(** Student 7 then cancelled enrollment 1. *)
Definition store_after_cancel : DB :=
  snd (cancelEnrollment 1 (mk_cancel_body 1 7 None) store_after_register).



(** Student 9 holds the seat; S1 (priority 0), S2 (priority 5) and S3
    (priority 0) wait, queued in that order. *)
Definition store_priority : DB :=
  one_seat [plain_enrollment 1 9 1 active]
    [plain_waiting 1 101 1 0 1; plain_waiting 2 102 1 5 2;
     plain_waiting 3 103 1 0 3].

End Examples.

(** ** Access-control middleware in front of the enhanced routes *)

(** user_roles.role ENUM('admin', 'coach', 'student', 'parent', 'staff') *)
Inductive role : Type :=
  | role_admin | role_coach | role_student | role_parent | role_staff.

Definition role_eqb (x y : role) : bool :=
  match x, y with
  | role_admin, role_admin | role_coach, role_coach
  | role_student, role_student | role_parent, role_parent
  | role_staff, role_staff => true
  | _, _ => false
  end.

Record user_role : Type := mk_user_role {
  ur_user_id : Z;
  ur_role : role;
  ur_entity_id : option Z;
  ur_entity_type : option string;
  ur_expires_at : option Z
}.

(** The user id requireRole binds to its query: a number, or the string the
    query string gives. *)
Inductive bound_id : Type :=
  | id_number (n : Z)
  | id_string (s : string).

(** req.user?.id || req.body.user_id || req.query.user_id, when that value
    is truthy.  The ids of req.user and of the JSON body are numbers; the
    query string, naming user_id at most once, gives a string. *)
Definition userId_of (req_user_id body_user_id : option Z)
  (query_user_id : option string) : option bound_id :=
  match js_num_or_null req_user_id with
  | Some n => Some (id_number n)
  | None =>
      match js_num_or_null body_user_id with
      | Some n => Some (id_number n)
      | None =>
          match js_or_null query_user_id with
          | Some s => Some (id_string s)
          | None => None
          end
      end
  end.

(** user_id = ?, on the INT column and the bound value.  How MySQL compares
    the column with a string is the parameter [int_eq_string]. *)
Definition user_id_matches (int_eq_string : Z -> string -> bool)
  (userId : bound_id) (r : user_role) : bool :=
  match userId with
  | id_number n => ur_user_id r =? n
  | id_string s => int_eq_string (ur_user_id r) s
  end.

(** SELECT role, entity_id, entity_type, expires_at FROM user_roles
    WHERE user_id = ? AND (expires_at IS NULL
                           OR expires_at > CURRENT_TIMESTAMP).
    The statement has no ORDER BY: the order in which the server returns the
    rows is the parameter [row_order]. *)
Definition rolesQuery (int_eq_string : Z -> string -> bool)
  (row_order : list user_role -> list user_role) (userId : bound_id)
  (now : Z) (user_roles : list user_role) : list user_role :=
  row_order
    (filter (fun r => user_id_matches int_eq_string userId r
                      && match ur_expires_at r with
                         | None => true
                         | Some t => t >? now
                         end)
            user_roles).

(** What requireRole does with the request: a response, or next() with
    req.userRoles and req.primaryRole set. *)
Inductive require_role_result : Type :=
  | rr_401
  | rr_403_no_roles
  | rr_403_insufficient (required current : list role)
  | rr_next (userRoles : list user_role) (primaryRole : role).

(** requireRole(allowedRoles), on req.user?.id, req.body.user_id and
    req.query.user_id. *)
Definition requireRole (int_eq_string : Z -> string -> bool)
  (row_order : list user_role -> list user_role) (allowedRoles : list role)
  (req_user_id body_user_id : option Z) (query_user_id : option string)
  (now : Z) (user_roles : list user_role) : require_role_result :=
  match userId_of req_user_id body_user_id query_user_id with
  | None => rr_401
  | Some userId =>
      match rolesQuery int_eq_string row_order userId now user_roles with
      | [] => rr_403_no_roles
      | first :: rest =>
          let userRoles := map ur_role (first :: rest) in
          let hasRequiredRole :=
            existsb (fun role => existsb (role_eqb role) userRoles)
                    allowedRoles in
          if negb hasRequiredRole
          then rr_403_insufficient allowedRoles userRoles
          else rr_next (first :: rest) (ur_role first)
      end
  end.

Definition requireAdmin (int_eq_string : Z -> string -> bool)
  (row_order : list user_role -> list user_role)
  : option Z -> option Z -> option string -> Z -> list user_role ->
    require_role_result :=
  requireRole int_eq_string row_order [role_admin].

(** What checkEnrollmentWindow does with the request. *)
Inductive window_result : Type :=
  | win_400_required
  | win_404
  | win_400_inactive
  | win_400_not_started (registration_starts : option Z)
  | win_400_ended (registration_ended : option Z)
  | win_next.

(** checkEnrollmentWindow, on req.body.activity_id and req.primaryRole
    (absent when no requireRole ran before). *)
Definition checkEnrollmentWindow (primaryRole : option role)
  (activity_id : option Z) (now : Z) (db : DB) : window_result :=
  if negb (truthy activity_id) then win_400_required
  else
    match activity_id with
    | None => win_400_required
    | Some activity_id =>
        match filter (fun a => a_id a =? activity_id) (activities db) with
        | [] => win_404
        | activity :: _ =>
            if match primaryRole with
               | Some r => role_eqb r role_admin
               | None => false
               end
            then win_next
            else if negb (activity_status_eqb (a_status activity) act_active)
            then win_400_inactive
            else if registration_not_started activity now
            then win_400_not_started (a_registration_start activity)
            else if registration_ended activity now
            then win_400_ended (a_registration_end activity)
            else win_next
        end
    end.

(** ** Counts and invariants of the tables *)

(** COUNT of the activity's enrollments with status 'active', as
    activityQuery and activityCheck take it. *)
Definition active_count (activity_id : Z) (db : DB) : Z :=
  Z.of_nat
    (List.length
       (filter (fun ae => (e_activity_id ae =? activity_id)
                          && enrollment_status_eqb (e_status ae) active)
               (activity_enrollments db))).

(** The positions of the activity's waiting entries, in table order. *)
Definition waiting_positions (activity_id : Z) (db : DB) : list Z :=
  map w_position
    (filter (fun w => (w_activity_id w =? activity_id)
                      && waitlist_status_eqb (w_status w) waiting)
            (activity_waitlist db)).

(** No two waiting entries of one activity share a position. *)
Definition distinct_waiting_positions (db : DB) : Prop :=
  forall activity_id, NoDup (waiting_positions activity_id db).

(** Every promoted waitlist entry has an enrollment row for its student
    and activity. *)
Definition promoted_have_rows (db : DB) : Prop :=
  forall w, In w (activity_waitlist db) -> w_status w = promoted ->
    exists e, In e (activity_enrollments db)
              /\ e_student_id e = w_student_id w
              /\ e_activity_id e = w_activity_id w.

(** The row update_status writes for a matching id. *)
Definition set_status (status : enrollment_status) (e : enrollment)
  : enrollment :=
  mk_enrollment (e_id e) (e_student_id e) (e_activity_id e) status
    (e_notes e) (e_grade_level e) (e_enrolled_by e) (e_payment_amount e)
    (e_cancelled_at e) (e_cancellation_reason e).

(** No activity has more active enrollments than its capacity. *)
Definition within_capacity (db : DB) : Prop :=
  forall act, In act (activities db) ->
              active_count (a_id act) db <= quota_of act.

(** One request served by the enhanced enrollment controller. *)
Inductive enhanced_step (db : DB) : DB -> Prop :=
  | enhanced_registerStudent now req :
      enhanced_step db (snd (registerStudent now req db))
  | enhanced_cancelEnrollment now req :
      enhanced_step db (snd (cancelEnrollment now req db)).

(** [l] is [l'] with rows appended. *)
Definition extends {A : Type} (l l' : list A) : Prop :=
  exists added, l' = l ++ added.

Module MoreExamples.

(** User 1 is an administrator until time 50 and is also the student 7;
    user 2 is the parent of student 7. *)
Definition roles : list user_role :=
  [mk_user_role 1 role_student (Some 7) (Some "student") None;
   mk_user_role 1 role_admin None None (Some 50);
   mk_user_role 2 role_parent (Some 7) (Some "student") None].

(** Activity 1 is inactive; activity 2 opens registration at 100 and closes
    it at 200. *)
Definition store_windows : DB :=
  mk_DB [mk_activity 1 "Closed" (Some 10) 0 10 None None None None
           act_inactive None None;
         mk_activity 2 "Timed" (Some 10) 0 10 None None (Some 3) (Some 8)
           act_active (Some 100) (Some 200)]
        [] [] [] [] [] [].

End MoreExamples.

(** * Proofs *)

(** ** Boolean comparisons *)

Ltac zcompare :=
  rewrite ?Z.geb_leb, ?Z.gtb_ltb in *;
  repeat match goal with
         | |- context [?a <? ?b] => destruct (Z.ltb_spec a b)
         | |- context [?a <=? ?b] => destruct (Z.leb_spec a b)
         | |- context [?a =? ?b] => destruct (Z.eqb_spec a b)
         end;
  simpl.

Lemma enrollment_status_eqb_eq (x y : enrollment_status) :
  enrollment_status_eqb x y = true <-> x = y.
Proof. destruct x, y; simpl; split; congruence. Qed.

Lemma waitlist_status_eqb_eq (x y : waitlist_status) :
  waitlist_status_eqb x y = true <-> x = y.
Proof. destruct x, y; simpl; split; congruence. Qed.

Lemma activity_status_eqb_eq (x y : activity_status) :
  activity_status_eqb x y = true <-> x = y.
Proof. destruct x, y; simpl; split; congruence. Qed.

(** ** Lists as tables *)

Section Tables.

Context {A : Type}.

Lemma flat_map_nil {B : Type} (f : A -> list B) (l : list A) :
  (forall x, In x l -> f x = []) -> flat_map f l = [].
Proof.
  induction l as [| x l IH]; simpl; intros H; [reflexivity |].
  rewrite (H x (or_introl eq_refl)). simpl. apply IH. intros; apply H; auto.
Qed.

Lemma NoDup_key_inj {K : Type} (key : A -> K) (l : list A) (x y : A) :
  NoDup (map key l) -> In x l -> In y l -> key x = key y -> x = y.
Proof.
  induction l as [| z l IH]; simpl; intros ND Hx Hy E; [contradiction |].
  inversion ND as [| ? ? Hnot ND']; subst.
  destruct Hx as [-> | Hx], Hy as [-> | Hy]; auto.
  - exfalso. apply Hnot. rewrite E. now apply in_map.
  - exfalso. apply Hnot. rewrite <- E. now apply in_map.
Qed.

Lemma filter_nil_iff (p : A -> bool) (l : list A) :
  filter p l = [] <-> forall x, In x l -> p x = false.
Proof.
  induction l as [| z l IH]; simpl.
  - tauto.
  - destruct (p z) eqn:E; split.
    + discriminate.
    + intros H. specialize (H z (or_introl eq_refl)). congruence.
    + intros H x [-> | Hx]; [exact E | now apply IH].
    + intros H. apply IH. intros; apply H; auto.
Qed.

Lemma existsb_false_iff (p : A -> bool) (l : list A) :
  existsb p l = false <-> forall x, In x l -> p x = false.
Proof.
  induction l as [| z l IH]; simpl.
  - tauto.
  - rewrite orb_false_iff, IH. split.
    + intros [E H] x [-> | Hx]; auto.
    + intros H; split; [| intros]; apply H; auto.
Qed.

End Tables.

(** ** C5: the overlap condition *)

(** C5. For two same-day intervals with start < end, the three-case
    disjunction of the conflict queries holds exactly when the half-open rule
    [start_A < end_B /\ start_B < end_A] holds, and two intervals that touch
    only at an endpoint satisfy neither. *)
Theorem overlap_three_case_iff_half_open (start_A end_A start_B end_B : Z) :
  start_A < end_A -> start_B < end_B ->
  (time_overlap_cond start_A end_A start_B end_B = true
   <-> half_open_overlap start_A end_A start_B end_B)
  /\ (end_A = start_B \/ end_B = start_A ->
      time_overlap_cond start_A end_A start_B end_B = false
      /\ ~ half_open_overlap start_A end_A start_B end_B).
Proof.
  intros HA HB. unfold time_overlap_cond, half_open_overlap.
  zcompare; (split; [split; [try discriminate; intros; lia | intros; try reflexivity; lia]
                    | intros; split; [try reflexivity; lia | lia]]).
Qed.

Lemma overlap_three_case_iff_half_open_witness :
  (Examples.hm 16 30 < Examples.hm 17 30 /\ Examples.hm 16 0 < Examples.hm 17 0)
  /\ ((time_overlap_cond (Examples.hm 16 30) (Examples.hm 17 30)
         (Examples.hm 16 0) (Examples.hm 17 0) = true
       <-> half_open_overlap (Examples.hm 16 30) (Examples.hm 17 30)
             (Examples.hm 16 0) (Examples.hm 17 0))
      /\ (Examples.hm 17 30 = Examples.hm 16 0
          \/ Examples.hm 17 0 = Examples.hm 16 30 ->
          time_overlap_cond (Examples.hm 16 30) (Examples.hm 17 30)
            (Examples.hm 16 0) (Examples.hm 17 0) = false
          /\ ~ half_open_overlap (Examples.hm 16 30) (Examples.hm 17 30)
                 (Examples.hm 16 0) (Examples.hm 17 0))).
Proof.
  split; [split; reflexivity |].
  apply (overlap_three_case_iff_half_open (Examples.hm 16 30)
           (Examples.hm 17 30) (Examples.hm 16 0) (Examples.hm 17 0));
    reflexivity.
Defined.

(** ** C10: required fields *)

(** C10. A request that lacks student_id, activity_id or grade_level is
    answered 400 with the state it arrived in, whatever that state is:
    nothing is read or written before the check. *)
Theorem registerStudent_requires_fields (now : Z) (req : register_body)
  (db : DB) :
  rb_student_id req = None \/ rb_activity_id req = None
  \/ rb_grade_level req = None ->
  registerStudent now req db = (reg_400_required, db)
  /\ register_status (fst (registerStudent now req db)) = 400.
Proof.
  intros H. unfold registerStudent.
  destruct (rb_student_id req), (rb_activity_id req), (rb_grade_level req);
    try (split; reflexivity).
  destruct H as [H | [H | H]]; discriminate.
Qed.

Lemma registerStudent_requires_fields_witness :
  (rb_student_id
     (mk_register_body (Some 7) (Some 2) None None js_undefined) = None
   \/ rb_activity_id
        (mk_register_body (Some 7) (Some 2) None None js_undefined) = None
   \/ rb_grade_level
        (mk_register_body (Some 7) (Some 2) None None js_undefined) = None)
  /\ registerStudent 0
       (mk_register_body (Some 7) (Some 2) None None js_undefined)
       Examples.store_AB
     = (reg_400_required, Examples.store_AB).
Proof.
  split.
  - right; right; reflexivity.
  - apply (registerStudent_requires_fields 0
             (mk_register_body (Some 7) (Some 2) None None js_undefined)
             Examples.store_AB).
    right; right; reflexivity.
Defined.

(** A falsy value (0) in one of the three fields is refused the same way. *)
Lemma registerStudent_refuses_zero (now : Z) (req : register_body) (db : DB) :
  rb_student_id req = Some 0 \/ rb_activity_id req = Some 0
  \/ rb_grade_level req = Some 0 ->
  registerStudent now req db = (reg_400_required, db).
Proof.
  intros H. unfold registerStudent.
  destruct (rb_student_id req) as [s |], (rb_activity_id req) as [a |],
    (rb_grade_level req) as [g |]; try reflexivity.
  destruct H as [H | [H | H]]; inversion H; subst; simpl;
    rewrite ?orb_true_r; reflexivity.
Qed.

(** ** Strict SQL mode on the values a request binds *)

Lemma fits_INT_spec (v : Z) :
  fits_INT v = true <-> -2147483648 <= v <= 2147483647.
Proof.
  unfold fits_INT. rewrite andb_true_iff, !Z.leb_le. tauto.
Qed.

Lemma strict_INT_inr (v : option Z) (db : DB) (r : unit * DB) :
  strict_INT v db = inr r ->
  r = (tt, db) /\ forall n, v = Some n -> fits_INT n = true.
Proof.
  unfold strict_INT. destruct v as [n |].
  - destruct (fits_INT n) eqn:F; [| discriminate].
    intros H; inversion H. split; [reflexivity |].
    intros n' E; inversion E; subst; exact F.
  - intros H; inversion H. split; [reflexivity | discriminate].
Qed.

Lemma strict_INT_accepts (v : option Z) (db : DB) :
  (forall n, v = Some n -> fits_INT n = true) ->
  strict_INT v db = inr (tt, db).
Proof.
  intros H. unfold strict_INT. destruct v as [n |]; [| reflexivity].
  now rewrite (H n eq_refl).
Qed.

Lemma strict_TEXT_inr (s : option string) (db : DB) (r : unit * DB) :
  strict_TEXT s db = inr r ->
  r = (tt, db) /\ forall v, s = Some v -> fits_TEXT v = true.
Proof.
  unfold strict_TEXT. destruct s as [v |].
  - destruct (fits_TEXT v) eqn:F; [| discriminate].
    intros H; inversion H. split; [reflexivity |].
    intros v' E; inversion E; subst; exact F.
  - intros H; inversion H. split; [reflexivity | discriminate].
Qed.

Lemma strict_TEXT_accepts (s : option string) (db : DB) :
  (forall v, s = Some v -> fits_TEXT v = true) ->
  strict_TEXT s db = inr (tt, db).
Proof.
  intros H. unfold strict_TEXT. destruct s as [v |]; [| reflexivity].
  now rewrite (H v eq_refl).
Qed.

(** logEnrollmentConflict appends its record, or fails on a student_id that
    does not fit, leaving the state alone. *)
Lemma logEnrollmentConflict_spec student_id attempted conflicting type
  schedule db :
  (fits_INT student_id = true
   /\ logEnrollmentConflict student_id attempted conflicting type schedule db
      = inr (tt,
             with_conflicts db
               (enrollment_conflicts db ++
                [mk_conflict student_id attempted conflicting schedule
                   type])))
  \/ (fits_INT student_id = false
      /\ logEnrollmentConflict student_id attempted conflicting type schedule
           db = inl ER_WARN_DATA_OUT_OF_RANGE).
Proof.
  unfold logEnrollmentConflict, bind, strict_INT.
  destruct (fits_INT student_id); [left | right]; split; reflexivity.
Qed.

(** ** The time conflict query *)

(** Every row of timeConflictQuery joins an active enrollment of the student
    in the target activity itself: [asch.id IN (...)] keeps only (ae, a,
    asch) whose schedule asch is one of the target activity's. *)
Lemma timeConflictQuery_joins_target (student_id activity_id : Z) (db : DB) :
  NoDup (map sch_id (activity_schedules db)) ->
  timeConflictQuery student_id activity_id db <> [] ->
  exists ae, In ae (activity_enrollments db)
             /\ e_student_id ae = student_id
             /\ e_activity_id ae = activity_id
             /\ e_status ae = active.
Proof.
  intros ND Hne.
  destruct (existsb (fun ae => (e_student_id ae =? student_id)
                               && (e_activity_id ae =? activity_id)
                               && enrollment_status_eqb (e_status ae) active)
              (activity_enrollments db)) eqn:Ex.
  - apply existsb_exists in Ex. destruct Ex as (ae & Hin & E).
    rewrite !andb_true_iff, !Z.eqb_eq, enrollment_status_eqb_eq in E.
    exists ae. tauto.
  - exfalso. apply Hne. unfold timeConflictQuery.
    rewrite existsb_false_iff in Ex.
    apply flat_map_nil; intros ae Hae.
    apply flat_map_nil; intros a Ha.
    apply flat_map_nil; intros asch Hasch.
    match goal with |- (if ?c then _ else _) = _ => destruct c eqn:E end;
      [exfalso | reflexivity].
    rewrite !andb_true_iff in E.
    destruct E as [[[[[[[E1 E2] E3] E4] E5] E6] E7] E8].
    apply existsb_exists in E7. destruct E7 as (s' & Hs' & Eid).
    apply filter_In in Hs'. destruct Hs' as [Hs' Ht].
    rewrite andb_true_iff in Ht. destruct Ht as [Ht _].
    rewrite Z.eqb_eq in *.
    assert (s' = asch) by (eapply (NoDup_key_inj sch_id); eauto). subst s'.
    specialize (Ex ae Hae).
    rewrite !andb_false_iff in Ex.
    destruct Ex as [[Ex | Ex] | Ex].
    + rewrite Z.eqb_neq in Ex. congruence.
    + rewrite Z.eqb_neq in Ex. congruence.
    + congruence.
Qed.

Lemma existingEnrollmentQuery_nil (student_id activity_id : Z) (db : DB) :
  existingEnrollmentQuery student_id activity_id db = [] <->
  forall e, In e (activity_enrollments db) ->
            e_student_id e = student_id -> e_activity_id e = activity_id ->
            e_status e <> active /\ e_status e <> enrolled.
Proof.
  unfold existingEnrollmentQuery. split.
  - intros H e Hin Hs Ha. apply map_eq_nil in H.
    rewrite filter_nil_iff in H. specialize (H e Hin).
    rewrite Hs, Ha, !Z.eqb_refl in H. simpl in H.
    destruct (e_status e); simpl in H; try discriminate; split; discriminate.
  - intros H.
    replace (filter _ _) with (@nil enrollment); [reflexivity |].
    symmetry. apply filter_nil_iff. intros e Hin.
    destruct (Z.eqb_spec (e_student_id e) student_id) as [Hs |]; [| reflexivity].
    destruct (Z.eqb_spec (e_activity_id e) activity_id) as [Ha |]; [| reflexivity].
    destruct (H e Hin Hs Ha) as [H1 H2].
    destruct (e_status e); simpl; congruence.
Qed.

Lemma timeConflictQuery_nil (student_id activity_id : Z) (db : DB) :
  NoDup (map sch_id (activity_schedules db)) ->
  existingEnrollmentQuery student_id activity_id db = [] ->
  timeConflictQuery student_id activity_id db = [].
Proof.
  intros ND Hex.
  destruct (timeConflictQuery student_id activity_id db) eqn:E; [reflexivity |].
  exfalso.
  destruct (timeConflictQuery_joins_target student_id activity_id db ND)
    as (ae & Hin & Hs & Ha & Hst); [congruence |].
  rewrite existingEnrollmentQuery_nil in Hex.
  destruct (Hex ae Hin Hs Ha). contradiction.
Qed.

(** registerStudent never answers 409: the duplicate check of step 3 has
    already returned for every request the conflict query could flag. *)
Lemma registerStudent_never_409 (now : Z) (req : register_body) (db : DB)
  (conflict : time_conflict_row) :
  NoDup (map sch_id (activity_schedules db)) ->
  fst (registerStudent now req db) <> reg_409_time_overlap conflict.
Proof.
  intros ND. unfold registerStudent.
  destruct (rb_student_id req) as [s |]; [| discriminate].
  destruct (rb_activity_id req) as [a |]; [| discriminate].
  destruct (rb_grade_level req) as [g |]; [| discriminate].
  destruct (_ || _); [discriminate |].
  destruct (activityQuery a db) as [| [act n] rest]; [discriminate |].
  destruct (registration_not_started act now); [discriminate |].
  destruct (registration_ended act now); [discriminate |].
  destruct (existingEnrollmentQuery s a db) eqn:Ex; [| discriminate].
  simpl.
  destruct (below_min_grade act g);
    [destruct (logEnrollmentConflict _ _ _ _ _ _) as [| [? ?]];
     discriminate |].
  destruct (above_max_grade act g);
    [destruct (logEnrollmentConflict _ _ _ _ _ _) as [| [? ?]];
     discriminate |].
  rewrite (timeConflictQuery_nil s a db ND Ex).
  destruct (_ >=? _).
  - destruct (addToWaitlist _ _ _ _ _) as [| [? ?]]; [discriminate |].
    destruct (logEnrollmentConflict _ _ _ _ _ _) as [| [? ?]]; discriminate.
  - destruct (enrollQuery _ _ _ _ _ _ _) as [| [? ?]]; discriminate.
Qed.

(** ** C1: the conflict check on the spec's own example *)

(** C1 (code defect). Student 7 holds an active enrollment in activity 1
    (Monday 16:00-17:00) and asks for activity 2 (Monday 16:30-17:30): the
    two schedules overlap, yet registerStudent answers 201, inserts the
    enrollment and logs no conflict. *)
Theorem registerStudent_misses_time_overlap :
  true_schedule_conflict 7 2 Examples.store_AB
  /\ fst (registerStudent 0 (Examples.register 7 2) Examples.store_AB)
     = reg_201_enrolled (Some (Examples.plain_enrollment 2 7 2 active)) 1 30
  /\ activity_enrollments
       (snd (registerStudent 0 (Examples.register 7 2) Examples.store_AB))
     = [Examples.plain_enrollment 1 7 1 active;
        Examples.plain_enrollment 2 7 2 active]
  /\ enrollment_conflicts
       (snd (registerStudent 0 (Examples.register 7 2) Examples.store_AB))
     = [].
Proof.
  split; [| repeat split; reflexivity].
  exists (Examples.plain_enrollment 1 7 1 active),
         (Examples.plain_activity 1 "A" 30),
         (mk_schedule 1 1 None monday (Examples.hm 16 0) (Examples.hm 17 0)
            true),
         (mk_schedule 2 2 None monday (Examples.hm 16 30) (Examples.hm 17 30)
            true).
  unfold half_open_overlap. simpl.
  repeat split; auto; try discriminate; reflexivity.
Qed.

(** ** What the statements do to the tables *)

Lemma insert_activity_enrollments_inr student_id activity_id grade_level
  status enrolled_by notes payment_amount db insertId db1 :
  insert_activity_enrollments student_id activity_id grade_level status
    enrolled_by notes payment_amount db = inr (insertId, db1) ->
  existsb (same_enrollment_key student_id activity_id)
    (activity_enrollments db) = false
  /\ insertId = next_id e_id (activity_enrollments db)
  /\ db1 = with_enrollments db
             (activity_enrollments db ++
              [mk_enrollment insertId student_id activity_id status notes
                 grade_level enrolled_by payment_amount None None]).
Proof.
  unfold insert_activity_enrollments.
  destruct (existsb _ _); [discriminate |].
  intros H; inversion H; subst. auto.
Qed.

Lemma insert_activity_enrollments_inl student_id activity_id grade_level
  status enrolled_by notes payment_amount db error :
  insert_activity_enrollments student_id activity_id grade_level status
    enrolled_by notes payment_amount db = inl error ->
  existsb (same_enrollment_key student_id activity_id)
    (activity_enrollments db) = true.
Proof.
  unfold insert_activity_enrollments.
  destruct (existsb _ _); [reflexivity | discriminate].
Qed.

Lemma insert_activity_enrollments_accepts student_id activity_id grade_level
  status enrolled_by notes payment_amount db :
  existsb (same_enrollment_key student_id activity_id)
    (activity_enrollments db) = false ->
  insert_activity_enrollments student_id activity_id grade_level status
    enrolled_by notes payment_amount db
  = inr (next_id e_id (activity_enrollments db),
         with_enrollments db
           (activity_enrollments db ++
            [mk_enrollment (next_id e_id (activity_enrollments db))
               student_id activity_id status notes grade_level enrolled_by
               payment_amount None None])).
Proof.
  intros H. unfold insert_activity_enrollments. now rewrite H.
Qed.

Lemma enrollQuery_inr student_id activity_id grade_level enrolled_by notes
  payment_amount db insertId db1 :
  enrollQuery student_id activity_id grade_level enrolled_by notes
    payment_amount db = inr (insertId, db1) ->
  fits_INT student_id = true /\ fits_INT grade_level = true
  /\ (forall n, enrolled_by = Some n -> fits_INT n = true)
  /\ (forall v, notes = Some v -> fits_TEXT v = true)
  /\ insert_activity_enrollments student_id activity_id (Some grade_level)
       active enrolled_by notes payment_amount db = inr (insertId, db1).
Proof.
  unfold enrollQuery, bind.
  destruct (strict_INT (Some student_id) db) as [| [[] d1]] eqn:C1;
    [discriminate |].
  destruct (strict_INT_inr _ _ _ C1) as [E1 F1]. inversion E1; subst d1.
  destruct (strict_INT (Some grade_level) db) as [| [[] d2]] eqn:C2;
    [discriminate |].
  destruct (strict_INT_inr _ _ _ C2) as [E2 F2]. inversion E2; subst d2.
  destruct (strict_INT enrolled_by db) as [| [[] d3]] eqn:C3;
    [discriminate |].
  destruct (strict_INT_inr _ _ _ C3) as [E3 F3]. inversion E3; subst d3.
  destruct (strict_TEXT notes db) as [| [[] d4]] eqn:C4; [discriminate |].
  destruct (strict_TEXT_inr _ _ _ C4) as [E4 F4]. inversion E4; subst d4.
  auto 10.
Qed.

Lemma enrollQuery_accepts student_id activity_id grade_level enrolled_by
  notes payment_amount db :
  fits_INT student_id = true -> fits_INT grade_level = true ->
  (forall n, enrolled_by = Some n -> fits_INT n = true) ->
  (forall v, notes = Some v -> fits_TEXT v = true) ->
  enrollQuery student_id activity_id grade_level enrolled_by notes
    payment_amount db
  = insert_activity_enrollments student_id activity_id (Some grade_level)
      active enrolled_by notes payment_amount db.
Proof.
  intros F1 F2 F3 F4. unfold enrollQuery, bind.
  rewrite (strict_INT_accepts (Some student_id))
    by (intros n E; inversion E; subst; exact F1).
  rewrite (strict_INT_accepts (Some grade_level))
    by (intros n E; inversion E; subst; exact F2).
  rewrite (strict_INT_accepts enrolled_by) by exact F3.
  rewrite (strict_TEXT_accepts notes) by exact F4.
  reflexivity.
Qed.

(** A refused enrollQuery is a value that does not fit, or the unique key. *)
Lemma enrollQuery_inl student_id activity_id grade_level enrolled_by notes
  payment_amount db error :
  enrollQuery student_id activity_id grade_level enrolled_by notes
    payment_amount db = inl error ->
  error = ER_WARN_DATA_OUT_OF_RANGE \/ error = ER_DATA_TOO_LONG
  \/ (error = ER_DUP_ENTRY "unique_enrollment"
      /\ existsb (same_enrollment_key student_id activity_id)
           (activity_enrollments db) = true).
Proof.
  unfold enrollQuery, bind, strict_INT, strict_TEXT,
    insert_activity_enrollments.
  destruct (fits_INT student_id); [| intros H; inversion H; auto].
  destruct (fits_INT grade_level); [| intros H; inversion H; auto].
  destruct enrolled_by as [n |];
    [destruct (fits_INT n); [| intros H; inversion H; auto] |];
    (destruct notes as [v |];
     [destruct (fits_TEXT v); [| intros H; inversion H; auto] |]);
    (destruct (existsb _ _); [| discriminate]);
    intros H; inversion H; auto.
Qed.

Lemma addToWaitlist_inr student_id activity_id grade_level notes db
  position db1 :
  addToWaitlist student_id activity_id grade_level notes db
  = inr (position, db1) ->
  exists text,
    notes = js_value text
    /\ fits_INT student_id = true
    /\ (forall g, grade_level = Some g -> fits_INT g = true)
    /\ fits_INT position = true
    /\ (forall v, text = Some v -> fits_TEXT v = true)
    /\ existsb (same_waitlist_key student_id activity_id)
         (activity_waitlist db) = false
    /\ position = positionQuery activity_id db
    /\ db1 = with_waitlist db
               (activity_waitlist db ++
                [mk_waitlist (next_id w_id (activity_waitlist db))
                   student_id activity_id grade_level 0 position None
                   waiting text]).
Proof.
  unfold addToWaitlist. destruct notes as [| text]; [discriminate |].
  unfold bind.
  destruct (strict_INT (Some student_id) db) as [| [[] d1]] eqn:C1;
    [discriminate |].
  destruct (strict_INT_inr _ _ _ C1) as [E1 F1]. inversion E1; subst d1.
  destruct (strict_INT grade_level db) as [| [[] d2]] eqn:C2;
    [discriminate |].
  destruct (strict_INT_inr _ _ _ C2) as [E2 F2]. inversion E2; subst d2.
  destruct (strict_INT (Some (positionQuery activity_id db)) db)
    as [| [[] d3]] eqn:C3; [discriminate |].
  destruct (strict_INT_inr _ _ _ C3) as [E3 F3]. inversion E3; subst d3.
  destruct (strict_TEXT text db) as [| [[] d4]] eqn:C4; [discriminate |].
  destruct (strict_TEXT_inr _ _ _ C4) as [E4 F4]. inversion E4; subst d4.
  unfold insert_activity_waitlist, ret.
  destruct (existsb _ _); [discriminate |].
  intros H; inversion H; subst. exists text. auto 10.
Qed.

Lemma addToWaitlist_accepts student_id activity_id grade_level text db :
  fits_INT student_id = true ->
  (forall g, grade_level = Some g -> fits_INT g = true) ->
  fits_INT (positionQuery activity_id db) = true ->
  (forall v, text = Some v -> fits_TEXT v = true) ->
  existsb (same_waitlist_key student_id activity_id) (activity_waitlist db)
  = false ->
  addToWaitlist student_id activity_id grade_level (js_value text) db
  = inr (positionQuery activity_id db,
         with_waitlist db
           (activity_waitlist db ++
              [mk_waitlist (next_id w_id (activity_waitlist db)) student_id
                 activity_id grade_level 0 (positionQuery activity_id db)
                 None waiting text])).
Proof.
  intros F1 F2 F3 F4 H. unfold addToWaitlist, bind.
  rewrite (strict_INT_accepts (Some student_id))
    by (intros n E; inversion E; subst; exact F1).
  rewrite (strict_INT_accepts grade_level) by exact F2.
  rewrite (strict_INT_accepts (Some (positionQuery activity_id db)))
    by (intros n E; inversion E; subst; exact F3).
  rewrite (strict_TEXT_accepts text) by exact F4.
  unfold insert_activity_waitlist, ret. now rewrite H.
Qed.

(** ** Keys *)

Lemma NoDup_snoc {K : Type} (l : list K) (x : K) :
  NoDup l -> ~ In x l -> NoDup (l ++ [x]).
Proof.
  induction l as [| y l IH]; simpl; intros ND Hx.
  - constructor; [tauto | constructor].
  - inversion ND; subst. constructor.
    + rewrite in_app_iff. simpl. intuition congruence.
    + apply IH; tauto.
Qed.

Lemma NoDup_map_filter {A K : Type} (key : A -> K) (p : A -> bool)
  (l : list A) :
  NoDup (map key l) -> NoDup (map key (filter p l)).
Proof.
  induction l as [| x l IH]; simpl; intros ND; [constructor |].
  inversion ND; subst.
  destruct (p x); simpl; auto.
  constructor; auto.
  intros Hin. apply in_map_iff in Hin. destruct Hin as (y & E & Hy).
  apply filter_In in Hy. destruct Hy as [Hy _].
  match goal with H : ~ In _ _ |- _ => apply H end.
  rewrite <- E. now apply in_map.
Qed.

Lemma map_key_update {A K : Type} (key : A -> K) (test : A -> bool)
  (f : A -> A) (l : list A) :
  (forall x, key (f x) = key x) ->
  map key (map (fun x => if test x then f x else x) l) = map key l.
Proof.
  intros Hf. rewrite map_map. apply map_ext.
  intros x. destruct (test x); auto.
Qed.

Lemma same_enrollment_key_spec student_id activity_id e :
  same_enrollment_key student_id activity_id e = true
  <-> enrollment_key e = (student_id, activity_id).
Proof.
  unfold same_enrollment_key, enrollment_key.
  rewrite andb_true_iff, !Z.eqb_eq. split.
  - intros [-> ->]; reflexivity.
  - intros H; inversion H; auto.
Qed.

Lemma no_enrollment_key student_id activity_id (l : list enrollment) :
  existsb (same_enrollment_key student_id activity_id) l = false
  <-> ~ In (student_id, activity_id) (map enrollment_key l).
Proof.
  rewrite existsb_false_iff, in_map_iff. split.
  - intros H (e & E & Hin). apply same_enrollment_key_spec in E.
    rewrite (H e Hin) in E. discriminate.
  - intros H e Hin.
    destruct (same_enrollment_key student_id activity_id e) eqn:E; auto.
    exfalso. apply H. exists e. split; auto.
    now apply same_enrollment_key_spec.
Qed.

Lemma insert_activity_enrollments_unique student_id activity_id grade_level
  status enrolled_by notes payment_amount db insertId db1 :
  unique_enrollment db ->
  insert_activity_enrollments student_id activity_id grade_level status
    enrolled_by notes payment_amount db = inr (insertId, db1) ->
  unique_enrollment db1.
Proof.
  intros U H. apply insert_activity_enrollments_inr in H.
  destruct H as (Hno & _ & ->).
  unfold unique_enrollment. simpl. rewrite map_app. simpl.
  apply NoDup_snoc; [exact U |]. now apply no_enrollment_key.
Qed.

(** With the unique key, a (student, activity) pair has at most one row, so
    at most one with status active or approved. *)
Lemma unique_enrollment_at_most_one (db : DB) (student_id activity_id : Z)
  (p : enrollment -> bool) :
  unique_enrollment db ->
  (List.length
     (filter (fun e => same_enrollment_key student_id activity_id e && p e)
             (activity_enrollments db)) <= 1)%nat.
Proof.
  unfold unique_enrollment.
  induction (activity_enrollments db) as [| x l IH]; simpl; intros ND.
  - lia.
  - inversion ND as [| ? ? Hnot ND']; subst.
    destruct (same_enrollment_key student_id activity_id x) eqn:E; simpl.
    + replace (filter _ l) with (@nil enrollment).
      * destruct (p x); simpl; lia.
      * symmetry. apply filter_nil_iff. intros y Hy.
        destruct (same_enrollment_key student_id activity_id y) eqn:Ey;
          [| reflexivity].
        exfalso. apply Hnot.
        apply same_enrollment_key_spec in E, Ey. rewrite E, <- Ey.
        now apply in_map.
    + auto.
Qed.

Lemma unique_enrollment_ext (db db1 : DB) :
  activity_enrollments db1 = activity_enrollments db ->
  unique_enrollment db -> unique_enrollment db1.
Proof. unfold unique_enrollment. now intros ->. Qed.

Lemma promoteFromWaitlist_inr now activity_id db result db1 :
  promoteFromWaitlist now activity_id db = inr (result, db1) ->
  (waitlistQuery activity_id db = [] /\ result = None /\ db1 = db)
  \/ (exists w rest,
        waitlistQuery activity_id db = w :: rest
        /\ existsb (same_enrollment_key (w_student_id w) activity_id)
             (activity_enrollments db) = false
        /\ result = Some (w_student_id w, now)
        /\ db1 = promoted_state now activity_id w db).
Proof.
  unfold promoteFromWaitlist.
  destruct (waitlistQuery activity_id db) as [| w rest].
  - unfold ret. intros H; inversion H; subst. left; auto.
  - unfold bind.
    destruct (insert_activity_enrollments _ _ _ _ _ _ _ _) as [| [id db2]] eqn:I;
      [discriminate |].
    apply insert_activity_enrollments_inr in I. destruct I as (Hno & -> & ->).
    unfold updateWaitlistQuery, ret. simpl.
    intros H; inversion H; subst.
    right. exists w, rest. repeat split; auto.
Qed.

Lemma promoteFromWaitlist_unique now activity_id db result db1 :
  unique_enrollment db ->
  promoteFromWaitlist now activity_id db = inr (result, db1) ->
  unique_enrollment db1.
Proof.
  intros U H. apply promoteFromWaitlist_inr in H.
  destruct H as [(_ & _ & ->) | (w & rest & _ & Hno & _ & ->)]; [exact U |].
  unfold unique_enrollment, promoted_state. simpl. rewrite map_app. simpl.
  apply NoDup_snoc; [exact U |]. now apply no_enrollment_key.
Qed.

Lemma cancelQuery_keys now reason enrollment_id db :
  map enrollment_key
    (mark_withdrawn now reason enrollment_id (activity_enrollments db))
  = map enrollment_key (activity_enrollments db).
Proof.
  unfold mark_withdrawn.
  apply (map_key_update enrollment_key (fun e => e_id e =? enrollment_id)).
  reflexivity.
Qed.

Lemma fold_max_upper (l : list Z) (d x : Z) :
  In x l -> x <= fold_right Z.max d l.
Proof.
  induction l as [| y l IH]; simpl; [tauto |].
  intros [-> | H]; [lia |]. specialize (IH H). lia.
Qed.

Lemma next_id_fresh {A : Type} (id : A -> Z) (t : list A) (x : A) :
  In x t -> id x < next_id id t.
Proof.
  intros H. unfold next_id.
  pose proof (fold_max_upper (map id t) 0 (id x) (in_map id t x H)). lia.
Qed.

Lemma filter_snoc_fresh {A : Type} (id : A -> Z) (t : list A) (row : A) :
  id row = next_id id t ->
  filter (fun e => id e =? id row) (t ++ [row]) = [row].
Proof.
  intros E. rewrite filter_app. simpl. rewrite Z.eqb_refl.
  replace (filter _ t) with (@nil A); [reflexivity |].
  symmetry. apply filter_nil_iff. intros x Hx.
  apply Z.eqb_neq. pose proof (next_id_fresh id t x Hx). lia.
Qed.

Lemma js_or_count (n : Z) : js_or (Some n) 0 = n.
Proof. unfold js_or. destruct (Z.eqb_spec n 0); congruence. Qed.

(** registerStudent, path by path: what it answers and the state it
    leaves. *)
Lemma registerStudent_outcome (now : Z) (req : register_body) (db : DB) :
  (snd (registerStudent now req db) = db
   /\ register_success (fst (registerStudent now req db)) = false
   /\ (forall g, fst (registerStudent now req db) <> reg_400_grade_below g)
   /\ (forall g, fst (registerStudent now req db) <> reg_400_grade_above g)
   /\ (forall c, fst (registerStudent now req db) <> reg_409_time_overlap c))
  \/ (exists student_id activity_id g,
        rb_student_id req = Some student_id
        /\ rb_activity_id req = Some activity_id
        /\ (fst (registerStudent now req db) = reg_400_grade_below g
            \/ fst (registerStudent now req db) = reg_400_grade_above g)
        /\ snd (registerStudent now req db)
           = with_conflicts db
               (enrollment_conflicts db ++
                [mk_conflict student_id activity_id None None
                   grade_restriction]))
  \/ (exists student_id activity_id conflict,
        rb_student_id req = Some student_id
        /\ rb_activity_id req = Some activity_id
        /\ fst (registerStudent now req db) = reg_409_time_overlap conflict
        /\ snd (registerStudent now req db)
           = with_conflicts db
               (enrollment_conflicts db ++
                [mk_conflict student_id activity_id
                   (Some (conflicting_activity_id conflict))
                   (Some (conflicting_schedule_id conflict)) time_overlap]))
  \/ (exists student_id activity_id grade_level act n rest text,
        rb_student_id req = Some student_id
        /\ rb_activity_id req = Some activity_id
        /\ rb_grade_level req = Some grade_level
        /\ rb_notes req = js_value text
        /\ activityQuery activity_id db = (act, n) :: rest
        /\ quota_of act <= n
        /\ existsb (same_waitlist_key student_id activity_id)
             (activity_waitlist db) = false
        /\ fst (registerStudent now req db)
           = reg_200_waitlisted (positionQuery activity_id db) n
               (quota_of act)
        /\ snd (registerStudent now req db)
           = with_conflicts
               (with_waitlist db
                  (activity_waitlist db ++
                   [mk_waitlist (next_id w_id (activity_waitlist db))
                      student_id activity_id (Some grade_level) 0
                      (positionQuery activity_id db) None waiting text]))
               (enrollment_conflicts db ++
                [mk_conflict student_id activity_id None None quota_full]))
  \/ (exists student_id activity_id grade_level act n rest,
        rb_student_id req = Some student_id
        /\ rb_activity_id req = Some activity_id
        /\ rb_grade_level req = Some grade_level
        /\ activityQuery activity_id db = (act, n) :: rest
        /\ n < quota_of act
        /\ existsb (same_enrollment_key student_id activity_id)
             (activity_enrollments db) = false
        /\ fst (registerStudent now req db)
           = reg_201_enrolled
               (Some (mk_enrollment (next_id e_id (activity_enrollments db))
                        student_id activity_id active
                        (js_text_or_null (rb_notes req)) (Some grade_level)
                        (js_num_or_null (rb_enrolled_by req))
                        (js_or (Some (a_fee act)) 0) None None))
               (n + 1) (quota_of act)
        /\ snd (registerStudent now req db)
           = logAudit student_id "enrollment_created" "enrollment"
               (next_id e_id (activity_enrollments db))
               (with_enrollments db
                  (activity_enrollments db ++
                   [mk_enrollment (next_id e_id (activity_enrollments db))
                      student_id activity_id active
                      (js_text_or_null (rb_notes req)) (Some grade_level)
                      (js_num_or_null (rb_enrolled_by req))
                      (js_or (Some (a_fee act)) 0) None None]))).
Proof.
  unfold registerStudent.
  destruct (rb_student_id req) as [s |];
    [| left; repeat split; discriminate].
  destruct (rb_activity_id req) as [a |];
    [| left; repeat split; discriminate].
  destruct (rb_grade_level req) as [g |];
    [| left; repeat split; discriminate].
  destruct (_ || _); [left; repeat split; discriminate |].
  destruct (activityQuery a db) as [| [act n] rest] eqn:HQ;
    [left; repeat split; discriminate |].
  destruct (registration_not_started act now);
    [left; repeat split; discriminate |].
  destruct (registration_ended act now);
    [left; repeat split; discriminate |].
  destruct (0 <? _); [left; repeat split; discriminate |].
  destruct (below_min_grade act g).
  { destruct (logEnrollmentConflict_spec s a None grade_restriction None db)
      as [[_ ->] | [_ ->]].
    - right; left. exists s, a, (a_min_grade act). auto.
    - left; repeat split; discriminate. }
  destruct (above_max_grade act g).
  { destruct (logEnrollmentConflict_spec s a None grade_restriction None db)
      as [[_ ->] | [_ ->]].
    - right; left. exists s, a, (a_max_grade act). auto.
    - left; repeat split; discriminate. }
  destruct (timeConflictQuery s a db) as [| c cs].
  2: { destruct (logEnrollmentConflict_spec s a
                   (Some (conflicting_activity_id c)) time_overlap
                   (Some (conflicting_schedule_id c)) db)
         as [[_ ->] | [_ ->]].
       - right; right; left. exists s, a, c. auto.
       - left; repeat split; discriminate. }
  rewrite js_or_count. rewrite Z.geb_leb.
  destruct (Z.leb_spec (quota_of act) n) as [Hfull | Hroom].
  - destruct (addToWaitlist s a (Some g) (rb_notes req) db)
      as [err | [p db1]] eqn:W.
    + left; repeat split; discriminate.
    + apply addToWaitlist_inr in W.
      destruct W as (text & Hn & Fs & _ & _ & _ & Hno & -> & ->).
      destruct (logEnrollmentConflict_spec s a None quota_full None
                  (with_waitlist db
                     (activity_waitlist db ++
                      [mk_waitlist (next_id w_id (activity_waitlist db)) s a
                         (Some g) 0 (positionQuery a db) None waiting
                         text])))
        as [[_ ->] | [Fs' _]]; [| congruence].
      right; right; right; left.
      exists s, a, g, act, n, rest, text. repeat split; auto.
  - destruct (enrollQuery s a g (js_num_or_null (rb_enrolled_by req))
                (js_text_or_null (rb_notes req))
                (js_or (Some (a_fee act)) 0) db)
      as [err | [id db1]] eqn:I.
    + left; repeat split; discriminate.
    + apply enrollQuery_inr in I. destruct I as (_ & _ & _ & _ & I).
      apply insert_activity_enrollments_inr in I.
      destruct I as (Hno & -> & ->).
      right; right; right; right.
      exists s, a, g, act, n, rest. repeat split; auto.
      simpl. f_equal. f_equal. unfold enrollment_by_id.
      simpl activity_enrollments.
      match goal with
      | |- context [filter _ (?t ++ [?row])] =>
          pose proof (filter_snoc_fresh e_id t row eq_refl) as F
      end.
      cbn [e_id] in F. rewrite F. reflexivity.
Qed.

Lemma registerStudent_unique now req db :
  unique_enrollment db -> unique_enrollment (snd (registerStudent now req db)).
Proof.
  intros U.
  destruct (registerStudent_outcome now req db)
    as [(E & _)
       | [(s & a & g & _ & _ & _ & E)
         | [(s & a & c & _ & _ & _ & E)
           | [(s & a & g & act & n & rest & text & _ & _ & _ & _ & _ & _ & _
               & _ & E)
             | (s & a & g & act & n & rest & _ & _ & _ & _ & _ & Hno & _
                & E)]]]];
    rewrite E; try exact U.
  apply (unique_enrollment_ext
           (with_enrollments db
              (activity_enrollments db ++
               [mk_enrollment (next_id e_id (activity_enrollments db)) s a
                  active (js_text_or_null (rb_notes req)) (Some g)
                  (js_num_or_null (rb_enrolled_by req))
                  (js_or (Some (a_fee act)) 0) None None])));
    [reflexivity |].
  unfold unique_enrollment. simpl. rewrite map_app. simpl.
  apply NoDup_snoc; [exact U |]. now apply no_enrollment_key.
Qed.

Lemma cancelEnrollment_unique now req db :
  unique_enrollment db -> unique_enrollment (snd (cancelEnrollment now req db)).
Proof.
  intros U. unfold cancelEnrollment.
  destruct (enrollmentQuery _ _ db) as [| e rest]; [exact U |].
  unfold bind at 1. unfold cancelQuery at 1.
  match goal with
  | |- context [promoteFromWaitlist ?n ?a ?d] =>
      destruct (promoteFromWaitlist n a d) as [| [r db1]] eqn:P
  end; simpl; [exact U |].
  apply (unique_enrollment_ext db1); [reflexivity |].
  eapply promoteFromWaitlist_unique; [| exact P].
  unfold unique_enrollment. simpl. rewrite cancelQuery_keys. exact U.
Qed.

Lemma existsb_filter_nil {A : Type} (p : A -> bool) (l : list A) :
  existsb p l = false <-> filter p l = [].
Proof. now rewrite existsb_false_iff, filter_nil_iff. Qed.

(** enrollStudent: the state changes only with a 201, by one appended
    row. *)
Lemma enrollStudent_outcome (req : enroll_body) (db : DB) :
  (snd (enrollStudent req db) = db
   /\ (forall data, fst (enrollStudent req db) <> enroll_201 data))
  \/ (exists student_id activity_id max_students enrolled_count rest,
        eb_student_id req = Some student_id
        /\ eb_activity_id req = Some activity_id
        /\ student_id <> 0 /\ activity_id <> 0
        /\ activityCheck activity_id db
           = (max_students, enrolled_count) :: rest
        /\ activity_is_full max_students enrolled_count = false
        /\ existsb (same_enrollment_key student_id activity_id)
             (activity_enrollments db) = false
        /\ fst (enrollStudent req db)
           = enroll_201
               (Some (mk_enrollment (next_id e_id (activity_enrollments db))
                        student_id activity_id active
                        (js_or_null (eb_notes req)) None None 0 None None))
        /\ snd (enrollStudent req db)
           = with_enrollments db
               (activity_enrollments db ++
                [mk_enrollment (next_id e_id (activity_enrollments db))
                   student_id activity_id active (js_or_null (eb_notes req))
                   None None 0 None None])).
Proof.
  unfold enrollStudent.
  destruct (eb_student_id req) as [s |];
    [| left; repeat split; discriminate].
  destruct (eb_activity_id req) as [a |];
    [| left; repeat split; discriminate].
  destruct (negb (truthy (Some s)) || negb (truthy (Some a))) eqn:V;
    [left; repeat split; discriminate |].
  destruct (activityCheck a db) as [| [m c] rest] eqn:HQ;
    [left; repeat split; discriminate |].
  destruct (activity_is_full m c) eqn:Full;
    [left; repeat split; discriminate |].
  destruct (filter (same_enrollment_key s a) (activity_enrollments db))
    as [| e0 l0] eqn:Ex; [| left; repeat split; discriminate].
  apply existsb_filter_nil in Ex. cbn [List.length Z.of_nat Z.ltb Z.compare].
  unfold bind, strict_INT, strict_TEXT.
  destruct (fits_INT s); [| left; repeat split; discriminate].
  destruct (match js_or_null (eb_notes req) with
            | Some v => if fits_TEXT v then inr (tt, db)
                        else inl ER_DATA_TOO_LONG
            | None => inr (tt, db)
            end) as [err | [[] d]] eqn:T.
  { left. destruct (js_or_null (eb_notes req)) as [v |]; [| discriminate].
    destruct (fits_TEXT v); [discriminate |]. inversion T; subst.
    repeat split; discriminate. }
  assert (d = db).
  { destruct (js_or_null (eb_notes req)) as [v |];
      [destruct (fits_TEXT v) |]; inversion T; reflexivity. }
  subst d.
  rewrite insert_activity_enrollments_accepts by exact Ex.
  right. exists s, a, m, c, rest.
  apply orb_false_iff in V. destruct V as [V1 V2].
  apply negb_false_iff in V1, V2. simpl in V1, V2.
  apply negb_true_iff in V1, V2. apply Z.eqb_neq in V1, V2.
  repeat split; auto.
  simpl. f_equal. unfold enrollment_by_id. simpl activity_enrollments.
  match goal with
  | |- context [filter _ (?t ++ [?row])] =>
      pose proof (filter_snoc_fresh e_id t row eq_refl) as F
  end.
  cbn [e_id] in F. rewrite F. reflexivity.
Qed.

Lemma enrollStudent_unique req db :
  unique_enrollment db -> unique_enrollment (snd (enrollStudent req db)).
Proof.
  intros U.
  destruct (enrollStudent_outcome req db)
    as [(E & _) | (s & a & m & c & rest & _ & _ & _ & _ & _ & _ & Hno & _ & E)];
    rewrite E; [exact U |].
  unfold unique_enrollment. simpl. rewrite map_app. simpl.
  apply NoDup_snoc; [exact U |]. now apply no_enrollment_key.
Qed.

Lemma update_status_unique status id db :
  unique_enrollment db -> unique_enrollment (fst (update_status status id db)).
Proof.
  intros U. unfold unique_enrollment, update_status. simpl.
  rewrite (map_key_update enrollment_key (fun e => e_id e =? id));
    [exact U | reflexivity].
Qed.

Lemma step_unique db db' :
  unique_enrollment db -> step db db' -> unique_enrollment db'.
Proof.
  intros U S. destruct S.
  - now apply registerStudent_unique.
  - now apply cancelEnrollment_unique.
  - now apply enrollStudent_unique.
  - unfold withdrawEnrollment.
    pose proof (update_status_unique withdrawn id db U) as H.
    destruct (update_status withdrawn id db) as [db1 n].
    destruct (n =? 0); exact H.
  - unfold updateEnrollmentStatus.
    destruct status as [st |]; [| exact U].
    destruct (negb _); [exact U |].
    pose proof (update_status_unique st id db U) as H.
    destruct (update_status st id db) as [db1 n].
    destruct (n =? 0); exact H.
  - unfold deleteEnrollment.
    destruct (filter _ _); [exact U |].
    unfold unique_enrollment. simpl. now apply NoDup_map_filter.
  - unfold deleteActivity.
    destruct (filter _ _); [exact U |].
    unfold unique_enrollment. simpl. now apply NoDup_map_filter.
Qed.

Lemma reachable_unique db : reachable db -> unique_enrollment db.
Proof.
  induction 1 as [db Hok | db db' _ IH S].
  - apply Hok.
  - eapply step_unique; eauto.
Qed.

(** ** C2: one live enrollment per student and activity *)

Lemma existingEnrollmentQuery_active student_id activity_id db e :
  In e (activity_enrollments db) ->
  e_student_id e = student_id -> e_activity_id e = activity_id ->
  e_status e = active ->
  (0 <? Z.of_nat (List.length
                    (existingEnrollmentQuery student_id activity_id db)))
  = true.
Proof.
  intros Hin Hs Ha Hst.
  destruct (existingEnrollmentQuery student_id activity_id db) eqn:E.
  - exfalso. rewrite existingEnrollmentQuery_nil in E.
    destruct (E e Hin Hs Ha). contradiction.
  - simpl List.length. apply Z.ltb_lt. lia.
Qed.

(** The example stores satisfy the keys of the schema. *)
Ltac keys_hold :=
  constructor; unfold unique_enrollment; simpl;
  repeat (constructor; simpl; try (intuition (discriminate || lia))).

Lemma store_empty_ok : schema_ok Examples.store_empty.
Proof. keys_hold. Qed.

Lemma store_after_register_reachable :
  reachable Examples.store_after_register.
Proof.
  apply (reachable_step Examples.store_empty).
  - apply reachable_init, store_empty_ok.
  - exact (step_registerStudent Examples.store_empty 0
             (Examples.register 7 1)).
Qed.

(** C2, as the code has it. In every reachable state a (student, activity)
    pair has at most one enrollment with status active or approved. A
    registration by a student who holds an active enrollment in the activity
    leaves the state as it was (no enrollment row, no waitlist entry), and
    when the request carries its three fields, the activity is active and
    its registration window is open, the answer is "already enrolled". *)
Theorem uniqueness_invariant (db : DB) :
  reachable db ->
  (forall student_id activity_id,
      (List.length
         (filter (fun e => same_enrollment_key student_id activity_id e
                           && (enrollment_status_eqb (e_status e) active
                               || enrollment_status_eqb (e_status e) approved))
                 (activity_enrollments db)) <= 1)%nat)
  /\ (forall now req student_id activity_id e,
         rb_student_id req = Some student_id ->
         rb_activity_id req = Some activity_id ->
         In e (activity_enrollments db) ->
         e_student_id e = student_id -> e_activity_id e = activity_id ->
         e_status e = active ->
         snd (registerStudent now req db) = db
         /\ (forall grade_level activity n rest,
                rb_grade_level req = Some grade_level ->
                student_id <> 0 -> activity_id <> 0 -> grade_level <> 0 ->
                activityQuery activity_id db = (activity, n) :: rest ->
                registration_not_started activity now = false ->
                registration_ended activity now = false ->
                fst (registerStudent now req db) = reg_400_already_enrolled)).
Proof.
  intros R. split.
  - intros s a. apply unique_enrollment_at_most_one. now apply reachable_unique.
  - intros now req s a e Hs Ha Hin Es Ea Est.
    pose proof (existingEnrollmentQuery_active s a db e Hin Es Ea Est) as Hex.
    split.
    + unfold registerStudent. rewrite Hs, Ha.
      destruct (rb_grade_level req) as [g |]; [| reflexivity].
      destruct (_ || _); [reflexivity |].
      destruct (activityQuery a db) as [| [act n] rest]; [reflexivity |].
      destruct (registration_not_started act now); [reflexivity |].
      destruct (registration_ended act now); [reflexivity |].
      rewrite Hex. reflexivity.
    + intros g act n rest Hg Ns Na Ng HQ Hw1 Hw2.
      unfold registerStudent. rewrite Hs, Ha, Hg. simpl.
      apply Z.eqb_neq in Ns, Na, Ng. rewrite Ns, Na, Ng. simpl.
      rewrite HQ, Hw1, Hw2, Hex. reflexivity.
Qed.

Lemma uniqueness_invariant_witness :
  reachable Examples.store_after_register
  /\ (List.length
        (filter (fun e => same_enrollment_key 7 1 e
                          && (enrollment_status_eqb (e_status e) active
                              || enrollment_status_eqb (e_status e) approved))
                (activity_enrollments Examples.store_after_register))
      <= 1)%nat
  /\ registerStudent 5 (Examples.register 7 1) Examples.store_after_register
     = (reg_400_already_enrolled, Examples.store_after_register).
Proof.
  pose proof (uniqueness_invariant Examples.store_after_register
                store_after_register_reachable) as [H1 H2].
  split; [exact store_after_register_reachable |].
  split; [exact (H1 7 1) |].
  destruct (H2 5 (Examples.register 7 1) 7 1
              (Examples.plain_enrollment 1 7 1 active)
              eq_refl eq_refl (or_introl eq_refl) eq_refl eq_refl eq_refl)
    as [H3 H4].
  specialize (H4 5 (Examples.plain_activity 1 "Chess Club" 1) 1 []
                eq_refl).
  rewrite (surjective_pairing (registerStudent _ _ _)).
  rewrite H3, H4; try reflexivity; discriminate.
Defined.

(** C2 as stated fails for an approved enrollment: student 7, approved in
    the full activity 1, registers again and is put on the waitlist. *)
Lemma approved_student_is_waitlisted :
  In (Examples.plain_enrollment 2 7 1 approved)
     (activity_enrollments Examples.store_approved_full)
  /\ fst (registerStudent 0 (Examples.register 7 1)
            Examples.store_approved_full)
     = reg_200_waitlisted 1 1 1
  /\ activity_waitlist Examples.store_approved_full = []
  /\ activity_waitlist
       (snd (registerStudent 0 (Examples.register 7 1)
               Examples.store_approved_full))
     = [Examples.plain_waiting 1 7 1 0 1].
Proof. repeat split; simpl; auto. Qed.

(** ** C3: the capacity gate *)

Lemma activityQuery_head activity_id db activity n rest :
  activityQuery activity_id db = (activity, n) :: rest ->
  In activity (activities db)
  /\ a_id activity = activity_id /\ a_status activity = act_active
  /\ n = Z.of_nat
           (List.length
              (filter (fun ae => (e_activity_id ae =? activity_id)
                                 && enrollment_status_eqb (e_status ae) active)
                      (activity_enrollments db))).
Proof.
  unfold activityQuery. intros H.
  destruct (filter _ (activities db)) as [| a0 l] eqn:F; [discriminate |].
  simpl in H. inversion H; subst. clear H.
  assert (Hin : In activity (filter (fun a => (a_id a =? activity_id)
                  && activity_status_eqb (a_status a) act_active)
                  (activities db))) by (rewrite F; left; reflexivity).
  apply filter_In in Hin. destruct Hin as [Hin Hp].
  rewrite andb_true_iff, Z.eqb_eq, activity_status_eqb_eq in Hp.
  destruct Hp as [Hid Hst]. repeat split; auto.
  do 2 f_equal. apply filter_ext. intros ae.
  rewrite Hid, (Z.eqb_sym activity_id). reflexivity.
Qed.

Lemma no_row_no_existing student_id activity_id db :
  existsb (same_enrollment_key student_id activity_id)
    (activity_enrollments db) = false ->
  existingEnrollmentQuery student_id activity_id db = [].
Proof.
  intros H. apply existingEnrollmentQuery_nil. intros e Hin Hs Ha.
  rewrite existsb_false_iff in H. specialize (H e Hin).
  unfold same_enrollment_key in H. rewrite Hs, Ha, !Z.eqb_refl in H.
  discriminate.
Qed.

Lemma activityQuery_unique_active db a act :
  schema_ok db -> In act (activities db) -> a_id act = a ->
  a_status act = act_active ->
  exists n rest, activityQuery a db = (act, n) :: rest.
Proof.
  intros Hok Hin Hid Hst.
  destruct (activityQuery a db) as [| [act' n] rest] eqn:Q.
  - exfalso. unfold activityQuery in Q. apply map_eq_nil in Q.
    rewrite filter_nil_iff in Q. specialize (Q act Hin).
    rewrite Hid, Hst, Z.eqb_refl in Q. discriminate.
  - destruct (activityQuery_head _ _ _ _ _ Q) as (Hin' & Hid' & _).
    assert (act' = act).
    { apply (NoDup_key_inj a_id (activities db));
        auto using pk_activities. congruence. }
    subst act'. eauto.
Qed.

Lemma activityQuery_unique_inactive db a act :
  schema_ok db -> In act (activities db) -> a_id act = a ->
  a_status act <> act_active ->
  activityQuery a db = [].
Proof.
  intros Hok Hin Hid Hst.
  destruct (activityQuery a db) as [| [act' n] rest] eqn:Q; [reflexivity |].
  exfalso.
  destruct (activityQuery_head _ _ _ _ _ Q) as (Hin' & Hid' & Hst' & _).
  assert (act' = act).
  { apply (NoDup_key_inj a_id (activities db));
      auto using pk_activities. congruence. }
  subst act'. contradiction.
Qed.

(** ** Passing the checks of registerStudent *)

Lemma registration_not_started_false (act : activity) (now : Z) :
  registration_not_started act now = false
  <-> forall t, a_registration_start act = Some t -> t <= now.
Proof.
  unfold registration_not_started.
  destruct (a_registration_start act) as [t |].
  - rewrite Z.gtb_ltb, Z.ltb_ge. split.
    + intros H t' E. inversion E; subst. exact H.
    + intros H. now apply H.
  - split; [discriminate | reflexivity].
Qed.

Lemma registration_ended_false (act : activity) (now : Z) :
  registration_ended act now = false
  <-> forall t, a_registration_end act = Some t -> now <= t.
Proof.
  unfold registration_ended.
  destruct (a_registration_end act) as [t |].
  - rewrite Z.ltb_ge. split.
    + intros H t' E. inversion E; subst. exact H.
    + intros H. now apply H.
  - split; [discriminate | reflexivity].
Qed.

Lemma below_min_grade_false (act : activity) (grade_level : Z) :
  below_min_grade act grade_level = false
  <-> forall m, a_min_grade act = Some m -> m = 0 \/ m <= grade_level.
Proof.
  unfold below_min_grade. destruct (a_min_grade act) as [m |].
  - rewrite andb_false_iff, negb_false_iff, Z.eqb_eq, Z.ltb_ge. split.
    + intros H m' E. inversion E; subst. exact H.
    + intros H. now apply H.
  - split; [discriminate | reflexivity].
Qed.

Lemma above_max_grade_false (act : activity) (grade_level : Z) :
  above_max_grade act grade_level = false
  <-> forall m, a_max_grade act = Some m -> m = 0 \/ grade_level <= m.
Proof.
  unfold above_max_grade. destruct (a_max_grade act) as [m |].
  - rewrite andb_false_iff, negb_false_iff, Z.eqb_eq, Z.gtb_ltb, Z.ltb_ge.
    split.
    + intros H m' E. inversion E; subst. exact H.
    + intros H. now apply H.
  - split; [discriminate | reflexivity].
Qed.

(** activity.quota || activity.max_students || 30, case by case. *)
Lemma quota_of_spec (act : activity) :
  quota_of act
  = if a_quota act =? 0
    then match a_max_students act with
         | Some m => if m =? 0 then 30 else m
         | None => 30
         end
    else a_quota act.
Proof. reflexivity. Qed.

Lemma no_row_of_pair student_id activity_id (l : list enrollment) :
  (forall e, In e l ->
             ~ (e_student_id e = student_id /\ e_activity_id e = activity_id))
  <-> existsb (same_enrollment_key student_id activity_id) l = false.
Proof.
  rewrite existsb_false_iff. unfold same_enrollment_key. split.
  - intros H e Hin. specialize (H e Hin).
    destruct (Z.eqb_spec (e_student_id e) student_id);
      destruct (Z.eqb_spec (e_activity_id e) activity_id); simpl; tauto.
  - intros H e Hin [Hs Ha]. specialize (H e Hin).
    rewrite Hs, Ha, !Z.eqb_refl in H. discriminate.
Qed.

Lemma no_entry_of_pair student_id activity_id (l : list waitlist_entry) :
  (forall w, In w l ->
             ~ (w_student_id w = student_id /\ w_activity_id w = activity_id))
  <-> existsb (same_waitlist_key student_id activity_id) l = false.
Proof.
  rewrite existsb_false_iff. unfold same_waitlist_key. split.
  - intros H w Hin. specialize (H w Hin).
    destruct (Z.eqb_spec (w_student_id w) student_id);
      destruct (Z.eqb_spec (w_activity_id w) activity_id); simpl; tauto.
  - intros H w Hin [Hs Ha]. specialize (H w Hin).
    rewrite Hs, Ha, !Z.eqb_refl in H. discriminate.
Qed.

(** A request that passes steps 1 to 7 reaches the quota step, with the
    activity's number of active enrollments as current_enrollments. *)
Lemma registerStudent_quota_step (now : Z) (req : register_body) (db : DB)
  (s a g : Z) (act : activity) :
  schema_ok db ->
  rb_student_id req = Some s -> rb_activity_id req = Some a ->
  rb_grade_level req = Some g ->
  s <> 0 -> a <> 0 -> g <> 0 ->
  In act (activities db) -> a_id act = a -> a_status act = act_active ->
  (forall t, a_registration_start act = Some t -> t <= now) ->
  (forall t, a_registration_end act = Some t -> now <= t) ->
  (forall m, a_min_grade act = Some m -> m = 0 \/ m <= g) ->
  (forall m, a_max_grade act = Some m -> m = 0 \/ g <= m) ->
  existingEnrollmentQuery s a db = [] ->
  registerStudent now req db
  = if active_count a db >=? quota_of act
    then match addToWaitlist s a (Some g) (rb_notes req) db with
         | inl error => (reg_500 error, db)
         | inr (waitlistPosition, db1) =>
             match logEnrollmentConflict s a None quota_full None db1 with
             | inl error => (reg_500 error, db1)
             | inr (_, db2) =>
                 (reg_200_waitlisted waitlistPosition (active_count a db)
                    (quota_of act), db2)
             end
         end
    else match enrollQuery s a g (js_num_or_null (rb_enrolled_by req))
                 (js_text_or_null (rb_notes req))
                 (js_or (Some (a_fee act)) 0) db with
         | inl error => (reg_500 error, db)
         | inr (insertId, db1) =>
             (reg_201_enrolled (enrollment_by_id insertId db1)
                (active_count a db + 1) (quota_of act),
              logAudit s "enrollment_created" "enrollment" insertId db1)
         end.
Proof.
  intros Hok Hs Ha Hg Ns Na Ng Hin Hid Hst Hw1 Hw2 Hg1 Hg2 Hex.
  destruct (activityQuery_unique_active db a act Hok Hin Hid Hst)
    as (n & rest & HQ).
  destruct (activityQuery_head _ _ _ _ _ HQ) as (_ & _ & _ & Hn).
  fold (active_count a db) in Hn. subst n.
  apply registration_not_started_false in Hw1.
  apply registration_ended_false in Hw2.
  apply below_min_grade_false in Hg1. apply above_max_grade_false in Hg2.
  assert (Fields : negb (truthy (Some s)) || negb (truthy (Some a))
                   || negb (truthy (Some g)) = false).
  { simpl. apply Z.eqb_neq in Ns, Na, Ng. rewrite Ns, Na, Ng. reflexivity. }
  unfold registerStudent. rewrite Hs, Ha, Hg, Fields, HQ, Hw1, Hw2, Hex.
  cbn [List.length Z.of_nat Z.ltb Z.compare]. rewrite Hg1, Hg2.
  rewrite (timeConflictQuery_nil _ _ _ (pk_schedules db Hok) Hex).
  rewrite js_or_count. reflexivity.
Qed.

(** C3, as the code has it. For a request that passes the earlier checks,
    from a student with no enrollment row for the activity and with values
    that fit their columns, the count registerStudent compares is the number
    of the activity's enrollments with status active, the capacity is quota
    when it is not 0, else max_students when it is neither NULL nor 0, else
    30, and one new active enrollment of the student is inserted exactly when
    count < capacity; at or above capacity no enrollment is inserted. *)
Theorem capacity_gate_counts_active (now : Z) (req : register_body) (db : DB)
  (student_id activity_id grade_level : Z) (act : activity) :
  schema_ok db ->
  rb_student_id req = Some student_id ->
  rb_activity_id req = Some activity_id ->
  rb_grade_level req = Some grade_level ->
  student_id <> 0 -> activity_id <> 0 -> grade_level <> 0 ->
  In act (activities db) -> a_id act = activity_id ->
  a_status act = act_active ->
  (forall t, a_registration_start act = Some t -> t <= now) ->
  (forall t, a_registration_end act = Some t -> now <= t) ->
  (forall m, a_min_grade act = Some m -> m = 0 \/ m <= grade_level) ->
  (forall m, a_max_grade act = Some m -> m = 0 \/ grade_level <= m) ->
  (forall e, In e (activity_enrollments db) ->
             ~ (e_student_id e = student_id
                /\ e_activity_id e = activity_id)) ->
  -2147483648 <= student_id <= 2147483647 ->
  -2147483648 <= grade_level <= 2147483647 ->
  (forall n, rb_enrolled_by req = Some n ->
             -2147483648 <= n <= 2147483647) ->
  (forall v, rb_notes req = js_value (Some v) ->
             Z.of_nat (String.length v) <= 65535) ->
  let count :=
    Z.of_nat
      (List.length
         (filter (fun e => (e_activity_id e =? activity_id)
                           && enrollment_status_eqb (e_status e) active)
                 (activity_enrollments db))) in
  let capacity :=
    if a_quota act =? 0
    then match a_max_students act with
         | Some m => if m =? 0 then 30 else m
         | None => 30
         end
    else a_quota act in
  (count < capacity <->
   exists row,
     fst (registerStudent now req db)
     = reg_201_enrolled (Some row) (count + 1) capacity
     /\ e_status row = active
     /\ e_student_id row = student_id /\ e_activity_id row = activity_id
     /\ (forall e, In e (activity_enrollments db) -> e_id e <> e_id row)
     /\ activity_enrollments (snd (registerStudent now req db))
        = activity_enrollments db ++ [row])
  /\ (capacity <= count ->
      activity_enrollments (snd (registerStudent now req db))
      = activity_enrollments db
      /\ forall data c q,
           fst (registerStudent now req db) <> reg_201_enrolled data c q).
Proof.
  intros Hok Hs Ha Hg Ns Na Ng Hin Hid Hst Hw1 Hw2 Hg1 Hg2 Hrow Fs Fg Fby
    Fnotes count capacity.
  apply no_row_of_pair in Hrow.
  rewrite (registerStudent_quota_step now req db student_id activity_id
             grade_level act Hok Hs Ha Hg Ns Na Ng Hin Hid Hst Hw1 Hw2 Hg1
             Hg2 (no_row_no_existing _ _ _ Hrow)).
  rewrite quota_of_spec. fold capacity.
  change (active_count activity_id db) with count.
  rewrite Z.geb_leb.
  destruct (Z.leb_spec capacity count) as [Hfull | Hroom].
  - assert (E : forall r : register_response * DB,
               r = match addToWaitlist student_id activity_id
                           (Some grade_level) (rb_notes req) db with
                   | inl error => (reg_500 error, db)
                   | inr (waitlistPosition, db1) =>
                       match logEnrollmentConflict student_id activity_id
                               None quota_full None db1 with
                       | inl error => (reg_500 error, db1)
                       | inr (_, db2) =>
                           (reg_200_waitlisted waitlistPosition count
                              capacity, db2)
                       end
                   end ->
               activity_enrollments (snd r) = activity_enrollments db
               /\ forall data c q, fst r <> reg_201_enrolled data c q).
    { intros r ->.
      destruct (addToWaitlist _ _ _ _ _) as [| [p db1]] eqn:W;
        [split; [reflexivity | discriminate] |].
      apply addToWaitlist_inr in W.
      destruct W as (text & _ & _ & _ & _ & _ & _ & _ & ->).
      destruct (logEnrollmentConflict_spec student_id activity_id None
                  quota_full None
                  (with_waitlist db
                     (activity_waitlist db ++
                      [mk_waitlist (next_id w_id (activity_waitlist db))
                         student_id activity_id (Some grade_level) 0 p None
                         waiting text])))
        as [[_ ->] | [_ ->]]; split; try reflexivity; discriminate. }
    destruct (E _ eq_refl) as [E1 E2]. split.
    + split; [lia |]. intros (row & R & _). exfalso. eapply E2; eauto.
    + intros _. split; assumption.
  - assert (F1 : fits_INT student_id = true) by now apply fits_INT_spec.
    assert (F2 : fits_INT grade_level = true) by now apply fits_INT_spec.
    assert (F3 : forall n, js_num_or_null (rb_enrolled_by req) = Some n ->
                           fits_INT n = true).
    { intros n E. apply fits_INT_spec. apply Fby.
      unfold js_num_or_null in E.
      destruct (rb_enrolled_by req) as [v |]; [| discriminate].
      destruct (v =? 0); [discriminate | exact E]. }
    assert (F4 : forall v, js_text_or_null (rb_notes req) = Some v ->
                           fits_TEXT v = true).
    { intros v E. unfold fits_TEXT. apply Z.leb_le. apply Fnotes.
      unfold js_text_or_null, js_or_null in E.
      destruct (rb_notes req) as [| [t |]]; try discriminate.
      destruct (String.eqb t EmptyString); [discriminate |].
      now inversion E. }
    rewrite (enrollQuery_accepts _ _ _ _ _ _ _ F1 F2 F3 F4).
    rewrite insert_activity_enrollments_accepts by exact Hrow.
    unfold enrollment_by_id. simpl activity_enrollments.
    match goal with
    | |- context [filter _ (?t ++ [?row])] =>
        pose proof (filter_snoc_fresh e_id t row eq_refl) as F
    end.
    cbn [e_id] in F. rewrite F. cbn [hd_error fst snd].
    split.
    + split; [| intros _; exact Hroom]. intros _.
      eexists. split; [reflexivity |]. cbn [e_status e_student_id
        e_activity_id e_id]. repeat split.
      intros e He. pose proof (next_id_fresh e_id _ _ He). lia.
    + intros Hfull. lia.
Qed.

Lemma capacity_gate_counts_active_witness :
  schema_ok Examples.store_empty
  /\ exists row,
       fst (registerStudent 0 (Examples.register 7 1) Examples.store_empty)
       = reg_201_enrolled (Some row) 1 1
       /\ e_status row = active
       /\ e_student_id row = 7 /\ e_activity_id row = 1.
Proof.
  split; [exact store_empty_ok |].
  assert (N7 : 7 <> 0) by discriminate.
  assert (N1 : 1 <> 0) by discriminate.
  assert (N5 : 5 <> 0) by discriminate.
  assert (Hin : In (Examples.plain_activity 1 "Chess Club" 1)
                   (activities Examples.store_empty))
    by (left; reflexivity).
  assert (W1 : forall t,
             a_registration_start (Examples.plain_activity 1 "Chess Club" 1)
             = Some t -> t <= 0) by discriminate.
  assert (W2 : forall t,
             a_registration_end (Examples.plain_activity 1 "Chess Club" 1)
             = Some t -> 0 <= t) by discriminate.
  assert (G1 : forall m,
             a_min_grade (Examples.plain_activity 1 "Chess Club" 1) = Some m
             -> m = 0 \/ m <= 5)
    by (intros m E; inversion E; right; lia).
  assert (G2 : forall m,
             a_max_grade (Examples.plain_activity 1 "Chess Club" 1) = Some m
             -> m = 0 \/ 5 <= m)
    by (intros m E; inversion E; right; lia).
  assert (Hrow : forall e, In e (activity_enrollments Examples.store_empty)
                           -> ~ (e_student_id e = 7 /\ e_activity_id e = 1))
    by (intros e []).
  assert (F7 : -2147483648 <= 7 <= 2147483647) by lia.
  assert (F5 : -2147483648 <= 5 <= 2147483647) by lia.
  assert (Fby : forall n, rb_enrolled_by (Examples.register 7 1) = Some n ->
                          -2147483648 <= n <= 2147483647) by discriminate.
  assert (Fnotes : forall v,
             rb_notes (Examples.register 7 1) = js_value (Some v) ->
             Z.of_nat (String.length v) <= 65535)
    by (intros v E; inversion E; simpl; lia).
  destruct (capacity_gate_counts_active 0 (Examples.register 7 1)
              Examples.store_empty 7 1 5
              (Examples.plain_activity 1 "Chess Club" 1)
              store_empty_ok eq_refl eq_refl eq_refl N7 N1 N5 Hin eq_refl
              eq_refl W1 W2 G1 G2 Hrow F7 F5 Fby Fnotes)
    as [H _].
  destruct H as [H _].
  assert (Room : 0 < 1) by lia.
  destruct (H Room) as (row & R & St & Hs & Ha & _).
  exists row. repeat split; assumption.
Defined.

(** C3 as stated fails when approved enrollments fill the activity: the one
    seat of activity 1 is held by an approved enrollment, so the count over
    {active, approved} equals the capacity, yet registerStudent counts 0 and
    inserts a second enrollment. *)
Lemma approved_seat_is_not_counted :
  active_or_approved_count 1 Examples.store_approved_only = 1
  /\ quota_of (Examples.plain_activity 1 "Chess Club" 1) = 1
  /\ activityQuery 1 Examples.store_approved_only
     = [(Examples.plain_activity 1 "Chess Club" 1, 0)]
  /\ fst (registerStudent 0 (Examples.register 7 1)
            Examples.store_approved_only)
     = reg_201_enrolled (Some (Examples.plain_enrollment 2 7 1 active)) 1 1
  /\ activity_enrollments
       (snd (registerStudent 0 (Examples.register 7 1)
               Examples.store_approved_only))
     = [Examples.plain_enrollment 1 8 1 approved;
        Examples.plain_enrollment 2 7 1 active].
Proof. repeat split. Qed.

(** ** ORDER BY ... LIMIT 1 *)

Section OrderBy.

Context {A : Type}.
Variable before : A -> A -> bool.
Hypothesis before_irrefl : forall x, before x x = false.
Hypothesis before_trans :
  forall x y z, before x y = true -> before y z = true -> before x z = true.

Lemma order_insert_In (x y : A) (l : list A) :
  In y (order_insert before x l) <-> y = x \/ In y l.
Proof.
  induction l as [| z l IH]; simpl.
  - intuition.
  - destruct (before x z); simpl; [intuition |].
    rewrite IH. intuition.
Qed.

Lemma order_by_In (y : A) (l : list A) :
  In y (order_by before l) <-> In y l.
Proof.
  induction l as [| x l IH]; simpl; [tauto |].
  rewrite order_insert_In, IH. intuition.
Qed.

Lemma order_by_head (l : list A) (w : A) (rest : list A) :
  order_by before l = w :: rest ->
  forall y, In y l -> before y w = false.
Proof.
  revert w rest. induction l as [| x l IH]; simpl; intros w rest E y Hy.
  - contradiction.
  - destruct (order_by before l) as [| h t] eqn:S.
    + simpl in E. inversion E; subst.
      destruct Hy as [-> | Hy]; [apply before_irrefl |].
      apply order_by_In in Hy. rewrite S in Hy. contradiction.
    + simpl in E. destruct (before x h) eqn:B; inversion E; subst.
      * destruct Hy as [-> | Hy]; [apply before_irrefl |].
        destruct (before y w) eqn:Byw; [| reflexivity].
        pose proof (before_trans y w h Byw B) as T.
        specialize (IH h t eq_refl y Hy). congruence.
      * destruct Hy as [-> | Hy]; [exact B |].
        exact (IH w t eq_refl y Hy).
Qed.

Lemma limit_one_head (l : list A) (w : A) (rest : list A) :
  limit 1 l = w :: rest -> rest = [] /\ exists t, l = w :: t.
Proof.
  destruct l as [| x t]; simpl; [discriminate |].
  intros E; inversion E; subst. eauto.
Qed.

Lemma limit_one_nil (l : list A) : limit 1 l = [] -> l = [].
Proof. destruct l; simpl; [reflexivity | discriminate]. Qed.

End OrderBy.

Lemma priority_desc_position_asc_irrefl (x : waitlist_entry) :
  priority_desc_position_asc x x = false.
Proof. unfold priority_desc_position_asc. zcompare; auto; lia. Qed.

Lemma priority_desc_position_asc_trans (x y z : waitlist_entry) :
  priority_desc_position_asc x y = true ->
  priority_desc_position_asc y z = true ->
  priority_desc_position_asc x z = true.
Proof.
  unfold priority_desc_position_asc.
  rewrite !orb_true_iff, !andb_true_iff, !Z.ltb_lt, !Z.eqb_eq. lia.
Qed.

(** The row waitlistQuery returns is a waiting entry of the activity that no
    other waiting entry of the activity precedes. *)
Lemma waitlistQuery_head activity_id db w rest :
  waitlistQuery activity_id db = w :: rest ->
  rest = []
  /\ In w (activity_waitlist db)
  /\ w_activity_id w = activity_id /\ w_status w = waiting
  /\ forall w', In w' (activity_waitlist db) ->
                w_activity_id w' = activity_id -> w_status w' = waiting ->
                w_priority w' < w_priority w
                \/ (w_priority w' = w_priority w
                    /\ w_position w <= w_position w').
Proof.
  unfold waitlistQuery. intros E.
  apply limit_one_head in E. destruct E as (-> & t & E).
  split; [reflexivity |].
  assert (Hin : In w (order_by priority_desc_position_asc
                        (filter (fun w => (w_activity_id w =? activity_id)
                                   && waitlist_status_eqb (w_status w) waiting)
                                (activity_waitlist db))))
    by (rewrite E; left; reflexivity).
  apply order_by_In, filter_In in Hin. destruct Hin as [Hin Hp].
  rewrite andb_true_iff, Z.eqb_eq, waitlist_status_eqb_eq in Hp.
  destruct Hp as [Ha Hst]. repeat split; auto.
  intros w' Hin' Ha' Hst'.
  assert (B : priority_desc_position_asc w' w = false).
  { eapply order_by_head; eauto using priority_desc_position_asc_irrefl,
      priority_desc_position_asc_trans.
    apply filter_In. split; [exact Hin' |].
    rewrite Ha', Hst', Z.eqb_refl. reflexivity. }
  unfold priority_desc_position_asc in B.
  rewrite orb_false_iff, andb_false_iff, !Z.ltb_ge, Z.eqb_neq in B. lia.
Qed.

Lemma waitlistQuery_nil activity_id db :
  waitlistQuery activity_id db = [] <->
  forall w, In w (activity_waitlist db) ->
            w_activity_id w = activity_id -> w_status w <> waiting.
Proof.
  unfold waitlistQuery. split.
  - intros E w Hin Ha Hst. apply limit_one_nil in E.
    assert (H : In w (order_by priority_desc_position_asc
                        (filter (fun w => (w_activity_id w =? activity_id)
                                   && waitlist_status_eqb (w_status w) waiting)
                                (activity_waitlist db)))).
    { apply order_by_In, filter_In. split; [exact Hin |].
      rewrite Ha, Hst, Z.eqb_refl. reflexivity. }
    rewrite E in H. contradiction.
  - intros H.
    replace (filter _ _) with (@nil waitlist_entry); [reflexivity |].
    symmetry. apply filter_nil_iff. intros w Hin.
    destruct (Z.eqb_spec (w_activity_id w) activity_id) as [Ha |];
      [| reflexivity].
    specialize (H w Hin Ha). destruct (w_status w); simpl; congruence.
Qed.

(** ** C4: promotion from the waitlist *)

Lemma update_by_id_split {A : Type} (id : A -> Z) (f : A -> A) (l : list A)
  (w : A) :
  NoDup (map id l) -> In w l ->
  exists l1 l2,
    l = l1 ++ w :: l2
    /\ map (fun x => if id x =? id w then f x else x) l = l1 ++ f w :: l2.
Proof.
  intros ND Hin. destruct (in_split w l Hin) as (l1 & l2 & ->).
  exists l1, l2. split; [reflexivity |].
  rewrite map_app in ND. simpl in ND.
  pose proof (NoDup_remove_2 _ _ _ ND) as Hnot.
  rewrite map_app. simpl. rewrite Z.eqb_refl.
  assert (Keep : forall l0, (forall x, In x l0 -> In x (l1 ++ l2)) ->
                 map (fun x => if id x =? id w then f x else x) l0 = l0).
  { intros l0 Hsub. rewrite <- (map_id l0) at 2. apply map_ext_in.
    intros x Hx. destruct (Z.eqb_spec (id x) (id w)) as [E |]; [| reflexivity].
    exfalso. apply Hnot. rewrite <- E, <- map_app. apply in_map. auto. }
  rewrite !Keep; [reflexivity | |]; intros x Hx; apply in_or_app; auto.
Qed.


Lemma store_priority_ok : schema_ok Examples.store_priority.
Proof. keys_hold. Qed.


(** The spec's queue S1 (priority 0), S2 (priority 5), S3 (priority 0): the
    first freed seat goes to S2, the second to S1. *)
Lemma waitlist_priority_then_position :
  fst (cancelEnrollment 9 (mk_cancel_body 1 9 None) Examples.store_priority)
  = cancel_200 (Some (102, 9))
  /\ fst (cancelEnrollment 10 (mk_cancel_body 2 102 None)
            (snd (cancelEnrollment 9 (mk_cancel_body 1 9 None)
                    Examples.store_priority)))
     = cancel_200 (Some (101, 10)).
Proof. split; reflexivity. Qed.


(** ** C6: a full activity puts the student on the waitlist *)

Lemma fold_max_In (x : Z) (t : list Z) :
  In (fold_right Z.max x t) (x :: t)
  /\ forall p, In p (x :: t) -> p <= fold_right Z.max x t.
Proof.
  induction t as [| y t [IH1 IH2]]; simpl.
  - split; [auto | intros p [-> | []]; lia].
  - split.
    + destruct (Z.max_spec y (fold_right Z.max x t)) as [[_ ->] | [_ ->]];
        simpl in IH1; intuition.
    + intros p [-> | [-> | Hp]].
      * specialize (IH2 p (or_introl eq_refl)). lia.
      * lia.
      * specialize (IH2 p (or_intror Hp)). lia.
Qed.

(** COALESCE(MAX(position), 0) + 1 is 1 on no rows and the successor of the
    largest position otherwise. *)
Lemma next_position_spec (l : list Z) :
  (l = [] -> coalesce (sql_max l) 0 + 1 = 1)
  /\ (forall m, In m l -> (forall p, In p l -> p <= m) ->
                coalesce (sql_max l) 0 + 1 = m + 1).
Proof.
  split.
  - intros ->. reflexivity.
  - intros m Hm Hub. destruct l as [| x t]; [contradiction |].
    simpl. destruct (fold_max_In x t) as [Hin Hmax].
    specialize (Hub _ Hin). specialize (Hmax _ Hm). lia.
Qed.

(** C6, as the code has it. A request that passes the checks, finds the
    activity at or over capacity, carries notes (a string or null), brings
    values that fit their columns and comes from a student with no waitlist
    row for the activity is answered 200, waitlisted: one waitlist entry of
    that student is appended, with status waiting and position 1 when the
    activity has no waiting entry and the largest waiting position plus one
    otherwise, and that position is reported. *)
Theorem quota_full_adds_to_waitlist (now : Z) (req : register_body) (db : DB)
  (student_id activity_id grade_level : Z) (text : option string)
  (act : activity) :
  schema_ok db ->
  rb_student_id req = Some student_id ->
  rb_activity_id req = Some activity_id ->
  rb_grade_level req = Some grade_level ->
  rb_notes req = js_value text ->
  student_id <> 0 -> activity_id <> 0 -> grade_level <> 0 ->
  In act (activities db) -> a_id act = activity_id ->
  a_status act = act_active ->
  (forall t, a_registration_start act = Some t -> t <= now) ->
  (forall t, a_registration_end act = Some t -> now <= t) ->
  (forall m, a_min_grade act = Some m -> m = 0 \/ m <= grade_level) ->
  (forall m, a_max_grade act = Some m -> m = 0 \/ grade_level <= m) ->
  (forall e, In e (activity_enrollments db) ->
             e_student_id e = student_id -> e_activity_id e = activity_id ->
             e_status e <> active /\ e_status e <> enrolled) ->
  (forall w, In w (activity_waitlist db) ->
             ~ (w_student_id w = student_id
                /\ w_activity_id w = activity_id)) ->
  -2147483648 <= student_id <= 2147483647 ->
  -2147483648 <= grade_level <= 2147483647 ->
  (forall v, text = Some v -> Z.of_nat (String.length v) <= 65535) ->
  (forall w, In w (activity_waitlist db) ->
             w_activity_id w = activity_id -> w_status w = waiting ->
             -2147483648 <= w_position w < 2147483647) ->
  let count :=
    Z.of_nat
      (List.length
         (filter (fun e => (e_activity_id e =? activity_id)
                           && enrollment_status_eqb (e_status e) active)
                 (activity_enrollments db))) in
  let capacity :=
    if a_quota act =? 0
    then match a_max_students act with
         | Some m => if m =? 0 then 30 else m
         | None => 30
         end
    else a_quota act in
  capacity <= count ->
  exists entry,
    fst (registerStudent now req db)
    = reg_200_waitlisted (w_position entry) count capacity
    /\ register_success (fst (registerStudent now req db)) = true
    /\ register_status (fst (registerStudent now req db)) = 200
    /\ activity_waitlist (snd (registerStudent now req db))
       = activity_waitlist db ++ [entry]
    /\ w_student_id entry = student_id /\ w_activity_id entry = activity_id
    /\ w_grade_level entry = Some grade_level
    /\ w_status entry = waiting /\ w_notes entry = text
    /\ (forall w, In w (activity_waitlist db) -> w_id w <> w_id entry)
    /\ activity_enrollments (snd (registerStudent now req db))
       = activity_enrollments db
    /\ ((forall w, In w (activity_waitlist db) ->
                   w_activity_id w = activity_id -> w_status w <> waiting) ->
        w_position entry = 1)
    /\ (forall last, In last (activity_waitlist db) ->
                     w_activity_id last = activity_id ->
                     w_status last = waiting ->
                     (forall w, In w (activity_waitlist db) ->
                                w_activity_id w = activity_id ->
                                w_status w = waiting ->
                                w_position w <= w_position last) ->
                     w_position entry = w_position last + 1).
Proof.
  intros Hok Hs Ha Hg Hnotes Ns Na Ng Hin Hid Hst Hw1 Hw2 Hg1 Hg2 Hex Hno
    Fs Fg Ftext Fpos count capacity Hfull.
  apply existingEnrollmentQuery_nil in Hex. apply no_entry_of_pair in Hno.
  rewrite (registerStudent_quota_step now req db student_id activity_id
             grade_level act Hok Hs Ha Hg Ns Na Ng Hin Hid Hst Hw1 Hw2 Hg1
             Hg2 Hex).
  rewrite quota_of_spec. fold capacity.
  change (active_count activity_id db) with count.
  replace (count >=? capacity) with true
    by (symmetry; rewrite Z.geb_leb; apply Z.leb_le; exact Hfull).
  (* the position the controller computes *)
  set (positions := map w_position
         (filter (fun w => (w_activity_id w =? activity_id)
                           && waitlist_status_eqb (w_status w) waiting)
                 (activity_waitlist db))).
  assert (InPos : forall p, In p positions <->
            exists w, In w (activity_waitlist db)
                      /\ w_activity_id w = activity_id
                      /\ w_status w = waiting /\ w_position w = p).
  { intros p. unfold positions. rewrite in_map_iff. split.
    - intros (w & E & Hw). apply filter_In in Hw. destruct Hw as [Hw Hp].
      rewrite andb_true_iff, Z.eqb_eq, waitlist_status_eqb_eq in Hp.
      exists w. tauto.
    - intros (w & Hw & Hwa & Hws & E). exists w. split; [exact E |].
      apply filter_In. split; [exact Hw |].
      rewrite Hwa, Hws, Z.eqb_refl. reflexivity. }
  assert (Pq : positionQuery activity_id db
               = coalesce (sql_max positions) 0 + 1) by reflexivity.
  destruct (next_position_spec positions) as [Pnil Pmax].
  assert (Fp : fits_INT (positionQuery activity_id db) = true).
  { apply fits_INT_spec. rewrite Pq.
    destruct positions as [| x t] eqn:Ep.
    - simpl. lia.
    - destruct (fold_max_In x t) as [Hmax Hub].
      rewrite (Pmax _ Hmax Hub).
      apply InPos in Hmax. destruct Hmax as (w & Hw & Hwa & Hws & E).
      specialize (Fpos w Hw Hwa Hws). lia. }
  rewrite Hnotes.
  rewrite (addToWaitlist_accepts student_id activity_id (Some grade_level)
             text db).
  2: now apply fits_INT_spec.
  2: { intros g0 E. inversion E; subst. now apply fits_INT_spec. }
  2: exact Fp.
  2: { intros v E. unfold fits_TEXT. apply Z.leb_le. now apply Ftext. }
  2: exact Hno.
  match goal with
  | |- context [logEnrollmentConflict ?s0 ?a0 ?c0 ?t0 ?sch0 ?d0] =>
      destruct (logEnrollmentConflict_spec s0 a0 c0 t0 sch0 d0)
        as [[_ ->] | [Bad _]]
  end.
  2: { exfalso. assert (fits_INT student_id = true)
         by now apply fits_INT_spec. congruence. }
  exists (mk_waitlist (next_id w_id (activity_waitlist db)) student_id
            activity_id (Some grade_level) 0 (positionQuery activity_id db)
            None waiting text).
  cbn [fst snd activity_waitlist activity_enrollments with_conflicts
       with_waitlist w_position w_student_id w_activity_id w_grade_level
       w_status w_notes w_id register_success register_status].
  repeat split.
  - intros w Hw. pose proof (next_id_fresh w_id _ _ Hw). lia.
  - intros Hnone. rewrite Pq. apply Pnil.
    destruct positions as [| x t] eqn:Ep; [reflexivity |]. exfalso.
    assert (Hx : In x (x :: t)) by (left; reflexivity).
    apply InPos in Hx. destruct Hx as (w & Hw & Hwa & Hws & _).
    exact (Hnone w Hw Hwa Hws).
  - intros last Hl Hla Hls Hub. rewrite Pq. apply Pmax.
    + apply InPos. exists last. auto.
    + intros p Hp. apply InPos in Hp.
      destruct Hp as (w & Hw & Hwa & Hws & <-). now apply Hub.
Qed.

Lemma store_full_ok : schema_ok Examples.store_full.
Proof. keys_hold. Qed.

Lemma quota_full_adds_to_waitlist_witness :
  schema_ok Examples.store_full
  /\ exists entry,
       fst (registerStudent 1 (Examples.register 7 1) Examples.store_full)
       = reg_200_waitlisted (w_position entry) 1 1
       /\ w_student_id entry = 7 /\ w_status entry = waiting
       /\ w_position entry = 1.
Proof.
  split; [exact store_full_ok |].
  assert (N7 : 7 <> 0) by discriminate.
  assert (N1 : 1 <> 0) by discriminate.
  assert (N5 : 5 <> 0) by discriminate.
  assert (Hin : In (Examples.plain_activity 1 "Chess Club" 1)
                   (activities Examples.store_full))
    by (left; reflexivity).
  assert (W1 : forall t,
             a_registration_start (Examples.plain_activity 1 "Chess Club" 1)
             = Some t -> t <= 1) by discriminate.
  assert (W2 : forall t,
             a_registration_end (Examples.plain_activity 1 "Chess Club" 1)
             = Some t -> 1 <= t) by discriminate.
  assert (G1 : forall m,
             a_min_grade (Examples.plain_activity 1 "Chess Club" 1) = Some m
             -> m = 0 \/ m <= 5)
    by (intros m E; inversion E; right; lia).
  assert (G2 : forall m,
             a_max_grade (Examples.plain_activity 1 "Chess Club" 1) = Some m
             -> m = 0 \/ 5 <= m)
    by (intros m E; inversion E; right; lia).
  assert (Hex : forall e, In e (activity_enrollments Examples.store_full) ->
                          e_student_id e = 7 -> e_activity_id e = 1 ->
                          e_status e <> active /\ e_status e <> enrolled)
    by (intros e [<- | []] E; discriminate E).
  assert (Hno : forall w, In w (activity_waitlist Examples.store_full) ->
                          ~ (w_student_id w = 7 /\ w_activity_id w = 1))
    by (intros w []).
  assert (F7 : -2147483648 <= 7 <= 2147483647) by lia.
  assert (F5 : -2147483648 <= 5 <= 2147483647) by lia.
  assert (Ft : forall v, Some "joining" = Some v ->
                         Z.of_nat (String.length v) <= 65535)
    by (intros v E; inversion E; simpl; lia).
  assert (Fp : forall w, In w (activity_waitlist Examples.store_full) ->
                         w_activity_id w = 1 -> w_status w = waiting ->
                         -2147483648 <= w_position w < 2147483647)
    by (intros w []).
  assert (Full : 1 <= 1) by lia.
  destruct (quota_full_adds_to_waitlist 1 (Examples.register 7 1)
              Examples.store_full 7 1 5 (Some "joining")
              (Examples.plain_activity 1 "Chess Club" 1)
              store_full_ok eq_refl eq_refl eq_refl eq_refl N7 N1 N5 Hin
              eq_refl eq_refl W1 W2 G1 G2 Hex Hno F7 F5 Ft Fp Full)
    as (entry & R & _ & _ & _ & Hs & _ & _ & Hst & _ & _ & _ & P & _).
  exists entry. repeat split; try assumption.
  apply P. intros w [].
Defined.

(** C6 as stated fails for a student who is already on the activity's
    waitlist: the second insert is refused by the unique key of
    activity_waitlist, the answer is 500 and no entry is added. *)
Lemma second_waitlisting_fails :
  fst (registerStudent 1 (Examples.register 7 1) Examples.store_full)
  = reg_200_waitlisted 1 1 1
  /\ registerStudent 2 (Examples.register 7 1) Examples.store_already_waiting
     = (reg_500 (ER_DUP_ENTRY "unique_waitlist"),
        Examples.store_already_waiting)
  /\ register_success
       (fst (registerStudent 2 (Examples.register 7 1)
               Examples.store_already_waiting)) = false.
Proof. repeat split. Qed.

(** What the hypotheses on notes and on the INT range rule out: a request
    without notes for a full activity is answered 500 (the waitlist insert
    binds notes as it is, and an undefined bind parameter is refused), while
    the same request for an activity with room is enrolled; a student_id
    above the INT range is answered 500 on either path. *)
Lemma unbound_notes_and_out_of_range_ids :
  registerStudent 1
    (mk_register_body (Some 7) (Some 1) (Some 5) None js_undefined)
    Examples.store_full
  = (reg_500 bind_undefined, Examples.store_full)
  /\ fst (registerStudent 1
            (mk_register_body (Some 7) (Some 1) (Some 5) None js_undefined)
            Examples.store_empty)
     = reg_201_enrolled
         (Some (mk_enrollment 1 7 1 active None (Some 5) None 0 None None))
         1 1
  /\ registerStudent 1
       (mk_register_body (Some 2147483648) (Some 1) (Some 5) None
          (js_value None))
       Examples.store_full
     = (reg_500 ER_WARN_DATA_OUT_OF_RANGE, Examples.store_full)
  /\ registerStudent 1
       (mk_register_body (Some 2147483648) (Some 1) (Some 5) None
          (js_value None))
       Examples.store_empty
     = (reg_500 ER_WARN_DATA_OUT_OF_RANGE, Examples.store_empty).
Proof. repeat split. Qed.

(** ** Cancellation *)

Lemma mark_withdrawn_ids now reason id (t : list enrollment) :
  map e_id (mark_withdrawn now reason id t) = map e_id t.
Proof.
  unfold mark_withdrawn.
  apply (map_key_update e_id (fun e => e_id e =? id)). reflexivity.
Qed.

Lemma mark_withdrawn_has_key now reason id student_id activity_id
  (t : list enrollment) :
  existsb (same_enrollment_key student_id activity_id)
    (mark_withdrawn now reason id t)
  = existsb (same_enrollment_key student_id activity_id) t.
Proof.
  unfold mark_withdrawn. induction t as [| e t IH]; simpl; [reflexivity |].
  rewrite IH. f_equal. destruct (e_id e =? id); reflexivity.
Qed.



Lemma next_id_same_ids {A : Type} (id : A -> Z) (t t' : list A) :
  map id t' = map id t -> next_id id t' = next_id id t.
Proof. unfold next_id. now intros ->. Qed.

Lemma promoteFromWaitlist_none now activity_id db :
  waitlistQuery activity_id db = [] ->
  promoteFromWaitlist now activity_id db = inr (None, db).
Proof. intros Q. unfold promoteFromWaitlist. now rewrite Q. Qed.

Lemma promoteFromWaitlist_accepts now activity_id db w rest :
  waitlistQuery activity_id db = w :: rest ->
  existsb (same_enrollment_key (w_student_id w) activity_id)
    (activity_enrollments db) = false ->
  promoteFromWaitlist now activity_id db
  = inr (Some (w_student_id w, now), promoted_state now activity_id w db).
Proof.
  intros Q Hno. unfold promoteFromWaitlist. rewrite Q. unfold bind.
  rewrite insert_activity_enrollments_accepts by exact Hno. reflexivity.
Qed.

Lemma promoteFromWaitlist_rejects now activity_id db w rest :
  waitlistQuery activity_id db = w :: rest ->
  existsb (same_enrollment_key (w_student_id w) activity_id)
    (activity_enrollments db) = true ->
  promoteFromWaitlist now activity_id db
  = inl (ER_DUP_ENTRY "unique_enrollment").
Proof.
  intros Q Hdup. unfold promoteFromWaitlist. rewrite Q.
  unfold bind, insert_activity_enrollments. now rewrite Hdup.
Qed.

(** cancelEnrollment, case by case. *)
Lemma cancelEnrollment_outcome (now : Z) (req : cancel_body) (db : DB) :
  let reason := js_or_str (cb_reason req) "Student requested" in
  let db0 :=
    with_enrollments db
      (mark_withdrawn now reason (cb_enrollment_id req)
         (activity_enrollments db)) in
  match enrollmentQuery (cb_enrollment_id req) (cb_student_id req) db with
  | [] => cancelEnrollment now req db = (cancel_404, db)
  | e :: _ =>
      match waitlistQuery (e_activity_id e) db with
      | [] =>
          cancelEnrollment now req db
          = (cancel_200 None,
             logAudit (cb_student_id req) "enrollment_cancelled"
               "enrollment" (cb_enrollment_id req) db0)
      | w :: _ =>
          if existsb (same_enrollment_key (w_student_id w) (e_activity_id e))
               (activity_enrollments db)
          then cancelEnrollment now req db
               = (cancel_500 (ER_DUP_ENTRY "unique_enrollment"), db)
          else cancelEnrollment now req db
               = (cancel_200 (Some (w_student_id w, now)),
                  logAudit (cb_student_id req) "enrollment_cancelled"
                    "enrollment" (cb_enrollment_id req)
                    (promoted_state now (e_activity_id e) w db0))
      end
  end.
Proof.
  intros reason db0. unfold cancelEnrollment.
  destruct (enrollmentQuery _ _ db) as [| e rest]; [reflexivity |].
  assert (B : (_ <- cancelQuery now
                      (js_or_str (cb_reason req) "Student requested")
                      (cb_enrollment_id req) ;;
               promoteFromWaitlist now (e_activity_id e)) db
              = promoteFromWaitlist now (e_activity_id e) db0)
    by reflexivity.
  rewrite B. clear B.
  assert (Q : waitlistQuery (e_activity_id e) db0
              = waitlistQuery (e_activity_id e) db) by reflexivity.
  destruct (waitlistQuery (e_activity_id e) db) as [| w wrest].
  - now rewrite (promoteFromWaitlist_none _ _ _ Q).
  - pose proof (mark_withdrawn_has_key now reason (cb_enrollment_id req)
                  (w_student_id w) (e_activity_id e)
                  (activity_enrollments db)) as K.
    destruct (existsb _ (activity_enrollments db)) eqn:X.
    + now rewrite (promoteFromWaitlist_rejects _ _ _ _ _ Q K).
    + now rewrite (promoteFromWaitlist_accepts _ _ _ _ _ Q K).
Qed.


Lemma enrollmentQuery_head enrollment_id student_id db e0 rest :
  enrollmentQuery enrollment_id student_id db = e0 :: rest ->
  In e0 (activity_enrollments db) /\ e_id e0 = enrollment_id
  /\ e_student_id e0 = student_id /\ e_status e0 = active.
Proof.
  unfold enrollmentQuery. intros E.
  assert (H : In e0 (filter (fun e => (e_id e =? enrollment_id)
                               && (e_student_id e =? student_id)
                               && enrollment_status_eqb (e_status e) active)
                       (activity_enrollments db)))
    by (rewrite E; left; reflexivity).
  apply filter_In in H. destruct H as [Hin H].
  rewrite !andb_true_iff, !Z.eqb_eq, enrollment_status_eqb_eq in H. tauto.
Qed.

(** ** C9: which enrollments cancelEnrollment withdraws *)




(** ** C8: register, cancel, register again *)

Lemma registerStudent_enrolled_inv now req db data n q db1 :
  registerStudent now req db = (reg_201_enrolled data n q, db1) ->
  exists student_id activity_id row,
    rb_student_id req = Some student_id
    /\ rb_activity_id req = Some activity_id
    /\ existsb (same_enrollment_key student_id activity_id)
         (activity_enrollments db) = false
    /\ e_id row = next_id e_id (activity_enrollments db)
    /\ e_student_id row = student_id /\ e_activity_id row = activity_id
    /\ e_status row = active
    /\ data = Some row
    /\ activity_enrollments db1 = activity_enrollments db ++ [row]
    /\ activity_waitlist db1 = activity_waitlist db.
Proof.
  intros R.
  destruct (registerStudent_outcome now req db)
    as [(E & S & _)
       | [(s & a & g & _ & _ & [F | F] & E)
         | [(s & a & c & _ & _ & F & E)
           | [(s & a & g & act & n0 & rest & text & _ & _ & _ & _ & _ & _
               & _ & F & E)
             | (s & a & g & act & n0 & rest & Hs & Ha & Hg & HQ & Hn & Hno
                & F & E)]]]];
    rewrite R in *; simpl in *; try discriminate.
  inversion F; subst.
  do 3 eexists. repeat split; try eassumption; reflexivity.
Qed.

Lemma registerStudent_existing_row now req db student_id activity_id :
  rb_student_id req = Some student_id ->
  rb_activity_id req = Some activity_id ->
  existsb (same_enrollment_key student_id activity_id)
    (activity_enrollments db) = true ->
  activity_enrollments (snd (registerStudent now req db))
  = activity_enrollments db
  /\ forall data n q,
       fst (registerStudent now req db) <> reg_201_enrolled data n q.
Proof.
  intros Hs Ha Hrow.
  destruct (registerStudent_outcome now req db)
    as [(E & S & _)
       | [(s & a & g & _ & _ & [F | F] & E)
         | [(s & a & c & _ & _ & F & E)
           | [(s & a & g & act & n0 & rest & text & _ & _ & _ & _ & _ & _
               & _ & F & E)
             | (s & a & g & act & n0 & rest & Hs0 & Ha0 & _ & _ & _ & Hno
                & _)]]]];
    try (rewrite E; split; [reflexivity |];
         intros data n q H; rewrite H in *; discriminate).
  exfalso. congruence.
Qed.

Lemma filter_mark_withdrawn now reason id student_id activity_id
  (t : list enrollment) :
  filter (same_enrollment_key student_id activity_id)
    (mark_withdrawn now reason id t)
  = mark_withdrawn now reason id
      (filter (same_enrollment_key student_id activity_id) t).
Proof.
  unfold mark_withdrawn. induction t as [| e t IH]; simpl; [reflexivity |].
  replace (same_enrollment_key student_id activity_id
             (if e_id e =? id then set_withdrawn now reason e else e))
    with (same_enrollment_key student_id activity_id e)
    by (destruct (e_id e =? id); reflexivity).
  destruct (same_enrollment_key student_id activity_id e); simpl;
    now rewrite IH.
Qed.

(** A successful cancellation keeps, for a pair that has a row, exactly the
    pair's rows, withdrawn where the id matches: the promoted enrollment, if
    any, belongs to another pair. *)
Lemma cancelEnrollment_rows_of_pair now req db promoted_student db2
  student_id activity_id :
  cancelEnrollment now req db = (cancel_200 promoted_student, db2) ->
  existsb (same_enrollment_key student_id activity_id)
    (activity_enrollments db) = true ->
  filter (same_enrollment_key student_id activity_id)
    (activity_enrollments db2)
  = mark_withdrawn now (js_or_str (cb_reason req) "Student requested")
      (cb_enrollment_id req)
      (filter (same_enrollment_key student_id activity_id)
              (activity_enrollments db)).
Proof.
  intros C Hrow.
  pose proof (cancelEnrollment_outcome now req db) as O. cbv zeta in O.
  destruct (enrollmentQuery _ _ db) as [| e rest];
    [rewrite O in C; discriminate |].
  destruct (waitlistQuery (e_activity_id e) db) as [| w wrest].
  - rewrite O in C. inversion C; subst. simpl.
    apply filter_mark_withdrawn.
  - destruct (existsb (same_enrollment_key (w_student_id w) (e_activity_id e))
                (activity_enrollments db)) eqn:X;
      rewrite O in C; [discriminate |].
    inversion C; subst. simpl. rewrite filter_app, filter_mark_withdrawn.
    simpl.
    destruct (same_enrollment_key student_id activity_id _) eqn:K;
      [| apply app_nil_r].
    exfalso. unfold same_enrollment_key in K. simpl in K.
    rewrite andb_true_iff, !Z.eqb_eq in K. destruct K as [K1 K2].
    rewrite K1, K2 in X. congruence.
Qed.


(** C8 (code defect). Once a registration (201) and the cancellation of
    that enrollment (200) have succeeded, a further registration of the same
    student for the same activity is never answered 201 and inserts no
    enrollment: the row of the cancelled enrollment, now with status
    withdrawn, is the pair's only row and still holds the unique key
    (student_id, activity_id), so the pair has no active enrollment
    afterwards. *)
Theorem reregistration_keeps_withdrawn_row (now1 now2 now3 : Z)
  (req req' : register_body) (reason : option string) (db db1 db2 : DB)
  (student_id activity_id n q : Z) (row : enrollment)
  (promoted_student : option (Z * Z)) :
  rb_student_id req = Some student_id ->
  rb_activity_id req = Some activity_id ->
  rb_student_id req' = Some student_id ->
  rb_activity_id req' = Some activity_id ->
  registerStudent now1 req db = (reg_201_enrolled (Some row) n q, db1) ->
  cancelEnrollment now2 (mk_cancel_body (e_id row) student_id reason) db1
  = (cancel_200 promoted_student, db2) ->
  (forall e, In e (activity_enrollments db) ->
             ~ (e_student_id e = student_id
                /\ e_activity_id e = activity_id))
  /\ e_status row = active
  /\ (exists row',
        e_id row' = e_id row /\ e_status row' = withdrawn
        /\ e_cancelled_at row' = Some now2
        /\ forall e, In e (activity_enrollments db2) ->
                     (e_student_id e = student_id
                      /\ e_activity_id e = activity_id) <-> e = row')
  /\ (forall data c k,
        fst (registerStudent now3 req' db2) <> reg_201_enrolled data c k)
  /\ activity_enrollments (snd (registerStudent now3 req' db2))
     = activity_enrollments db2
  /\ (forall e, In e (activity_enrollments
                        (snd (registerStudent now3 req' db2))) ->
                e_student_id e = student_id ->
                e_activity_id e = activity_id ->
                e_status e = withdrawn).
Proof.
  intros Hs Ha Hs' Ha' R C.
  destruct (registerStudent_enrolled_inv _ _ _ _ _ _ _ R)
    as (s0 & a0 & row0 & Hs0 & Ha0 & Hno & Hid & Rs & Ra & Rst & Hdata
        & Hrows & _).
  assert (Es : s0 = student_id) by congruence.
  assert (Ea : a0 = activity_id) by congruence.
  assert (Er : row0 = row) by congruence.
  rewrite Es, Ea in Hno. rewrite Er in Rs, Ra, Rst, Hrows.
  rewrite Es in Rs. rewrite Ea in Ra.
  clear Hs0 Ha0 Hdata Hid Es Ea Er s0 a0 row0.
  assert (Hkey : same_enrollment_key student_id activity_id row = true)
    by (unfold same_enrollment_key; rewrite Rs, Ra, !Z.eqb_refl; reflexivity).
  assert (F0 : filter (same_enrollment_key student_id activity_id)
                 (activity_enrollments db) = [])
    by now apply existsb_filter_nil.
  assert (F1 : filter (same_enrollment_key student_id activity_id)
                 (activity_enrollments db1) = [row])
    by (rewrite Hrows, filter_app, F0; simpl; now rewrite Hkey).
  assert (X1 : existsb (same_enrollment_key student_id activity_id)
                 (activity_enrollments db1) = true).
  { destruct (existsb _ (activity_enrollments db1)) eqn:X; [reflexivity |].
    apply existsb_filter_nil in X. congruence. }
  pose proof (cancelEnrollment_rows_of_pair _ _ _ _ _ _ _ C X1) as F2.
  rewrite F1 in F2. simpl in F2. rewrite Z.eqb_refl in F2.
  assert (X2 : existsb (same_enrollment_key student_id activity_id)
                 (activity_enrollments db2) = true).
  { destruct (existsb _ (activity_enrollments db2)) eqn:X; [reflexivity |].
    apply existsb_filter_nil in X. congruence. }
  destruct (registerStudent_existing_row now3 req' db2 _ _ Hs' Ha' X2)
    as [Same Not201].
  assert (Only : forall e, In e (activity_enrollments db2) ->
            (e_student_id e = student_id /\ e_activity_id e = activity_id)
            <-> e = set_withdrawn now2
                      (js_or_str reason "Student requested") row).
  { intros e He. split.
    - intros [E1 E2].
      assert (Hf : In e (filter (same_enrollment_key student_id activity_id)
                           (activity_enrollments db2))).
      { apply filter_In. split; [exact He |].
        unfold same_enrollment_key. rewrite E1, E2, !Z.eqb_refl.
        reflexivity. }
      rewrite F2 in Hf. destruct Hf as [<- | []]. reflexivity.
    - intros ->. simpl. auto. }
  split; [now apply no_row_of_pair |].
  split; [exact Rst |].
  split.
  { exists (set_withdrawn now2 (js_or_str reason "Student requested") row).
    simpl. repeat split; auto; apply Only; auto. }
  split; [exact Not201 |].
  split; [exact Same |].
  intros e He E1 E2. rewrite Same in He.
  rewrite (proj1 (Only e He) (conj E1 E2)). reflexivity.
Qed.

Lemma reregistration_keeps_withdrawn_row_witness :
  registerStudent 0 (Examples.register 7 1) Examples.store_empty
  = (reg_201_enrolled (Some (Examples.plain_enrollment 1 7 1 active)) 1 1,
     Examples.store_after_register)
  /\ cancelEnrollment 1 (mk_cancel_body 1 7 None)
       Examples.store_after_register
     = (cancel_200 None, Examples.store_after_cancel)
  /\ registerStudent 2 (Examples.register 7 1) Examples.store_after_cancel
     = (reg_500 (ER_DUP_ENTRY "unique_enrollment"),
        Examples.store_after_cancel)
  /\ register_success
       (fst (registerStudent 2 (Examples.register 7 1)
               Examples.store_after_cancel)) = false
  /\ (forall e, In e (activity_enrollments
                        (snd (registerStudent 2 (Examples.register 7 1)
                                Examples.store_after_cancel))) ->
                e_student_id e = 7 -> e_activity_id e = 1 ->
                e_status e = withdrawn).
Proof.
  assert (R : registerStudent 0 (Examples.register 7 1) Examples.store_empty
              = (reg_201_enrolled
                   (Some (Examples.plain_enrollment 1 7 1 active)) 1 1,
                 Examples.store_after_register)) by reflexivity.
  assert (C : cancelEnrollment 1
                (mk_cancel_body
                   (e_id (Examples.plain_enrollment 1 7 1 active)) 7 None)
                Examples.store_after_register
              = (cancel_200 None, Examples.store_after_cancel))
    by reflexivity.
  split; [exact R |]. split; [exact C |]. split; [reflexivity |].
  destruct (reregistration_keeps_withdrawn_row 0 1 2 (Examples.register 7 1)
              (Examples.register 7 1) None Examples.store_empty
              Examples.store_after_register Examples.store_after_cancel
              7 1 1 1 (Examples.plain_enrollment 1 7 1 active) None
              eq_refl eq_refl eq_refl eq_refl R C)
    as (_ & _ & _ & _ & _ & H).
  split; [reflexivity | exact H].
Defined.

(** On the spec's own example: student 7 registers for activity 1 (201),
    cancels (200) and registers again; the insert is refused by the unique
    key (student_id, activity_id) that the withdrawn row still occupies, the
    answer is 500 and the pair has no active enrollment. *)
Lemma reregistration_is_refused :
  fst (registerStudent 0 (Examples.register 7 1) Examples.store_empty)
  = reg_201_enrolled (Some (Examples.plain_enrollment 1 7 1 active)) 1 1
  /\ fst (cancelEnrollment 1 (mk_cancel_body 1 7 None)
            Examples.store_after_register)
     = cancel_200 None
  /\ registerStudent 2 (Examples.register 7 1) Examples.store_after_cancel
     = (reg_500 (ER_DUP_ENTRY "unique_enrollment"),
        Examples.store_after_cancel)
  /\ map e_status
       (activity_enrollments
          (snd (registerStudent 2 (Examples.register 7 1)
                  Examples.store_after_cancel)))
     = [withdrawn].
Proof. repeat split. Qed.

(** * Further properties of the controllers and their middleware *)

(** ** What registerStudent writes *)

(** X1. registerStudent never changes the activities, venues or schedules,
    and never changes or removes a row of the enrollment and waitlist
    tables: it appends one active enrollment of the requesting student when
    it answers 201, one waiting entry when it answers 200 (waitlisted), and
    writes neither table on any other answer. *)
Theorem registerStudent_writes_one_row (now : Z) (req : register_body)
  (db : DB) :
  activities (snd (registerStudent now req db)) = activities db
  /\ venues (snd (registerStudent now req db)) = venues db
  /\ activity_schedules (snd (registerStudent now req db))
     = activity_schedules db
  /\ ((register_success (fst (registerStudent now req db)) = false
       /\ activity_enrollments (snd (registerStudent now req db))
          = activity_enrollments db
       /\ activity_waitlist (snd (registerStudent now req db))
          = activity_waitlist db)
      \/ (exists row n q,
            fst (registerStudent now req db)
            = reg_201_enrolled (Some row) n q
            /\ e_status row = active
            /\ rb_student_id req = Some (e_student_id row)
            /\ rb_activity_id req = Some (e_activity_id row)
            /\ activity_enrollments (snd (registerStudent now req db))
               = activity_enrollments db ++ [row]
            /\ activity_waitlist (snd (registerStudent now req db))
               = activity_waitlist db)
      \/ (exists entry n q,
            fst (registerStudent now req db)
            = reg_200_waitlisted (w_position entry) n q
            /\ w_status entry = waiting
            /\ rb_student_id req = Some (w_student_id entry)
            /\ rb_activity_id req = Some (w_activity_id entry)
            /\ activity_waitlist (snd (registerStudent now req db))
               = activity_waitlist db ++ [entry]
            /\ activity_enrollments (snd (registerStudent now req db))
               = activity_enrollments db)).
Proof.
  destruct (registerStudent_outcome now req db)
    as [(E & S & _)
       | [(s & a & g & Hs & Ha & R & E)
         | [(s & a & c & Hs & Ha & R & E)
           | [(s & a & g & act & n & rest & text & Hs & Ha & Hg & _ & HQ & Hn
               & Hno & R & E)
             | (s & a & g & act & n & rest & Hs & Ha & Hg & HQ & Hn & Hno
                & R & E)]]]];
    rewrite E.
  - repeat split; auto.
  - repeat split; auto. left. destruct R as [-> | ->]; auto.
  - repeat split; auto. left. rewrite R. auto.
  - repeat split; auto. right; right.
    eexists. exists n, (quota_of act). rewrite R. simpl.
    repeat split; auto.
  - repeat split; auto. right; left.
    eexists. exists (n + 1), (quota_of act). rewrite R. simpl.
    repeat split; auto.
Qed.

Lemma registerStudent_conflict_log_eq (now : Z) (req : register_body)
  (db : DB) :
  enrollment_conflicts (snd (registerStudent now req db))
  = enrollment_conflicts db ++
    match fst (registerStudent now req db) with
    | reg_400_grade_below _ | reg_400_grade_above _ =>
        [mk_conflict (coalesce (rb_student_id req) 0)
           (coalesce (rb_activity_id req) 0) None None grade_restriction]
    | reg_200_waitlisted _ _ _ =>
        [mk_conflict (coalesce (rb_student_id req) 0)
           (coalesce (rb_activity_id req) 0) None None quota_full]
    | reg_409_time_overlap conflict =>
        [mk_conflict (coalesce (rb_student_id req) 0)
           (coalesce (rb_activity_id req) 0)
           (Some (conflicting_activity_id conflict))
           (Some (conflicting_schedule_id conflict)) time_overlap]
    | _ => []
    end.
Proof.
  destruct (registerStudent_outcome now req db)
    as [(E & S & G1 & G2 & G3)
       | [(s & a & g & Hs & Ha & R & E)
         | [(s & a & c & Hs & Ha & R & E)
           | [(s & a & g & act & n & rest & text & Hs & Ha & Hg & _ & HQ & Hn
               & Hno & R & E)
             | (s & a & g & act & n & rest & Hs & Ha & Hg & HQ & Hn & Hno
                & R & E)]]]];
    rewrite E.
  - destruct (fst (registerStudent now req db)) eqn:F;
      try (symmetry; apply app_nil_r); try discriminate.
    + exfalso. eapply G1; eauto.
    + exfalso. eapply G2; eauto.
    + exfalso. eapply G3; eauto.
  - rewrite Hs, Ha. destruct R as [-> | ->]; reflexivity.
  - rewrite Hs, Ha, R. reflexivity.
  - rewrite Hs, Ha, R. reflexivity.
  - rewrite R. simpl. symmetry. apply app_nil_r.
Qed.


(** X2. What registerStudent writes to the conflict log is decided by its
    answer: one grade_restriction record on a grade refusal (written after
    the rollback, so it stays), one quota_full record when the student is
    waitlisted, one time_overlap record on a 409, and nothing on any other
    answer (not found, window closed, already enrolled, enrolled, 500). *)
Theorem registerStudent_conflict_log (now : Z) (req : register_body)
  (db : DB) :
  enrollment_conflicts (snd (registerStudent now req db))
  = enrollment_conflicts db ++
    match fst (registerStudent now req db) with
    | reg_400_grade_below _ | reg_400_grade_above _ =>
        [mk_conflict (coalesce (rb_student_id req) 0)
           (coalesce (rb_activity_id req) 0) None None grade_restriction]
    | reg_200_waitlisted _ _ _ =>
        [mk_conflict (coalesce (rb_student_id req) 0)
           (coalesce (rb_activity_id req) 0) None None quota_full]
    | reg_409_time_overlap conflict =>
        [mk_conflict (coalesce (rb_student_id req) 0)
           (coalesce (rb_activity_id req) 0)
           (Some (conflicting_activity_id conflict))
           (Some (conflicting_schedule_id conflict)) time_overlap]
    | _ => []
    end.
Proof. apply registerStudent_conflict_log_eq. Qed.

(** X3. The counts in a 201 answer are the true ones: current_enrollments is
    the activity's number of active enrollments after the insert, one more
    than before and never above the reported quota, which is the capacity
    of the active activity with the requested id; no other activity's count
    moves. *)
Theorem registerStudent_reports_true_counts (now : Z) (req : register_body)
  (db : DB) (activity_id c q : Z) (data : option enrollment) :
  rb_activity_id req = Some activity_id ->
  fst (registerStudent now req db) = reg_201_enrolled data c q ->
  c = active_count activity_id (snd (registerStudent now req db))
  /\ c = active_count activity_id db + 1
  /\ c <= q
  /\ (exists act, In act (activities db) /\ a_id act = activity_id
                  /\ a_status act = act_active /\ q = quota_of act)
  /\ (forall other, other <> activity_id ->
        active_count other (snd (registerStudent now req db))
        = active_count other db).
Proof.
  intros Ha0 F.
  destruct (registerStudent_outcome now req db)
    as [(E & S & _)
       | [(s & a & g & Hs & Ha & R & E)
         | [(s & a & cf & Hs & Ha & R & E)
           | [(s & a & g & act & n & rest & text & Hs & Ha & Hg & _ & HQ & Hn
               & Hno & R & E)
             | (s & a & g & act & n & rest & Hs & Ha & Hg & HQ & Hn & Hno
                & R & E)]]]].
  - rewrite F in S. discriminate.
  - destruct R as [R | R]; congruence.
  - congruence.
  - congruence.
  - assert (a = activity_id) by congruence. subst a.
    rewrite F in R. inversion R; subst. clear R.
    destruct (activityQuery_head _ _ _ _ _ HQ) as (Hin & Hid & Hst & Hcount).
    assert (Hbefore : n = active_count activity_id db) by exact Hcount.
    assert (Hafter : active_count activity_id (snd (registerStudent now req db))
                     = n + 1).
    { rewrite E. unfold active_count. simpl.
      rewrite filter_app, length_app. simpl. rewrite Z.eqb_refl. simpl.
      rewrite Hcount. lia. }
    repeat split; try lia.
    + exists act. auto.
    + intros other Hne. rewrite E. unfold active_count. simpl.
      rewrite filter_app, length_app. simpl.
      replace (activity_id =? other) with false
        by (symmetry; apply Z.eqb_neq; congruence).
      simpl. lia.
Qed.

Lemma registerStudent_reports_true_counts_witness :
  fst (registerStudent 0 (Examples.register 7 1) Examples.store_empty)
  = reg_201_enrolled (Some (Examples.plain_enrollment 1 7 1 active)) 1 1
  /\ 1 = active_count 1
           (snd (registerStudent 0 (Examples.register 7 1)
                   Examples.store_empty))
  /\ 1 <= 1.
Proof.
  assert (F : fst (registerStudent 0 (Examples.register 7 1)
                     Examples.store_empty)
              = reg_201_enrolled
                  (Some (Examples.plain_enrollment 1 7 1 active)) 1 1)
    by reflexivity.
  destruct (registerStudent_reports_true_counts 0 (Examples.register 7 1)
              Examples.store_empty 1 1 1
              (Some (Examples.plain_enrollment 1 7 1 active)) eq_refl F)
    as (H1 & _ & H3 & _).
  split; [exact F |]. split; [exact H1 | exact H3].
Defined.

(** ** The logs only grow *)

Lemma extends_refl {A : Type} (l : list A) : extends l l.
Proof. exists []. symmetry. apply app_nil_r. Qed.

Lemma extends_snoc {A : Type} (l : list A) (x : A) : extends l (l ++ [x]).
Proof. now exists [x]. Qed.

Lemma extends_trans {A : Type} (l1 l2 l3 : list A) :
  extends l1 l2 -> extends l2 l3 -> extends l1 l3.
Proof.
  intros [a ->] [b ->]. exists (a ++ b). now rewrite app_assoc.
Qed.

Lemma update_status_logs status id db :
  enrollment_conflicts (fst (update_status status id db))
  = enrollment_conflicts db
  /\ audit_log (fst (update_status status id db)) = audit_log db.
Proof. split; reflexivity. Qed.

Lemma step_logs db db' :
  step db db' ->
  extends (enrollment_conflicts db) (enrollment_conflicts db')
  /\ extends (audit_log db) (audit_log db').
Proof.
  intros S. destruct S.
  - rewrite registerStudent_conflict_log_eq. split.
    + now eexists.
    + destruct (registerStudent_outcome now req db)
        as [(E & _)
           | [(s & a & g & _ & _ & _ & E)
             | [(s & a & c & _ & _ & _ & E)
               | [(s & a & g & act & n & rest & text & _ & _ & _ & _ & _ & _
               & _ & _ & E)
                 | (s & a & g & act & n & rest & _ & _ & _ & _ & _ & _ & _
                    & E)]]]];
        rewrite E; simpl; auto using extends_refl, extends_snoc.
  - pose proof (cancelEnrollment_outcome now req db) as O. cbv zeta in O.
    destruct (enrollmentQuery _ _ db) as [| e rest];
      [rewrite O; split; apply extends_refl |].
    destruct (waitlistQuery (e_activity_id e) db) as [| w wrest];
      [rewrite O; simpl; split;
       [apply extends_refl | apply extends_snoc] |].
    destruct (existsb _ (activity_enrollments db)); rewrite O; simpl; split;
      auto using extends_refl, extends_snoc.
  - destruct (enrollStudent_outcome req db)
      as [(E & _) | (s & a & m & c & rest & _ & _ & _ & _ & _ & _ & _ & _ & E)];
      rewrite E; simpl; split; apply extends_refl.
  - unfold withdrawEnrollment.
    destruct (update_status_logs withdrawn id db) as [H1 H2].
    destruct (update_status withdrawn id db) as [db1 n].
    simpl in H1, H2. destruct (n =? 0); simpl; rewrite H1, H2;
      split; apply extends_refl.
  - unfold updateEnrollmentStatus.
    destruct status as [st |]; [| split; apply extends_refl].
    destruct (negb _); [split; apply extends_refl |].
    destruct (update_status_logs st id db) as [H1 H2].
    destruct (update_status st id db) as [db1 n].
    simpl in H1, H2. destruct (n =? 0); simpl; rewrite H1, H2;
      split; apply extends_refl.
  - unfold deleteEnrollment.
    destruct (filter _ _); simpl; split; apply extends_refl.
  - unfold deleteActivity.
    destruct (filter _ _); simpl; split; apply extends_refl.
Qed.

(** X4. The conflict log and the audit log are append-only: after any
    sequence of requests to the two enrollment controllers and
    deleteActivity, every record that was in either log is still there, in
    place, with new records only after it. *)
Theorem logs_are_append_only (db db' : DB) :
  clos_refl_trans DB step db db' ->
  extends (enrollment_conflicts db) (enrollment_conflicts db')
  /\ extends (audit_log db) (audit_log db').
Proof.
  induction 1 as [db db' S | db | db db1 db2 _ [IH1 IH2] _ [IH3 IH4]].
  - now apply step_logs.
  - split; apply extends_refl.
  - split; eapply extends_trans; eauto.
Qed.

Lemma logs_are_append_only_witness :
  clos_refl_trans DB step Examples.store_empty Examples.store_after_cancel
  /\ extends (audit_log Examples.store_empty)
       (audit_log Examples.store_after_cancel).
Proof.
  assert (R : clos_refl_trans DB step Examples.store_empty
                Examples.store_after_cancel).
  { apply rt_trans with (y := Examples.store_after_register); apply rt_step.
    - exact (step_registerStudent Examples.store_empty 0
               (Examples.register 7 1)).
    - exact (step_cancelEnrollment Examples.store_after_register 1
               (mk_cancel_body 1 7 None)). }
  split; [exact R |].
  exact (proj2 (logs_are_append_only _ _ R)).
Defined.

(** ** Every operation keeps the keys *)

Lemma next_id_not_in {A : Type} (id : A -> Z) (t : list A) :
  ~ In (next_id id t) (map id t).
Proof.
  intros H. apply in_map_iff in H. destruct H as (x & E & Hx).
  pose proof (next_id_fresh id t x Hx). lia.
Qed.

Lemma same_waitlist_key_spec student_id activity_id w :
  same_waitlist_key student_id activity_id w = true
  <-> waitlist_key w = (student_id, activity_id).
Proof.
  unfold same_waitlist_key, waitlist_key.
  rewrite andb_true_iff, !Z.eqb_eq. split.
  - intros [-> ->]; reflexivity.
  - intros H; inversion H; auto.
Qed.

Lemma no_waitlist_key student_id activity_id (l : list waitlist_entry) :
  existsb (same_waitlist_key student_id activity_id) l = false
  <-> ~ In (student_id, activity_id) (map waitlist_key l).
Proof.
  rewrite existsb_false_iff, in_map_iff. split.
  - intros H (e & E & Hin). apply same_waitlist_key_spec in E.
    rewrite (H e Hin) in E. discriminate.
  - intros H e Hin.
    destruct (same_waitlist_key student_id activity_id e) eqn:E; auto.
    exfalso. apply H. exists e. split; auto.
    now apply same_waitlist_key_spec.
Qed.

Lemma schema_ok_insert_enrollment db row :
  schema_ok db ->
  e_id row = next_id e_id (activity_enrollments db) ->
  existsb (same_enrollment_key (e_student_id row) (e_activity_id row))
    (activity_enrollments db) = false ->
  schema_ok (with_enrollments db (activity_enrollments db ++ [row])).
Proof.
  intros [H1 H2 H3 H4 H5 H6] Hid Hno.
  constructor; simpl; auto.
  - rewrite map_app. simpl. apply NoDup_snoc; auto.
    rewrite Hid. apply next_id_not_in.
  - unfold unique_enrollment. simpl. rewrite map_app. simpl.
    apply NoDup_snoc; auto. now apply no_enrollment_key.
Qed.

Lemma schema_ok_insert_waitlist db entry :
  schema_ok db ->
  w_id entry = next_id w_id (activity_waitlist db) ->
  existsb (same_waitlist_key (w_student_id entry) (w_activity_id entry))
    (activity_waitlist db) = false ->
  schema_ok (with_waitlist db (activity_waitlist db ++ [entry])).
Proof.
  intros [H1 H2 H3 H4 H5 H6] Hid Hno.
  constructor; simpl; auto.
  - rewrite map_app. simpl. apply NoDup_snoc; auto.
    rewrite Hid. apply next_id_not_in.
  - rewrite map_app. simpl. apply NoDup_snoc; auto.
    now apply no_waitlist_key.
Qed.

Lemma schema_ok_logs db conflicts audit :
  schema_ok db ->
  schema_ok (mk_DB (activities db) (venues db) (activity_schedules db)
               (activity_enrollments db) (activity_waitlist db) conflicts
               audit).
Proof. intros [H1 H2 H3 H4 H5 H6]. constructor; auto. Qed.

Lemma schema_ok_update_enrollments db (test : enrollment -> bool)
  (f : enrollment -> enrollment) :
  (forall e, e_id (f e) = e_id e) ->
  (forall e, enrollment_key (f e) = enrollment_key e) ->
  schema_ok db ->
  schema_ok (with_enrollments db
               (map (fun e => if test e then f e else e)
                    (activity_enrollments db))).
Proof.
  intros Fid Fkey [H1 H2 H3 H4 H5 H6].
  constructor; simpl; auto.
  - now rewrite (map_key_update e_id test f).
  - unfold unique_enrollment. simpl.
    now rewrite (map_key_update enrollment_key test f).
Qed.

Lemma schema_ok_promoted now activity_id w db :
  schema_ok db ->
  existsb (same_enrollment_key (w_student_id w) activity_id)
    (activity_enrollments db) = false ->
  schema_ok (promoted_state now activity_id w db).
Proof.
  intros Hok Hno. unfold promoted_state.
  pose proof (schema_ok_insert_enrollment db
                (mk_enrollment (next_id e_id (activity_enrollments db))
                   (w_student_id w) activity_id active
                   (Some "Promoted from waitlist") (w_grade_level w) None 0
                   None None) Hok eq_refl Hno) as [H1 H2 H3 H4 H5 H6].
  constructor; simpl; auto.
  - now rewrite (map_key_update w_id (fun x => w_id x =? w_id w)
                   (set_promoted now)).
  - now rewrite (map_key_update waitlist_key (fun x => w_id x =? w_id w)
                   (set_promoted now)).
Qed.

Lemma step_schema_ok db db' : schema_ok db -> step db db' -> schema_ok db'.
Proof.
  intros Hok S. destruct S.
  - destruct (registerStudent_outcome now req db)
      as [(E & _)
         | [(s & a & g & _ & _ & _ & E)
           | [(s & a & c & _ & _ & _ & E)
             | [(s & a & g & act & n & rest & text & _ & _ & _ & _ & _ & _
               & Hno & _ & E)
               | (s & a & g & act & n & rest & _ & _ & _ & _ & _ & Hno & _
                  & E)]]]];
      rewrite E.
    + exact Hok.
    + now apply schema_ok_logs.
    + now apply schema_ok_logs.
    + unfold logEnrollmentConflict, with_conflicts.
      apply (schema_ok_logs (with_waitlist db _)).
      now apply schema_ok_insert_waitlist.
    + unfold logAudit, with_audit.
      apply (schema_ok_logs (with_enrollments db _)).
      now apply schema_ok_insert_enrollment.
  - pose proof (cancelEnrollment_outcome now req db) as O. cbv zeta in O.
    destruct (enrollmentQuery _ _ db) as [| e rest];
      [rewrite O; exact Hok |].
    assert (Hok0 : schema_ok
                     (with_enrollments db
                        (mark_withdrawn now
                           (js_or_str (cb_reason req) "Student requested")
                           (cb_enrollment_id req) (activity_enrollments db))))
      by (unfold mark_withdrawn; now apply schema_ok_update_enrollments).
    destruct (waitlistQuery (e_activity_id e) db) as [| w wrest].
    + rewrite O. simpl. unfold logAudit, with_audit.
      now apply (schema_ok_logs (with_enrollments db _)).
    + destruct (existsb _ (activity_enrollments db)) eqn:X; rewrite O;
        [exact Hok |].
      simpl. unfold logAudit, with_audit.
      apply (schema_ok_logs (promoted_state _ _ _ _)).
      apply schema_ok_promoted; [exact Hok0 |].
      simpl. now rewrite mark_withdrawn_has_key.
  - destruct (enrollStudent_outcome req db)
      as [(E & _)
         | (s & a & m & c & rest & _ & _ & _ & _ & _ & _ & Hno & _ & E)];
      rewrite E; [exact Hok |].
    now apply schema_ok_insert_enrollment.
  - unfold withdrawEnrollment, update_status.
    destruct (_ =? 0); simpl; now apply schema_ok_update_enrollments.
  - unfold updateEnrollmentStatus.
    destruct status as [st |]; [| exact Hok].
    destruct (negb _); [exact Hok |].
    unfold update_status.
    destruct (_ =? 0); simpl; now apply schema_ok_update_enrollments.
  - unfold deleteEnrollment.
    destruct (filter _ _); [exact Hok |]. simpl.
    destruct Hok as [H1 H2 H3 H4 H5 H6].
    constructor; simpl; auto; now apply NoDup_map_filter.
  - unfold deleteActivity.
    destruct (filter _ _); [exact Hok |]. simpl.
    destruct Hok as [H1 H2 H3 H4 H5 H6].
    constructor; simpl; auto; now apply NoDup_map_filter.
Qed.

Lemma reachable_keys (db : DB) : reachable db -> schema_ok db.
Proof.
  induction 1 as [db Hok | db db' _ IH S].
  - exact Hok.
  - eapply step_schema_ok; eauto.
Qed.

(** X5. Every request keeps the keys of the schema: in every reachable
    state the ids of activities, schedules, enrollments and waitlist
    entries are unique, and so are the (student_id, activity_id) pairs of
    the enrollment table and of the waitlist table. *)
Theorem reachable_schema_ok (db : DB) : reachable db -> schema_ok db.
Proof. apply reachable_keys. Qed.

Lemma reachable_schema_ok_witness :
  reachable Examples.store_after_register
  /\ schema_ok Examples.store_after_register.
Proof.
  split; [exact store_after_register_reachable |].
  exact (reachable_schema_ok _ store_after_register_reachable).
Defined.

(** ** Waiting positions *)

Lemma filter_and {A : Type} (p q : A -> bool) (l : list A) :
  filter (fun x => q x && p x) l = filter q (filter p l).
Proof.
  induction l as [| x l IH]; simpl; [reflexivity |].
  destruct (p x) eqn:P, (q x) eqn:Q; simpl; rewrite ?Q, ?IH; reflexivity.
Qed.

Lemma waiting_positions_below_next activity_id db x :
  In x (waiting_positions activity_id db) -> x < positionQuery activity_id db.
Proof.
  unfold positionQuery. fold (waiting_positions activity_id db).
  destruct (waiting_positions activity_id db) as [| y t]; [contradiction |].
  intros Hin. simpl.
  pose proof (proj2 (fold_max_In y t) x Hin). lia.
Qed.

Lemma waiting_positions_promoted now id b (l : list waitlist_entry) :
  map w_position
    (filter (fun w => (w_activity_id w =? b)
                      && waitlist_status_eqb (w_status w) waiting)
            (map (fun x => if w_id x =? id then set_promoted now x else x) l))
  = map w_position
      (filter (fun w => negb (w_id w =? id))
              (filter (fun w => (w_activity_id w =? b)
                                && waitlist_status_eqb (w_status w) waiting)
                      l)).
Proof.
  rewrite <- filter_and.
  induction l as [| x l IH]; simpl; [reflexivity |].
  destruct (w_id x =? id); simpl.
  - rewrite andb_false_r. exact IH.
  - destruct (_ && _); simpl; now rewrite IH.
Qed.

Lemma step_distinct_waiting_positions db db' :
  distinct_waiting_positions db -> step db db' ->
  distinct_waiting_positions db'.
Proof.
  intros D S. destruct S.
  - destruct (registerStudent_outcome now req db)
      as [(E & _)
         | [(s & a & g & _ & _ & _ & E)
           | [(s & a & c & _ & _ & _ & E)
             | [(s & a & g & act & n & rest & text & _ & _ & _ & _ & _ & _
               & _ & _ & E)
               | (s & a & g & act & n & rest & _ & _ & _ & _ & _ & _ & _
                  & E)]]]];
      rewrite E; try exact D.
    intros b. unfold waiting_positions. simpl.
    rewrite filter_app, map_app. simpl.
    destruct (Z.eqb_spec a b) as [<- | Hne]; simpl.
    + apply NoDup_snoc; [apply D |].
      intros Hin. apply waiting_positions_below_next in Hin. lia.
    + rewrite app_nil_r. apply D.
  - pose proof (cancelEnrollment_outcome now req db) as O. cbv zeta in O.
    destruct (enrollmentQuery _ _ db) as [| e rest];
      [rewrite O; exact D |].
    destruct (waitlistQuery (e_activity_id e) db) as [| w wrest];
      [rewrite O; exact D |].
    destruct (existsb _ (activity_enrollments db)); rewrite O; [exact D |].
    intros b. unfold waiting_positions. simpl.
    rewrite waiting_positions_promoted. apply NoDup_map_filter. apply D.
  - destruct (enrollStudent_outcome req db)
      as [(E & _)
         | (s & a & m & c & rest & _ & _ & _ & _ & _ & _ & _ & _ & E)];
      rewrite E; exact D.
  - unfold withdrawEnrollment, update_status.
    destruct (_ =? 0); exact D.
  - unfold updateEnrollmentStatus.
    destruct status as [st |]; [| exact D].
    destruct (negb _); [exact D |].
    unfold update_status. destruct (_ =? 0); exact D.
  - unfold deleteEnrollment. destruct (filter _ _); exact D.
  - unfold deleteActivity. destruct (filter _ _); [exact D |].
    intros b. unfold waiting_positions. simpl.
    rewrite <- filter_and.
    rewrite (filter_ext
               (fun x => (w_activity_id x =? b)
                         && waitlist_status_eqb (w_status x) waiting
                         && negb (w_activity_id x =? id))
               (fun x => negb (w_activity_id x =? id)
                         && ((w_activity_id x =? b)
                             && waitlist_status_eqb (w_status x) waiting)))
      by (intros x; apply andb_comm).
    rewrite filter_and. apply NoDup_map_filter. apply D.
Qed.

(** X6. Waiting positions stay distinct: if no two waiting entries of an
    activity share a position, no sequence of requests makes two of them
    share one. A new entry gets a position above every waiting one of its
    activity, and a promotion only takes an entry out of the waiting
    ones. *)
Theorem waiting_positions_stay_distinct (db db' : DB) :
  distinct_waiting_positions db ->
  clos_refl_trans DB step db db' ->
  distinct_waiting_positions db'.
Proof.
  intros D R. induction R as [db db' S | db | db db1 db2 _ IH1 _ IH2].
  - eapply step_distinct_waiting_positions; eauto.
  - exact D.
  - auto.
Qed.

Lemma store_priority_distinct :
  distinct_waiting_positions Examples.store_priority.
Proof.
  intros b. unfold waiting_positions. cbn -[Z.eqb].
  destruct (1 =? b); simpl;
    repeat (constructor; simpl; try (intuition (discriminate || lia))).
Qed.

Lemma waiting_positions_stay_distinct_witness :
  distinct_waiting_positions Examples.store_priority
  /\ clos_refl_trans DB step Examples.store_priority
       (snd (cancelEnrollment 9 (mk_cancel_body 1 9 None)
               Examples.store_priority))
  /\ distinct_waiting_positions
       (snd (cancelEnrollment 9 (mk_cancel_body 1 9 None)
               Examples.store_priority)).
Proof.
  assert (R : clos_refl_trans DB step Examples.store_priority
                (snd (cancelEnrollment 9 (mk_cancel_body 1 9 None)
                        Examples.store_priority)))
    by (apply rt_step;
        exact (step_cancelEnrollment Examples.store_priority 9
                 (mk_cancel_body 1 9 None))).
  split; [exact store_priority_distinct |]. split; [exact R |].
  exact (waiting_positions_stay_distinct _ _ store_priority_distinct R).
Defined.

(** ** Cancelling twice, and the seats a cancellation frees *)



Lemma mark_withdrawn_other now reason id (t : list enrollment) :
  ~ In id (map e_id t) -> mark_withdrawn now reason id t = t.
Proof.
  unfold mark_withdrawn. intros Hnot.
  rewrite <- (map_id t) at 2. apply map_ext_in. intros x Hx.
  destruct (Z.eqb_spec (e_id x) id) as [E |]; [| reflexivity].
  exfalso. apply Hnot. rewrite <- E. now apply in_map.
Qed.

Lemma count_mark_withdrawn now reason b (t : list enrollment)
  (e : enrollment) :
  NoDup (map e_id t) -> In e t -> e_status e = active ->
  Nat.add
    (List.length
       (filter (fun ae => (e_activity_id ae =? b)
                          && enrollment_status_eqb (e_status ae) active)
               (mark_withdrawn now reason (e_id e) t)))
    (if e_activity_id e =? b then 1%nat else 0%nat)
  = List.length
      (filter (fun ae => (e_activity_id ae =? b)
                         && enrollment_status_eqb (e_status ae) active)
              t).
Proof.
  induction t as [| x t IH]; intros ND Hin Hst; [contradiction |].
  inversion ND as [| ? ? Hnot ND']; subst.
  destruct (Z.eqb_spec (e_id x) (e_id e)) as [E | Hne].
  - assert (x = e).
    { apply (NoDup_key_inj e_id (x :: t)); simpl; auto. }
    subst x.
    change (mark_withdrawn now reason (e_id e) (e :: t))
      with ((if e_id e =? e_id e then set_withdrawn now reason e else e)
            :: mark_withdrawn now reason (e_id e) t).
    rewrite Z.eqb_refl, (mark_withdrawn_other _ _ _ _ Hnot).
    simpl. rewrite andb_false_r, Hst.
    destruct (e_activity_id e =? b); simpl; lia.
  - destruct Hin as [-> | Hin]; [contradiction |].
    specialize (IH ND' Hin Hst).
    change (mark_withdrawn now reason (e_id e) (x :: t))
      with ((if e_id x =? e_id e then set_withdrawn now reason x else x)
            :: mark_withdrawn now reason (e_id e) t).
    replace (e_id x =? e_id e) with false
      by (symmetry; now apply Z.eqb_neq).
    simpl. destruct (_ && _); simpl; lia.
Qed.

(** The active counts after a successful cancellation. *)
Lemma cancelEnrollment_counts (now : Z) (req : cancel_body) (db db1 : DB)
  (promoted_student : option (Z * Z)) (e : enrollment) (b : Z) :
  schema_ok db ->
  cancelEnrollment now req db = (cancel_200 promoted_student, db1) ->
  In e (activity_enrollments db) -> e_id e = cb_enrollment_id req ->
  active_count b db1
  + (if e_activity_id e =? b then 1 else 0)
  = active_count b db
    + (if e_activity_id e =? b
       then match promoted_student with Some _ => 1 | None => 0 end
       else 0).
Proof.
  intros Hok C Hin Hid.
  pose proof (cancelEnrollment_outcome now req db) as O. cbv zeta in O.
  destruct (enrollmentQuery (cb_enrollment_id req) (cb_student_id req) db)
    as [| e0 rest] eqn:EQ; [rewrite O in C; discriminate |].
  destruct (enrollmentQuery_head _ _ _ _ _ EQ) as (Hin0 & Hid0 & _ & Hst0).
  assert (e0 = e).
  { apply (NoDup_key_inj e_id (activity_enrollments db));
      auto using pk_enrollments. congruence. }
  subst e0.
  pose proof (count_mark_withdrawn now
                (js_or_str (cb_reason req) "Student requested") b
                (activity_enrollments db) e (pk_enrollments db Hok) Hin Hst0)
    as Cnt.
  rewrite Hid in Cnt.
  destruct (waitlistQuery (e_activity_id e) db) as [| w wrest].
  - rewrite O in C. inversion C; subst. unfold active_count. simpl.
    destruct (e_activity_id e =? b); lia.
  - destruct (existsb _ (activity_enrollments db));
      rewrite O in C; [discriminate |].
    inversion C; subst. unfold active_count. simpl.
    rewrite filter_app, length_app. simpl.
    destruct (e_activity_id e =? b); simpl; lia.
Qed.

(** X8. A successful cancellation frees exactly one seat of the cancelled
    enrollment's activity and fills it again exactly when somebody is
    promoted: the activity's number of active enrollments goes down by one
    with no promotion and stays the same with one; no other activity's
    count changes. *)
Theorem cancelEnrollment_seat_accounting (now : Z) (req : cancel_body)
  (db db1 : DB) (promoted_student : option (Z * Z)) (e : enrollment) :
  schema_ok db ->
  cancelEnrollment now req db = (cancel_200 promoted_student, db1) ->
  In e (activity_enrollments db) -> e_id e = cb_enrollment_id req ->
  active_count (e_activity_id e) db1
  = active_count (e_activity_id e) db - 1
    + match promoted_student with Some _ => 1 | None => 0 end
  /\ (forall other, other <> e_activity_id e ->
        active_count other db1 = active_count other db).
Proof.
  intros Hok C Hin Hid. split.
  - pose proof (cancelEnrollment_counts now req db db1 promoted_student e
                  (e_activity_id e) Hok C Hin Hid) as H.
    rewrite Z.eqb_refl in H. lia.
  - intros other Hne.
    pose proof (cancelEnrollment_counts now req db db1 promoted_student e
                  other Hok C Hin Hid) as H.
    replace (e_activity_id e =? other) with false in H
      by (symmetry; apply Z.eqb_neq; congruence).
    lia.
Qed.

Lemma cancelEnrollment_seat_accounting_witness :
  schema_ok Examples.store_priority
  /\ active_count 1
       (snd (cancelEnrollment 9 (mk_cancel_body 1 9 None)
               Examples.store_priority))
     = active_count 1 Examples.store_priority - 1 + 1.
Proof.
  split; [exact store_priority_ok |].
  assert (C : cancelEnrollment 9 (mk_cancel_body 1 9 None)
                Examples.store_priority
              = (cancel_200 (Some (102, 9)),
                 snd (cancelEnrollment 9 (mk_cancel_body 1 9 None)
                        Examples.store_priority))) by reflexivity.
  exact (proj1 (cancelEnrollment_seat_accounting 9 (mk_cancel_body 1 9 None)
                  _ _ _ (Examples.plain_enrollment 1 9 1 active)
                  store_priority_ok C (or_introl eq_refl) eq_refl)).
Defined.

(** ** Capacity under the enhanced controller *)

Lemma active_count_ext b db db1 :
  activity_enrollments db1 = activity_enrollments db ->
  active_count b db1 = active_count b db.
Proof. unfold active_count. now intros ->. Qed.

Lemma enhanced_step_is_step db db' : enhanced_step db db' -> step db db'.
Proof. intros []; constructor. Qed.

Lemma enhanced_step_within_capacity db db' :
  schema_ok db -> within_capacity db -> enhanced_step db db' ->
  within_capacity db'.
Proof.
  intros Hok W S. destruct S.
  - destruct (registerStudent_outcome now req db)
      as [(E & _)
         | [(s & a & g & _ & _ & _ & E)
           | [(s & a & c & _ & _ & _ & E)
             | [(s & a & g & act0 & n & rest & text & _ & _ & _ & _ & _ & _
               & _ & _ & E)
               | (s & a & g & act0 & n & rest & _ & _ & _ & HQ & Hn & _ & _
                  & E)]]]];
      rewrite E; try exact W;
      try (intros act Hin; simpl in Hin;
           rewrite (active_count_ext _ db) by reflexivity; now apply W).
    intros act Hin. simpl in Hin.
    destruct (activityQuery_head _ _ _ _ _ HQ) as (Hin0 & Hid0 & _ & Hcount).
    unfold active_count. simpl. rewrite filter_app, length_app. simpl.
    destruct (Z.eqb_spec a (a_id act)) as [Ea | Hne]; simpl.
    + assert (act0 = act).
      { apply (NoDup_key_inj a_id (activities db));
          auto using pk_activities. congruence. }
      subst act0. rewrite <- Ea.
      fold (active_count a db) in Hcount |- *.
      unfold active_count in Hcount |- *. lia.
    + specialize (W act Hin). unfold active_count in W. lia.
  - destruct (cancelEnrollment now req db) as [r db1] eqn:C. simpl.
    pose proof (cancelEnrollment_outcome now req db) as O. cbv zeta in O.
    destruct (enrollmentQuery (cb_enrollment_id req) (cb_student_id req) db)
      as [| e rest] eqn:EQ.
    { rewrite O in C. inversion C; subst. exact W. }
    destruct (enrollmentQuery_head _ _ _ _ _ EQ) as (Hin & Hid & _).
    assert (Act : activities db1 = activities db).
    { destruct (waitlistQuery (e_activity_id e) db) as [| w wrest];
        [rewrite O in C; inversion C; reflexivity |].
      destruct (existsb _ (activity_enrollments db));
        rewrite O in C; inversion C; reflexivity. }
    destruct r as [| p | err].
    + destruct (waitlistQuery (e_activity_id e) db) as [| w wrest];
        [rewrite O in C; discriminate |].
      destruct (existsb _ (activity_enrollments db));
        rewrite O in C; discriminate.
    + intros act Hact. rewrite Act in Hact.
      pose proof (cancelEnrollment_counts now req db db1 p e (a_id act)
                    Hok C Hin Hid) as Cnt.
      specialize (W act Hact).
      destruct (e_activity_id e =? a_id act); destruct p; lia.
    + destruct (waitlistQuery (e_activity_id e) db) as [| w wrest];
        [rewrite O in C; discriminate |].
      destruct (existsb _ (activity_enrollments db));
        rewrite O in C; inversion C; subst; exact W.
Qed.

(** X9. Through the enhanced controller alone the capacity is never
    overshot: from a state that satisfies its keys and in which no activity
    has more active enrollments than its capacity (quota, else max_students,
    else 30), every sequence of registerStudent and cancelEnrollment
    requests leads to such a state. *)
Theorem enhanced_controller_keeps_capacity (db db' : DB) :
  schema_ok db -> within_capacity db ->
  clos_refl_trans DB enhanced_step db db' ->
  schema_ok db' /\ within_capacity db'.
Proof.
  intros Hok W R. revert Hok W.
  induction R as [db db' S | db | db db1 db2 _ IH1 _ IH2]; intros Hok W.
  - split.
    + eapply step_schema_ok; eauto using enhanced_step_is_step.
    + eapply enhanced_step_within_capacity; eauto.
  - auto.
  - destruct (IH1 Hok W) as [Hok1 W1]. auto.
Qed.

Lemma store_full_within_capacity : within_capacity Examples.store_full.
Proof.
  intros act [<- | []]. vm_compute. discriminate.
Qed.

Lemma enhanced_controller_keeps_capacity_witness :
  schema_ok Examples.store_full
  /\ within_capacity Examples.store_full
  /\ clos_refl_trans DB enhanced_step Examples.store_full
       Examples.store_already_waiting
  /\ within_capacity Examples.store_already_waiting.
Proof.
  assert (R : clos_refl_trans DB enhanced_step Examples.store_full
                Examples.store_already_waiting)
    by (apply rt_step;
        exact (enhanced_registerStudent Examples.store_full 1
                 (Examples.register 7 1))).
  split; [exact store_full_ok |].
  split; [exact store_full_within_capacity |].
  split; [exact R |].
  exact (proj2 (enhanced_controller_keeps_capacity _ _ store_full_ok
                  store_full_within_capacity R)).
Defined.

(** ** C7: cancellation and promotion are one transaction *)

Lemma enhanced_steps_schema_ok (db0 db : DB) :
  schema_ok db0 -> clos_refl_trans DB enhanced_step db0 db -> schema_ok db.
Proof.
  intros Hok R. revert Hok.
  induction R as [db db' S | db | db db1 db2 _ IH1 _ IH2]; intros Hok.
  - eapply step_schema_ok; eauto using enhanced_step_is_step.
  - exact Hok.
  - auto.
Qed.

Lemma mark_withdrawn_row now reason id (t : list enrollment) (e : enrollment) :
  In e t ->
  exists e', In e' (mark_withdrawn now reason id t)
             /\ e_student_id e' = e_student_id e
             /\ e_activity_id e' = e_activity_id e.
Proof.
  intros Hin. unfold mark_withdrawn.
  exists (if e_id e =? id then set_withdrawn now reason e else e). split.
  - apply (in_map (fun x => if e_id x =? id
                            then set_withdrawn now reason x else x)).
    exact Hin.
  - destruct (e_id e =? id); split; reflexivity.
Qed.

Lemma enhanced_step_promoted_have_rows db db' :
  schema_ok db -> promoted_have_rows db -> enhanced_step db db' ->
  promoted_have_rows db'.
Proof.
  intros Hok P S. destruct S.
  - destruct (registerStudent_outcome now req db)
      as [(E & _)
         | [(s & a & g & _ & _ & _ & E)
           | [(s & a & c & _ & _ & _ & E)
             | [(s & a & g & act & n & rest & text & _ & _ & _ & _ & _ & _
                 & _ & _ & E)
               | (s & a & g & act & n & rest & _ & _ & _ & _ & _ & _ & _
                  & E)]]]];
      rewrite E; try exact P.
    + intros w Hw Hst. simpl in Hw. apply in_app_or in Hw.
      destruct Hw as [Hw | [<- | []]]; [| discriminate Hst].
      exact (P w Hw Hst).
    + intros w Hw Hst. simpl in Hw.
      destruct (P w Hw Hst) as (e & He & Hs & Ha).
      exists e. simpl. split; [apply in_or_app; left; exact He | auto].
  - pose proof (cancelEnrollment_outcome now req db) as O. cbv zeta in O.
    destruct (enrollmentQuery (cb_enrollment_id req) (cb_student_id req) db)
      as [| e rest] eqn:EQ; [rewrite O; exact P |].
    destruct (waitlistQuery (e_activity_id e) db) as [| w wrest] eqn:Q;
      [| destruct (existsb _ (activity_enrollments db)) eqn:X];
      rewrite O; try exact P.
    + intros w' Hw Hst. simpl in Hw.
      destruct (P w' Hw Hst) as (e' & He & Hs & Ha).
      destruct (mark_withdrawn_row now
                  (js_or_str (cb_reason req) "Student requested")
                  (cb_enrollment_id req) _ _ He) as (e2 & He2 & Hs2 & Ha2).
      exists e2. simpl. split; [exact He2 | split; congruence].
    + destruct (waitlistQuery_head _ _ _ _ Q) as (_ & Hinw & Haw & _).
      intros w' Hw Hst. simpl in Hw. apply in_map_iff in Hw.
      destruct Hw as (x & Ex & Hx).
      destruct (Z.eqb_spec (w_id x) (w_id w)) as [Eid | Nid].
      * assert (x = w).
        { apply (NoDup_key_inj w_id (activity_waitlist db));
            auto using pk_waitlist. }
        subst x. subst w'. eexists. split.
        -- simpl. apply in_or_app. right. left. reflexivity.
        -- simpl. split; [reflexivity | congruence].
      * subst w'. destruct (P x Hx Hst) as (e' & He & Hs & Ha).
        destruct (mark_withdrawn_row now
                    (js_or_str (cb_reason req) "Student requested")
                    (cb_enrollment_id req) _ _ He)
          as (e2 & He2 & Hs2 & Ha2).
        exists e2. simpl. split; [apply in_or_app; left; exact He2 |].
        split; congruence.
Qed.

Lemma enhanced_steps_promoted_have_rows (db0 db : DB) :
  schema_ok db0 -> promoted_have_rows db0 ->
  clos_refl_trans DB enhanced_step db0 db -> promoted_have_rows db.
Proof.
  intros Hok P R. revert Hok P.
  induction R as [db db' S | db | db db1 db2 R1 IH1 _ IH2]; intros Hok P.
  - eapply enhanced_step_promoted_have_rows; eauto.
  - exact P.
  - apply IH2; [| now apply IH1].
    eapply enhanced_steps_schema_ok; eauto.
Qed.

(** C7, as the code has it. In every state the enhanced controller can
    reach, cancelEnrollment either fails (404 or 500) and returns the state
    it was given, or answers 200 with both effects in the state: the
    enrollment has status withdrawn, with the reason and the time, and the
    waitlist is served: if nobody waits nothing else changes, otherwise
    exactly one waiting entry gets status promoted and the promotion time,
    and exactly one enrollment, active and for that entry's student and
    activity, is appended. Every promoted entry of a reachable state has an
    enrollment row for its student and activity, and an entry a cancellation
    has just promoted has a new active one. *)
Theorem cancelEnrollment_atomic (now : Z) (req : cancel_body) (db0 db : DB) :
  schema_ok db0 -> promoted_have_rows db0 ->
  clos_refl_trans DB enhanced_step db0 db ->
  let reason :=
    match cb_reason req with
    | Some s => if String.eqb s EmptyString then "Student requested" else s
    | None => "Student requested"
    end in
  let r := cancelEnrollment now req db in
  (((fst r = cancel_404 \/ exists error, fst r = cancel_500 error)
    /\ snd r = db)
   \/ (exists e e1 k1 k2,
         e_id e = cb_enrollment_id req
         /\ e_student_id e = cb_student_id req /\ e_status e = active
         /\ activity_enrollments db = k1 ++ e :: k2
         /\ e_id e1 = e_id e /\ e_student_id e1 = e_student_id e
         /\ e_activity_id e1 = e_activity_id e
         /\ e_status e1 = withdrawn /\ e_cancelled_at e1 = Some now
         /\ e_cancellation_reason e1 = Some reason
         /\ ((fst r = cancel_200 None
              /\ (forall w, In w (activity_waitlist db) ->
                            w_activity_id w = e_activity_id e ->
                            w_status w <> waiting)
              /\ activity_enrollments (snd r) = k1 ++ e1 :: k2
              /\ activity_waitlist (snd r) = activity_waitlist db)
             \/ (exists w w1 row l1 l2,
                   fst r = cancel_200 (Some (w_student_id w, now))
                   /\ w_status w = waiting
                   /\ w_activity_id w = e_activity_id e
                   /\ activity_waitlist db = l1 ++ w :: l2
                   /\ activity_waitlist (snd r) = l1 ++ w1 :: l2
                   /\ w_id w1 = w_id w
                   /\ w_student_id w1 = w_student_id w
                   /\ w_activity_id w1 = w_activity_id w
                   /\ w_status w1 = promoted /\ w_promoted_at w1 = Some now
                   /\ activity_enrollments (snd r)
                      = (k1 ++ e1 :: k2) ++ [row]
                   /\ e_status row = active
                   /\ e_student_id row = w_student_id w
                   /\ e_activity_id row = w_activity_id w
                   /\ (forall e0, In e0 (activity_enrollments db) ->
                                  e_id e0 <> e_id row)))))
  /\ promoted_have_rows db
  /\ promoted_have_rows (snd r)
  /\ (forall w',
         In w' (activity_waitlist (snd r)) -> w_status w' = promoted ->
         In w' (activity_waitlist db)
         \/ exists e',
              In e' (activity_enrollments (snd r))
              /\ (forall e0, In e0 (activity_enrollments db) ->
                             e_id e0 <> e_id e')
              /\ e_student_id e' = w_student_id w'
              /\ e_activity_id e' = w_activity_id w'
              /\ e_status e' = active).
Proof.
  intros Hok0 P0 Reach reason r.
  pose proof (enhanced_steps_schema_ok _ _ Hok0 Reach) as Hok.
  pose proof (enhanced_steps_promoted_have_rows _ _ Hok0 P0 Reach) as P.
  assert (P' : promoted_have_rows (snd r)).
  { apply (enhanced_step_promoted_have_rows db); auto. constructor. }
  match goal with
  | |- ?A /\ _ /\ _ /\ ?L => assert (Main : A /\ L)
  end.
  2: { destruct Main as [M1 M2]. split; [exact M1 |].
       split; [exact P |]. split; [exact P' | exact M2]. }
  pose proof (cancelEnrollment_outcome now req db) as O. cbv zeta in O.
  assert (Er : js_or_str (cb_reason req) "Student requested" = reason)
    by reflexivity.
  rewrite Er in O.
  destruct (enrollmentQuery (cb_enrollment_id req) (cb_student_id req) db)
    as [| e rest] eqn:EQ.
  { unfold r. rewrite O. simpl. split; [left; auto | auto]. }
  destruct (enrollmentQuery_head _ _ _ _ _ EQ) as (Hin & Hid & Hs & Hst).
  destruct (update_by_id_split e_id (set_withdrawn now reason)
              (activity_enrollments db) e (pk_enrollments db Hok) Hin)
    as (k1 & k2 & Ksplit & Kupd).
  assert (MW : mark_withdrawn now reason (cb_enrollment_id req)
                 (activity_enrollments db)
               = k1 ++ set_withdrawn now reason e :: k2).
  { unfold mark_withdrawn. rewrite <- Hid. exact Kupd. }
  destruct (waitlistQuery (e_activity_id e) db) as [| w wrest] eqn:Q;
    [| destruct (existsb _ (activity_enrollments db)) eqn:X];
    unfold r; rewrite O; simpl.
  - split; [| auto]. right.
    exists e, (set_withdrawn now reason e), k1, k2.
    simpl. repeat split; auto.
    left. repeat split; auto. now apply waitlistQuery_nil.
  - split; [left; eauto | auto].
  - destruct (waitlistQuery_head _ _ _ _ Q) as (-> & Hinw & Haw & Hstw & _).
    destruct (update_by_id_split w_id (set_promoted now)
                (activity_waitlist db) w (pk_waitlist db Hok) Hinw)
      as (l1 & l2 & Hsplit & Hupd).
    assert (Hnext : next_id e_id
                      (mark_withdrawn now reason (cb_enrollment_id req)
                         (activity_enrollments db))
                    = next_id e_id (activity_enrollments db))
      by (apply next_id_same_ids, mark_withdrawn_ids).
    rewrite Hnext, Hupd, MW. split.
    + right. exists e, (set_withdrawn now reason e), k1, k2.
      simpl. repeat split; auto.
      right.
      exists w, (set_promoted now w),
             (mk_enrollment (next_id e_id (activity_enrollments db))
                (w_student_id w) (e_activity_id e) active
                (Some "Promoted from waitlist") (w_grade_level w) None 0
                None None), l1, l2.
      simpl. repeat split; auto.
      intros e0 Hin0. pose proof (next_id_fresh e_id _ _ Hin0). lia.
    + intros w' Hin' Hst'. apply in_app_or in Hin'.
      destruct Hin' as [Hin' | [<- | Hin']].
      * left. rewrite Hsplit. apply in_or_app; auto.
      * right. eexists. split; [apply in_or_app; right; left; reflexivity |].
        simpl. repeat split; auto.
        intros e0 Hin0. pose proof (next_id_fresh e_id _ _ Hin0). lia.
      * left. rewrite Hsplit. apply in_or_app; simpl; auto.
Qed.

Lemma store_priority_promoted_have_rows :
  promoted_have_rows Examples.store_priority.
Proof.
  intros w [<- | [<- | [<- | []]]] Hst; discriminate Hst.
Qed.

Lemma cancelEnrollment_atomic_witness :
  schema_ok Examples.store_priority
  /\ promoted_have_rows Examples.store_priority
  /\ exists e1 w1 row,
       In e1 (activity_enrollments
                (snd (cancelEnrollment 9 (mk_cancel_body 1 9 None)
                        Examples.store_priority)))
       /\ e_id e1 = 1 /\ e_status e1 = withdrawn
       /\ In w1 (activity_waitlist
                   (snd (cancelEnrollment 9 (mk_cancel_body 1 9 None)
                           Examples.store_priority)))
       /\ w_status w1 = promoted
       /\ In row (activity_enrollments
                    (snd (cancelEnrollment 9 (mk_cancel_body 1 9 None)
                            Examples.store_priority)))
       /\ e_status row = active /\ e_student_id row = w_student_id w1.
Proof.
  split; [exact store_priority_ok |].
  split; [exact store_priority_promoted_have_rows |].
  destruct (cancelEnrollment_atomic 9 (mk_cancel_body 1 9 None)
              Examples.store_priority Examples.store_priority
              store_priority_ok store_priority_promoted_have_rows
              (rt_refl _ _ _)) as [H _].
  destruct H as [[[H | [error H]] _]
                | (e & e1 & k1 & k2 & Hid & _ & _ & _ & Hid1 & _ & _ & Hst1
                   & _ & _
                   & [(H & _)
                     | (w & w1 & row & l1 & l2 & _ & _ & _ & _ & W & _ & Hsw
                        & _ & Hstw & _ & Rows & Hstr & Hsr & _)])].
  - vm_compute in H. discriminate.
  - vm_compute in H. discriminate.
  - vm_compute in H. discriminate.
  - exists e1, w1, row. rewrite Rows, W. repeat split.
    + apply in_or_app. left. apply in_or_app. right. left. reflexivity.
    + rewrite Hid1. exact Hid.
    + exact Hst1.
    + apply in_or_app. right. left. reflexivity.
    + exact Hstw.
    + apply in_or_app. right. left. reflexivity.
    + exact Hstr.
    + congruence.
Defined.

(** C7 as stated fails once the promoted student cancels in turn: student
    102 is promoted into the seat of student 9 and then cancels; the
    waitlist entry of student 102 stays promoted while the only enrollment
    row of student 102 is withdrawn. *)
Lemma promoted_entry_outlives_its_enrollment :
  clos_refl_trans DB enhanced_step Examples.store_priority
    (snd (cancelEnrollment 10 (mk_cancel_body 2 102 None)
            (snd (cancelEnrollment 9 (mk_cancel_body 1 9 None)
                    Examples.store_priority))))
  /\ filter (fun w => (w_student_id w =? 102)
                      && waitlist_status_eqb (w_status w) promoted)
       (activity_waitlist
          (snd (cancelEnrollment 10 (mk_cancel_body 2 102 None)
                  (snd (cancelEnrollment 9 (mk_cancel_body 1 9 None)
                          Examples.store_priority)))))
     = [mk_waitlist 2 102 1 (Some 5) 5 2 (Some 9) promoted (Some "joining")]
  /\ map e_status
       (filter (fun e => e_student_id e =? 102)
          (activity_enrollments
             (snd (cancelEnrollment 10 (mk_cancel_body 2 102 None)
                     (snd (cancelEnrollment 9 (mk_cancel_body 1 9 None)
                             Examples.store_priority))))))
     = [withdrawn].
Proof.
  split; [| split; reflexivity].
  eapply rt_trans; apply rt_step; constructor.
Qed.

(** ** The basic enrollment controller *)

Lemma activityCheck_unique (db : DB) (a : Z) (act : activity) :
  schema_ok db -> In act (activities db) -> a_id act = a ->
  exists rest,
    activityCheck a db = (a_max_students act, active_count a db) :: rest.
Proof.
  intros Hok Hin Hid. unfold activityCheck.
  destruct (filter (fun x => a_id x =? a) (activities db))
    as [| act' rest] eqn:F.
  - exfalso. rewrite filter_nil_iff in F. specialize (F act Hin).
    rewrite Hid, Z.eqb_refl in F. discriminate.
  - assert (Hin' : In act' (filter (fun x => a_id x =? a) (activities db)))
      by (rewrite F; left; reflexivity).
    apply filter_In in Hin'. destruct Hin' as [Hin' Hid'].
    apply Z.eqb_eq in Hid'.
    assert (act' = act).
    { apply (NoDup_key_inj a_id (activities db));
        auto using pk_activities. congruence. }
    subst act'. eexists. simpl. do 2 f_equal. unfold active_count.
    do 2 f_equal. apply filter_ext. intros ae.
    rewrite Hid, (Z.eqb_sym a). reflexivity.
Qed.

(** enrollStudent on a request that names an existing activity. *)
Lemma enrollStudent_eq (req : enroll_body) (db : DB) (s a : Z)
  (act : activity) :
  schema_ok db ->
  eb_student_id req = Some s -> eb_activity_id req = Some a ->
  s <> 0 -> a <> 0 ->
  In act (activities db) -> a_id act = a ->
  enrollStudent req db
  = if activity_is_full (a_max_students act) (active_count a db)
    then (enroll_400_full, db)
    else if existsb (same_enrollment_key s a) (activity_enrollments db)
    then (enroll_400_already_enrolled, db)
    else if negb (fits_INT s)
    then (enroll_500 ER_WARN_DATA_OUT_OF_RANGE, db)
    else if match js_or_null (eb_notes req) with
            | Some v => negb (fits_TEXT v)
            | None => false
            end
    then (enroll_500 ER_DATA_TOO_LONG, db)
    else
      (enroll_201
         (Some (mk_enrollment (next_id e_id (activity_enrollments db)) s a
                  active (js_or_null (eb_notes req)) None None 0 None
                  None)),
       with_enrollments db
         (activity_enrollments db ++
          [mk_enrollment (next_id e_id (activity_enrollments db)) s a active
             (js_or_null (eb_notes req)) None None 0 None None])).
Proof.
  intros Hok Hs Ha Ns Na Hin Hid.
  destruct (activityCheck_unique db a act Hok Hin Hid) as (rest & HQ).
  assert (Fields : negb (truthy (Some s)) || negb (truthy (Some a)) = false).
  { simpl. apply Z.eqb_neq in Ns, Na. rewrite Ns, Na. reflexivity. }
  unfold enrollStudent. rewrite Hs, Ha, Fields, HQ.
  destruct (activity_is_full _ _); [reflexivity |].
  destruct (existsb (same_enrollment_key s a) (activity_enrollments db))
    eqn:X.
  - destruct (filter (same_enrollment_key s a) (activity_enrollments db))
      as [| e0 l0] eqn:F; [| reflexivity].
    apply existsb_filter_nil in F. congruence.
  - rewrite (proj1 (existsb_filter_nil _ _) X).
    cbn [List.length Z.of_nat Z.ltb Z.compare].
    unfold bind, strict_INT, strict_TEXT.
    destruct (fits_INT s); [| reflexivity]. cbn [negb].
    destruct (js_or_null (eb_notes req)) as [v |] eqn:N.
    + destruct (fits_TEXT v); [| reflexivity]. cbn [negb].
      rewrite insert_activity_enrollments_accepts by exact X.
      unfold enrollment_by_id. simpl activity_enrollments.
      match goal with
      | |- context [filter _ (?t ++ [?row])] =>
          pose proof (filter_snoc_fresh e_id t row eq_refl) as F
      end.
      cbn [e_id] in F. rewrite F. reflexivity.
    + rewrite insert_activity_enrollments_accepts by exact X.
      unfold enrollment_by_id. simpl activity_enrollments.
      match goal with
      | |- context [filter _ (?t ++ [?row])] =>
          pose proof (filter_snoc_fresh e_id t row eq_refl) as F
      end.
      cbn [e_id] in F. rewrite F. reflexivity.
Qed.

(** An equivalence between an answer and a condition, both decided. *)
Ltac iff_case :=
  split;
  [ let H := fresh "H" in
    intros H;
    first [ discriminate H
          | match type of H with
            | ex _ => destruct H as [? H]; discriminate H
            end
          | tauto ]
  | let H := fresh "H" in
    intros H;
    first [ reflexivity
          | (eexists; reflexivity)
          | (exfalso; tauto) ] ].

(** X10. What enrollStudent answers to a request that names an existing
    activity. It answers "full" exactly when max_students is not NULL and the
    number of active enrollments has reached it; otherwise "already
    enrolled" exactly when the student has an enrollment row for the
    activity, whatever its status; otherwise 500 exactly when student_id
    does not fit INT or notes does not fit TEXT (never for a duplicate: the
    check for an existing row comes first); otherwise 201. On 201 it appends
    exactly one active row of the student, with a new id; on every other
    answer it leaves the state as it was. *)
Theorem enrollStudent_answers (req : enroll_body) (db : DB) (s a : Z)
  (act : activity) :
  schema_ok db ->
  eb_student_id req = Some s -> eb_activity_id req = Some a ->
  s <> 0 -> a <> 0 ->
  In act (activities db) -> a_id act = a ->
  let count :=
    Z.of_nat
      (List.length
         (filter (fun e => (e_activity_id e =? a)
                           && enrollment_status_eqb (e_status e) active)
                 (activity_enrollments db))) in
  let room := forall m, a_max_students act = Some m -> count < m in
  let no_row :=
    forall e, In e (activity_enrollments db) ->
              ~ (e_student_id e = s /\ e_activity_id e = a) in
  let fits :=
    -2147483648 <= s <= 2147483647
    /\ forall v, eb_notes req = Some v ->
                 Z.of_nat (String.length v) <= 65535 in
  (fst (enrollStudent req db) = enroll_400_full <-> ~ room)
  /\ (fst (enrollStudent req db) = enroll_400_already_enrolled
      <-> room /\ ~ no_row)
  /\ ((exists error, fst (enrollStudent req db) = enroll_500 error)
      <-> room /\ no_row /\ ~ fits)
  /\ ((exists data, fst (enrollStudent req db) = enroll_201 data)
      <-> room /\ no_row /\ fits)
  /\ (forall data,
        fst (enrollStudent req db) = enroll_201 data ->
        exists row,
          data = Some row /\ e_status row = active
          /\ e_student_id row = s /\ e_activity_id row = a
          /\ (forall e, In e (activity_enrollments db) ->
                        e_id e <> e_id row)
          /\ activity_enrollments (snd (enrollStudent req db))
             = activity_enrollments db ++ [row])
  /\ ((forall data, fst (enrollStudent req db) <> enroll_201 data) ->
      snd (enrollStudent req db) = db).
Proof.
  intros Hok Hs Ha Ns Na Hin Hid count room no_row fits.
  rewrite (enrollStudent_eq req db s a act Hok Hs Ha Ns Na Hin Hid).
  change (active_count a db) with count.
  assert (Room : activity_is_full (a_max_students act) count = false
                 <-> room).
  { unfold room, activity_is_full.
    destruct (a_max_students act) as [m |].
    - rewrite Z.geb_leb, Z.leb_gt. split.
      + intros H m' E. inversion E; subst. exact H.
      + intros H. now apply H.
    - split; [discriminate | reflexivity]. }
  assert (Row : existsb (same_enrollment_key s a) (activity_enrollments db)
                = false <-> no_row)
    by (symmetry; apply no_row_of_pair).
  assert (Fits : (fits_INT s = true
                  /\ match js_or_null (eb_notes req) with
                     | Some v => negb (fits_TEXT v)
                     | None => false
                     end = false) <-> fits).
  { unfold fits. rewrite fits_INT_spec. unfold js_or_null, fits_TEXT.
    destruct (eb_notes req) as [v |].
    - destruct (String.eqb v EmptyString) eqn:Ev.
      + apply String.eqb_eq in Ev. subst v. split.
        * intros [H _]. split; [exact H |].
          intros v E. inversion E; subst. simpl. lia.
        * intros [H _]. auto.
      + rewrite negb_false_iff, Z.leb_le. split.
        * intros [H1 H2]. split; [exact H1 |].
          intros v' E. inversion E; subst. exact H2.
        * intros [H1 H2]. split; [exact H1 |]. now apply H2.
    - split.
      + intros [H _]. split; [exact H | discriminate].
      + intros [H _]. auto. }
  destruct (activity_is_full (a_max_students act) count) eqn:B1.
  { assert (NR : ~ room) by (rewrite <- Room; discriminate).
    cbn [fst snd]. do 4 (split; [iff_case |]).
    split; [intros data E; discriminate E | reflexivity]. }
  assert (R : room) by now apply Room.
  destruct (existsb (same_enrollment_key s a) (activity_enrollments db))
    eqn:B2.
  { assert (NR : ~ no_row) by (rewrite <- Row; discriminate).
    cbn [fst snd]. do 4 (split; [iff_case |]).
    split; [intros data E; discriminate E | reflexivity]. }
  assert (N : no_row) by now apply Row.
  destruct (fits_INT s) eqn:B3; cbn [negb].
  2: { assert (NF : ~ fits)
         by (rewrite <- Fits; intros [H _]; discriminate).
       cbn [fst snd]. do 4 (split; [iff_case |]).
       split; [intros data E; discriminate E | reflexivity]. }
  destruct (match js_or_null (eb_notes req) with
            | Some v => negb (fits_TEXT v)
            | None => false
            end) eqn:B4.
  { assert (NF : ~ fits) by (rewrite <- Fits; intros [_ H]; discriminate).
    cbn [fst snd]. do 4 (split; [iff_case |]).
    split; [intros data E; discriminate E | reflexivity]. }
  assert (F : fits) by (apply Fits; auto).
  cbn [fst snd]. do 4 (split; [iff_case |]). split.
  - intros data E. inversion E; subst. eexists.
    split; [reflexivity |]. simpl. repeat split.
    intros e He. pose proof (next_id_fresh e_id _ _ He). lia.
  - intros H. exfalso. eapply H. reflexivity.
Qed.

Lemma enrollStudent_answers_witness :
  schema_ok Examples.store_full
  /\ fst (enrollStudent (mk_enroll_body (Some 7) (Some 1) None)
            Examples.store_full) = enroll_400_full
  /\ exists error,
       fst (enrollStudent (mk_enroll_body (Some 2147483648) (Some 1) None)
              Examples.store_empty) = enroll_500 error.
Proof.
  split; [exact store_full_ok |].
  assert (N7 : 7 <> 0) by discriminate.
  assert (N1 : 1 <> 0) by discriminate.
  assert (Nb : 2147483648 <> 0) by discriminate.
  assert (Hin : In (Examples.plain_activity 1 "Chess Club" 1)
                   (activities Examples.store_full))
    by (left; reflexivity).
  assert (Hin0 : In (Examples.plain_activity 1 "Chess Club" 1)
                    (activities Examples.store_empty))
    by (left; reflexivity).
  destruct (enrollStudent_answers (mk_enroll_body (Some 7) (Some 1) None)
              Examples.store_full 7 1
              (Examples.plain_activity 1 "Chess Club" 1)
              store_full_ok eq_refl eq_refl N7 N1 Hin eq_refl)
    as (Full & _).
  destruct (enrollStudent_answers
              (mk_enroll_body (Some 2147483648) (Some 1) None)
              Examples.store_empty 2147483648 1
              (Examples.plain_activity 1 "Chess Club" 1)
              store_empty_ok eq_refl eq_refl Nb N1 Hin0 eq_refl)
    as (_ & _ & Err & _).
  split.
  - apply Full. intros Room. specialize (Room 1 eq_refl). simpl in Room. lia.
  - apply Err. split; [| split].
    + intros m E. inversion E; subst. simpl. lia.
    + intros e [].
    + intros [F _]. lia.
Defined.

Lemma existsb_key_update (p : enrollment -> bool) (test : enrollment -> bool)
  (f : enrollment -> enrollment) (l : list enrollment) :
  (forall e, p (f e) = p e) ->
  existsb p (map (fun e => if test e then f e else e) l) = existsb p l.
Proof.
  intros Hf. induction l as [| e l IH]; simpl; [reflexivity |].
  rewrite IH. f_equal. destruct (test e); auto.
Qed.

Lemma update_status_rows status id db :
  activity_enrollments (fst (update_status status id db))
  = map (fun e => if e_id e =? id then set_status status e else e)
        (activity_enrollments db).
Proof. reflexivity. Qed.

Lemma update_status_twice s1 s2 id db :
  fst (update_status s2 id (fst (update_status s1 id db)))
  = fst (update_status s2 id db).
Proof.
  unfold update_status. simpl. unfold with_enrollments. simpl. f_equal.
  rewrite map_map. apply map_ext. intros e.
  destruct (e_id e =? id) eqn:E; simpl; rewrite E; reflexivity.
Qed.

(** X11. After a withdrawal through the basic controller the same student
    cannot be enrolled in that activity again by enrollStudent: the
    withdrawn row is kept and enrollStudent refuses any request for a pair
    that has a row, leaving the state unchanged. *)
Theorem enrollStudent_after_withdraw (id : Z) (req : enroll_body) (db : DB)
  (e : enrollment) :
  In e (activity_enrollments db) -> e_id e = id ->
  eb_student_id req = Some (e_student_id e) ->
  eb_activity_id req = Some (e_activity_id e) ->
  In (set_status withdrawn e)
     (activity_enrollments (snd (withdrawEnrollment id db)))
  /\ snd (enrollStudent req (snd (withdrawEnrollment id db)))
     = snd (withdrawEnrollment id db)
  /\ (forall data,
        fst (enrollStudent req (snd (withdrawEnrollment id db)))
        <> enroll_201 data).
Proof.
  intros Hin Hid Hs Ha.
  assert (W : snd (withdrawEnrollment id db)
              = fst (update_status withdrawn id db)).
  { unfold withdrawEnrollment.
    destruct (update_status withdrawn id db) as [db1 n].
    destruct (n =? 0); reflexivity. }
  rewrite W. split.
  - rewrite update_status_rows. apply in_map_iff. exists e.
    rewrite Hid, Z.eqb_refl. auto.
  - assert (X : existsb (same_enrollment_key (e_student_id e)
                           (e_activity_id e))
                  (activity_enrollments (fst (update_status withdrawn id db)))
                = true).
    { rewrite update_status_rows.
      rewrite (existsb_key_update _ _ (set_status withdrawn))
        by reflexivity.
      apply existsb_exists. exists e. split; [exact Hin |].
      unfold same_enrollment_key. now rewrite !Z.eqb_refl. }
    destruct (enrollStudent_outcome req (fst (update_status withdrawn id db)))
      as [(E & N201)
         | (s & a & m & c & rest & Hs' & Ha' & _ & _ & _ & _ & Hno & _)].
    + split; [exact E | exact N201].
    + exfalso. assert (s = e_student_id e) by congruence.
      assert (a = e_activity_id e) by congruence. subst s a. congruence.
Qed.

Lemma enrollStudent_after_withdraw_witness :
  In (Examples.plain_enrollment 1 8 1 active)
     (activity_enrollments Examples.store_full)
  /\ snd (enrollStudent (mk_enroll_body (Some 8) (Some 1) None)
            (snd (withdrawEnrollment 1 Examples.store_full)))
     = snd (withdrawEnrollment 1 Examples.store_full).
Proof.
  split; [left; reflexivity |].
  exact (proj1 (proj2 (enrollStudent_after_withdraw 1
                         (mk_enroll_body (Some 8) (Some 1) None)
                         Examples.store_full
                         (Examples.plain_enrollment 1 8 1 active)
                         (or_introl eq_refl) eq_refl eq_refl eq_refl))).
Defined.

Lemma withdrawEnrollment_state id db :
  snd (withdrawEnrollment id db) = fst (update_status withdrawn id db).
Proof.
  unfold withdrawEnrollment.
  destruct (update_status withdrawn id db) as [db1 n].
  destruct (n =? 0); reflexivity.
Qed.

Lemma length_zero_iff_nil {A : Type} (l : list A) :
  (Z.of_nat (List.length l) =? 0) = true <-> l = [].
Proof.
  rewrite Z.eqb_eq. destruct l; simpl; split; try reflexivity;
    try discriminate; lia.
Qed.

Lemma no_row_with_id id (l : list enrollment) :
  filter (fun e => e_id e =? id) l = [] <->
  forall e, In e l -> e_id e <> id.
Proof.
  rewrite filter_nil_iff. split; intros H e Hin; specialize (H e Hin).
  - now apply Z.eqb_neq.
  - now apply Z.eqb_neq.
Qed.

(** X12. withdrawEnrollment answers 404 exactly when no enrollment has the
    id. Otherwise it sets the row with that id to withdrawn whatever its
    status was (completed and rejected rows included), keeps every other
    row, and, unlike cancelEnrollment, never touches the waitlist: nobody
    is promoted into the freed seat. Withdrawing again gives the same
    state. *)
Theorem withdrawEnrollment_effect (id : Z) (db : DB) :
  (fst (withdrawEnrollment id db) = upd_404 <->
   forall e, In e (activity_enrollments db) -> e_id e <> id)
  /\ activity_waitlist (snd (withdrawEnrollment id db))
     = activity_waitlist db
  /\ (forall e, In e (activity_enrollments db) -> e_id e = id ->
        In (set_status withdrawn e)
           (activity_enrollments (snd (withdrawEnrollment id db))))
  /\ (forall e, In e (activity_enrollments db) -> e_id e <> id ->
        In e (activity_enrollments (snd (withdrawEnrollment id db))))
  /\ (forall e', In e' (activity_enrollments (snd (withdrawEnrollment id db)))
        -> e_id e' = id -> e_status e' = withdrawn)
  /\ List.length (activity_enrollments (snd (withdrawEnrollment id db)))
     = List.length (activity_enrollments db)
  /\ snd (withdrawEnrollment id (snd (withdrawEnrollment id db)))
     = snd (withdrawEnrollment id db).
Proof.
  split; [| rewrite !withdrawEnrollment_state; repeat split].
  - unfold withdrawEnrollment, update_status.
    rewrite <- no_row_with_id, <- length_zero_iff_nil.
    destruct (_ =? 0); simpl; split; intros H;
      first [reflexivity | discriminate].
  - intros e Hin Hid. rewrite update_status_rows. apply in_map_iff.
    exists e. rewrite Hid, Z.eqb_refl. auto.
  - intros e Hin Hne. rewrite update_status_rows. apply in_map_iff.
    exists e. apply Z.eqb_neq in Hne. rewrite Hne. auto.
  - intros e' Hin' Hid'. rewrite update_status_rows in Hin'.
    apply in_map_iff in Hin'. destruct Hin' as (e & E & _).
    destruct (Z.eqb_spec (e_id e) id); subst e'; [reflexivity | contradiction].
  - rewrite update_status_rows. apply length_map.
  - apply update_status_twice.
Qed.

Lemma filter_id_update (f : enrollment -> enrollment) id
  (l : list enrollment) :
  (forall e, e_id (f e) = e_id e) ->
  List.length
    (filter (fun e => e_id e =? id)
            (map (fun e => if e_id e =? id then f e else e) l))
  = List.length (filter (fun e => e_id e =? id) l).
Proof.
  intros Hf. induction l as [| e l IH]; simpl; [reflexivity |].
  destruct (e_id e =? id) eqn:X; simpl.
  - rewrite Hf, X. simpl. now rewrite IH.
  - rewrite X. exact IH.
Qed.

Lemma update_status_after s1 s2 id db :
  update_status s2 id (fst (update_status s1 id db))
  = update_status s2 id db.
Proof.
  rewrite (surjective_pairing (update_status s2 id (fst _))).
  rewrite (surjective_pairing (update_status s2 id db)).
  f_equal; [apply update_status_twice |].
  unfold update_status. simpl. f_equal.
  apply (filter_id_update (set_status s1)). reflexivity.
Qed.

(** X13. updateEnrollmentStatus has no transition table: for a valid status
    the answer and the resulting state do not depend on what an earlier
    updateEnrollmentStatus request for the same id wrote (the last write
    wins, so completed or withdrawn rows can be made active again), and the
    row with the id ends with the requested status. A missing status and
    'enrolled' are refused with 400 and no change. *)
Theorem updateEnrollmentStatus_last_write_wins (id : Z)
  (first : option enrollment_status) (status : enrollment_status) (db : DB) :
  In status validStatuses ->
  updateEnrollmentStatus id (Some status)
    (snd (updateEnrollmentStatus id first db))
  = updateEnrollmentStatus id (Some status) db
  /\ (forall e, In e (activity_enrollments db) -> e_id e = id ->
        In (set_status status e)
           (activity_enrollments
              (snd (updateEnrollmentStatus id (Some status) db))))
  /\ updateEnrollmentStatus id None db = (upd_400, db)
  /\ updateEnrollmentStatus id (Some enrolled) db = (upd_400, db).
Proof.
  intros Hvalid.
  assert (V : negb (existsb (enrollment_status_eqb status) validStatuses)
              = false).
  { apply negb_false_iff, existsb_exists. exists status.
    split; [exact Hvalid | now apply enrollment_status_eqb_eq]. }
  assert (S : forall d, snd (updateEnrollmentStatus id (Some status) d)
                        = fst (update_status status id d)).
  { intros d. unfold updateEnrollmentStatus. rewrite V.
    destruct (update_status status id d) as [d1 n].
    destruct (n =? 0); reflexivity. }
  split; [| split; [| split; reflexivity]].
  - assert (U : forall d, updateEnrollmentStatus id (Some status) d
                          = (let (db1, affectedRows) :=
                               update_status status id d in
                             if affectedRows =? 0 then (upd_404, db1)
                             else (upd_200, db1))).
    { intros d. unfold updateEnrollmentStatus. now rewrite V. }
    rewrite !U.
    unfold updateEnrollmentStatus at 1.
    destruct first as [s1 |]; [| reflexivity].
    destruct (negb (existsb (enrollment_status_eqb s1) validStatuses));
      [reflexivity |].
    replace (snd (let (db1, affectedRows) := update_status s1 id db in
                  if affectedRows =? 0 then (upd_404, db1)
                  else (upd_200, db1)))
      with (fst (update_status s1 id db))
      by (destruct (update_status s1 id db) as [d1 n];
          destruct (n =? 0); reflexivity).
    now rewrite update_status_after.
  - intros e Hin Hid. rewrite S, update_status_rows. apply in_map_iff.
    exists e. rewrite Hid, Z.eqb_refl. auto.
Qed.

Lemma updateEnrollmentStatus_last_write_wins_witness :
  In active validStatuses
  /\ updateEnrollmentStatus 1 (Some active)
       (snd (updateEnrollmentStatus 1 (Some completed) Examples.store_full))
     = updateEnrollmentStatus 1 (Some active) Examples.store_full.
Proof.
  assert (V : In active validStatuses) by (left; reflexivity).
  split; [exact V |].
  exact (proj1 (updateEnrollmentStatus_last_write_wins 1 (Some completed)
                  active Examples.store_full V)).
Defined.

(** X14. deleteEnrollment answers 404 exactly when no enrollment has the id;
    afterwards exactly the rows with another id are left, the waitlist is
    as it was (a hard delete promotes nobody), and deleting the same id
    again answers 404 and changes nothing. *)
Theorem deleteEnrollment_effect (id : Z) (db : DB) :
  (fst (deleteEnrollment id db) = upd_404 <->
   forall e, In e (activity_enrollments db) -> e_id e <> id)
  /\ (forall e, In e (activity_enrollments (snd (deleteEnrollment id db)))
                <-> In e (activity_enrollments db) /\ e_id e <> id)
  /\ activity_waitlist (snd (deleteEnrollment id db)) = activity_waitlist db
  /\ deleteEnrollment id (snd (deleteEnrollment id db))
     = (upd_404, snd (deleteEnrollment id db)).
Proof.
  assert (Gone : forall l : list enrollment,
             filter (fun e => e_id e =? id)
                    (filter (fun e => negb (e_id e =? id)) l) = []).
  { intros l. apply filter_nil_iff. intros e Hin.
    apply filter_In in Hin. destruct Hin as [_ H].
    now apply negb_true_iff in H. }
  unfold deleteEnrollment.
  destruct (filter (fun e => e_id e =? id) (activity_enrollments db))
    as [| e0 l0] eqn:F.
  - pose proof (proj1 (no_row_with_id id _) F) as Hnone.
    simpl. rewrite F. repeat split; auto. tauto.
  - assert (Hsome : ~ forall e, In e (activity_enrollments db) -> e_id e <> id).
    { intros H. apply no_row_with_id in H. congruence. }
    simpl. rewrite Gone. repeat split; try discriminate; try tauto.
    + apply filter_In in H. tauto.
    + apply filter_In in H. destruct H as [_ H].
      apply negb_true_iff in H. now apply Z.eqb_neq.
    + intros [Hin Hne]. apply filter_In. split; [exact Hin |].
      apply negb_true_iff. now apply Z.eqb_neq.
Qed.

(** ** Deleting an activity *)

Lemma activityQuery_no_activity activity_id db :
  (forall a, In a (activities db) -> a_id a <> activity_id) ->
  activityQuery activity_id db = [].
Proof.
  intros H. unfold activityQuery.
  replace (filter _ (activities db)) with (@nil activity); [reflexivity |].
  symmetry. apply filter_nil_iff. intros a Hin.
  specialize (H a Hin). apply Z.eqb_neq in H. now rewrite H.
Qed.

Lemma registerStudent_no_activity now req db activity_id :
  rb_activity_id req = Some activity_id ->
  activityQuery activity_id db = [] ->
  snd (registerStudent now req db) = db
  /\ (fst (registerStudent now req db) = reg_404_activity
      \/ fst (registerStudent now req db) = reg_400_required).
Proof.
  intros Ha Q. unfold registerStudent. rewrite Ha.
  destruct (rb_student_id req); [| auto].
  destruct (rb_grade_level req); [| auto].
  destruct (_ || _); [auto |]. rewrite Q. auto.
Qed.

(** X15. deleteActivity answers 404 exactly when no activity has the id.
    When it deletes, the activity goes together with every schedule,
    enrollment and waitlist entry that refers to it, and rows of other
    activities stay; afterwards a registerStudent request for that id is
    refused (404, or 400 when a field is missing) and changes nothing. *)
Theorem deleteActivity_cascades (id : Z) (db : DB) :
  (fst (deleteActivity id db) = upd_404 <->
   forall a, In a (activities db) -> a_id a <> id)
  /\ (forall a, In a (activities (snd (deleteActivity id db)))
                <-> In a (activities db) /\ a_id a <> id)
  /\ (fst (deleteActivity id db) = upd_200 ->
      (forall s, In s (activity_schedules (snd (deleteActivity id db)))
                 <-> In s (activity_schedules db) /\ sch_activity_id s <> id)
      /\ (forall e, In e (activity_enrollments (snd (deleteActivity id db)))
                    <-> In e (activity_enrollments db)
                        /\ e_activity_id e <> id)
      /\ (forall w, In w (activity_waitlist (snd (deleteActivity id db)))
                    <-> In w (activity_waitlist db)
                        /\ w_activity_id w <> id))
  /\ (forall now req,
        rb_activity_id req = Some id ->
        snd (registerStudent now req (snd (deleteActivity id db)))
        = snd (deleteActivity id db)
        /\ (fst (registerStudent now req (snd (deleteActivity id db)))
            = reg_404_activity
            \/ fst (registerStudent now req (snd (deleteActivity id db)))
               = reg_400_required)).
Proof.
  assert (Keep : forall (A : Type) (key : A -> Z) (l : list A) (x : A),
             In x (filter (fun y => negb (key y =? id)) l)
             <-> In x l /\ key x <> id).
  { intros A key l x. rewrite filter_In, negb_true_iff, Z.eqb_neq. tauto. }
  assert (Acts : forall a, In a (activities (snd (deleteActivity id db)))
                           <-> In a (activities db) /\ a_id a <> id).
  { intros a. unfold deleteActivity.
    destruct (filter (fun a => a_id a =? id) (activities db)) as [| a0 l0]
      eqn:F; simpl.
    - rewrite filter_nil_iff in F. split; [| tauto].
      intros Hin. split; [exact Hin |].
      apply Z.eqb_neq. now apply F.
    - apply Keep. }
  split; [| split; [exact Acts | split]].
  - unfold deleteActivity.
    destruct (filter (fun a => a_id a =? id) (activities db)) as [| a0 l0]
      eqn:F; simpl.
    + rewrite filter_nil_iff in F. split; [| reflexivity].
      intros _ a Hin. apply Z.eqb_neq. now apply F.
    + split; [discriminate |]. intros H. exfalso.
      assert (Hin : In a0 (filter (fun a => a_id a =? id) (activities db)))
        by (rewrite F; left; reflexivity).
      apply filter_In in Hin. destruct Hin as [Hin E].
      apply Z.eqb_eq in E. exact (H a0 Hin E).
  - unfold deleteActivity.
    destruct (filter (fun a => a_id a =? id) (activities db)) as [| a0 l0];
      simpl; [discriminate |].
    intros _. split; [| split]; intros x; apply Keep.
  - intros now req Ha.
    apply (registerStudent_no_activity now req _ id); [exact Ha |].
    apply activityQuery_no_activity. intros a Hin.
    now apply Acts in Hin.
Qed.

(** ** The registration window *)

(** X16. The registration window is closed at both ends inclusively: for a
    request with its three fields and an active activity, registerStudent
    answers "not started" exactly when registration_start is set and later
    than now, and "ended" exactly when it has started and registration_end
    is set and earlier than now; at now = registration_start and at
    now = registration_end the window is open. Both refusals leave the
    state unchanged. *)
Theorem registration_window_is_inclusive (now : Z) (req : register_body)
  (db : DB) (student_id activity_id grade_level n : Z) (act : activity)
  (rest : list (activity * Z)) :
  rb_student_id req = Some student_id ->
  rb_activity_id req = Some activity_id ->
  rb_grade_level req = Some grade_level ->
  student_id <> 0 -> activity_id <> 0 -> grade_level <> 0 ->
  activityQuery activity_id db = (act, n) :: rest ->
  ((exists t, fst (registerStudent now req db) = reg_400_not_started t)
   <-> exists t, a_registration_start act = Some t /\ now < t)
  /\ ((exists t, fst (registerStudent now req db) = reg_400_ended t)
      <-> (forall t, a_registration_start act = Some t -> t <= now)
          /\ exists t, a_registration_end act = Some t /\ t < now)
  /\ ((exists t, fst (registerStudent now req db) = reg_400_not_started t)
      \/ (exists t, fst (registerStudent now req db) = reg_400_ended t) ->
      snd (registerStudent now req db) = db).
Proof.
  intros Hs Ha Hg Ns Na Ng HQ.
  assert (S : registration_not_started act now = true
              <-> exists t, a_registration_start act = Some t /\ now < t).
  { unfold registration_not_started.
    destruct (a_registration_start act) as [t |].
    - rewrite Z.gtb_ltb, Z.ltb_lt. split; [eauto |].
      intros (t' & E & H). congruence.
    - split; [discriminate | intros (t' & E & _); discriminate]. }
  assert (S' : registration_not_started act now = false
               <-> forall t, a_registration_start act = Some t -> t <= now).
  { unfold registration_not_started.
    destruct (a_registration_start act) as [t |].
    - rewrite Z.gtb_ltb, Z.ltb_ge. split; [congruence | auto].
    - split; [discriminate | reflexivity]. }
  assert (N : registration_ended act now = true
              <-> exists t, a_registration_end act = Some t /\ t < now).
  { unfold registration_ended.
    destruct (a_registration_end act) as [t |].
    - rewrite Z.ltb_lt. split; [eauto |].
      intros (t' & E & H). congruence.
    - split; [discriminate | intros (t' & E & _); discriminate]. }
  unfold registerStudent. rewrite Hs, Ha, Hg. simpl.
  apply Z.eqb_neq in Ns, Na, Ng. rewrite Ns, Na, Ng. simpl. rewrite HQ.
  destruct (registration_not_started act now) eqn:B1.
  { simpl. split; [| split].
    - split; [intros _; now apply S | intros _; eexists; reflexivity].
    - split; [intros [t F]; discriminate |].
      intros [H _]. apply S' in H. congruence.
    - reflexivity. }
  destruct (registration_ended act now) eqn:B2.
  { simpl. split; [| split].
    - split; [intros [t F]; discriminate |].
      intros H. apply S in H. congruence.
    - split; [| intros _; eexists; reflexivity].
      intros _. split; [now apply S' | now apply N].
    - reflexivity. }
  assert (Other : forall r : register_response * DB,
             (forall t, fst r <> reg_400_not_started t) ->
             (forall t, fst r <> reg_400_ended t) ->
             ((exists t, fst r = reg_400_not_started t)
              <-> exists t, a_registration_start act = Some t /\ now < t)
             /\ ((exists t, fst r = reg_400_ended t)
                 <-> (forall t, a_registration_start act = Some t -> t <= now)
                     /\ exists t, a_registration_end act = Some t /\ t < now)
             /\ ((exists t, fst r = reg_400_not_started t)
                 \/ (exists t, fst r = reg_400_ended t) -> snd r = db)).
  { intros r N1 N2. split; [| split].
    - split; [intros [t F]; exfalso; eapply N1; eauto |].
      intros H. apply S in H. congruence.
    - split; [intros [t F]; exfalso; eapply N2; eauto |].
      intros [_ H]. apply N in H. congruence.
    - intros [[t F] | [t F]]; exfalso; [eapply N1 | eapply N2]; eauto. }
  apply Other; intros t;
    repeat match goal with
           | |- context [match ?x with _ => _ end] => destruct x
           end; discriminate.
Qed.

Lemma registration_window_is_inclusive_witness :
  activityQuery 2 MoreExamples.store_windows
  = [(mk_activity 2 "Timed" (Some 10) 0 10 None None (Some 3) (Some 8)
        act_active (Some 100) (Some 200), 0)]
  /\ fst (registerStudent 99 (Examples.register 7 2)
            MoreExamples.store_windows)
     = reg_400_not_started (Some 100)
  /\ ((exists t, fst (registerStudent 100 (Examples.register 7 2)
                        MoreExamples.store_windows)
                 = reg_400_not_started t)
      <-> exists t, Some 100 = Some t /\ 100 < t).
Proof.
  assert (N7 : 7 <> 0) by discriminate.
  assert (N2 : 2 <> 0) by discriminate.
  assert (N5 : 5 <> 0) by discriminate.
  split; [reflexivity |]. split; [reflexivity |].
  exact (proj1 (registration_window_is_inclusive 100 (Examples.register 7 2)
                  MoreExamples.store_windows 7 2 5 0 _ []
                  eq_refl eq_refl eq_refl N7 N2 N5 eq_refl)).
Defined.

(** ** The middleware in front of registerStudent *)

Lemma role_eqb_eq (x y : role) : role_eqb x y = true <-> x = y.
Proof. destruct x, y; simpl; split; congruence. Qed.

Lemma truthy_some (x : option Z) :
  truthy x = true <-> exists v, x = Some v /\ v <> 0.
Proof.
  unfold truthy. destruct x as [v |].
  - rewrite negb_true_iff, Z.eqb_neq. split; [eauto |].
    intros (v' & E & H). congruence.
  - split; [discriminate | intros (v & E & _); discriminate].
Qed.





(** On the example table, at time 40 user 1 holds the roles student and
    admin. Which of them becomes primaryRole follows the order of the rows:
    student in table order, admin in the reverse order. At time 60 the admin
    role has expired and an admin-only route refuses user 1. *)
Lemma primaryRole_follows_row_order :
  requireRole (fun _ _ => false) (fun l => l) [role_admin; role_student]
    (Some 1) None None 40 MoreExamples.roles
  = rr_next [mk_user_role 1 role_student (Some 7) (Some "student") None;
             mk_user_role 1 role_admin None None (Some 50)]
      role_student
  /\ requireRole (fun _ _ => false) (@rev user_role)
       [role_admin; role_student] (Some 1) None None 40 MoreExamples.roles
     = rr_next [mk_user_role 1 role_admin None None (Some 50);
                mk_user_role 1 role_student (Some 7) (Some "student") None]
         role_admin
  /\ requireAdmin (fun _ _ => false) (fun l => l) (Some 1) None None 60
       MoreExamples.roles
     = rr_403_insufficient [role_admin] [role_student].
Proof. repeat split. Qed.

Lemma checkEnrollmentWindow_next primaryRole activity_id now db :
  checkEnrollmentWindow primaryRole activity_id now db = win_next ->
  exists a act rest,
    activity_id = Some a /\ a <> 0
    /\ filter (fun x => a_id x =? a) (activities db) = act :: rest
    /\ (primaryRole = Some role_admin
        \/ (a_status act = act_active
            /\ registration_not_started act now = false
            /\ registration_ended act now = false)).
Proof.
  unfold checkEnrollmentWindow.
  destruct (truthy activity_id) eqn:T; simpl; [| discriminate].
  apply truthy_some in T. destruct T as (a & -> & Ha).
  destruct (filter (fun x => a_id x =? a) (activities db)) as [| act rest]
    eqn:F; [discriminate |].
  intros H. exists a, act, rest. repeat split; auto.
  destruct primaryRole as [r |].
  - destruct (role_eqb r role_admin) eqn:R.
    + left. apply role_eqb_eq in R. now subst.
    + right. destruct (activity_status_eqb (a_status act) act_active) eqn:St;
        simpl in H; [| discriminate].
      apply activity_status_eqb_eq in St.
      destruct (registration_not_started act now); [discriminate |].
      destruct (registration_ended act now); [discriminate |]. auto.
  - right. destruct (activity_status_eqb (a_status act) act_active) eqn:St;
      simpl in H; [| discriminate].
    apply activity_status_eqb_eq in St.
    destruct (registration_not_started act now); [discriminate |].
    destruct (registration_ended act now); [discriminate |]. auto.
Qed.

Lemma filter_head_In {A : Type} (p : A -> bool) (l : list A) (x : A)
  (rest : list A) :
  filter p l = x :: rest -> In x l /\ p x = true.
Proof.
  intros F. apply filter_In. rewrite F. left. reflexivity.
Qed.

(** X18. What checkEnrollmentWindow lets through for a caller who is not an
    administrator, registerStudent does not refuse for the same reason: if
    the middleware called next() at time now1 and registerStudent runs at
    now2 >= now1 on the same state, registerStudent answers neither 404 nor
    "not started", and run at now1 itself it does not answer "ended". *)
Theorem checkEnrollmentWindow_then_registerStudent
  (primaryRole : option role) (now1 now2 : Z) (req : register_body)
  (db : DB) :
  schema_ok db ->
  primaryRole <> Some role_admin ->
  checkEnrollmentWindow primaryRole (rb_activity_id req) now1 db = win_next ->
  now1 <= now2 ->
  fst (registerStudent now2 req db) <> reg_404_activity
  /\ (forall t, fst (registerStudent now2 req db) <> reg_400_not_started t)
  /\ (forall t, fst (registerStudent now1 req db) <> reg_400_ended t).
Proof.
  intros Hok Hrole W Hle.
  destruct (checkEnrollmentWindow_next _ _ _ _ W)
    as (a & act & rest & Ha & Na & F & [Adm | (Hst & B1 & B2)]);
    [contradiction |].
  destruct (filter_head_In _ _ _ _ F) as [Hin Hid]. apply Z.eqb_eq in Hid.
  destruct (activityQuery_unique_active db a act Hok Hin Hid Hst)
    as (n & qrest & HQ).
  assert (B1' : registration_not_started act now2 = false).
  { unfold registration_not_started in *.
    destruct (a_registration_start act) as [t |]; [| reflexivity].
    rewrite Z.gtb_ltb, Z.ltb_ge in *. lia. }
  assert (Shape : forall now,
             registration_not_started act now = false ->
             fst (registerStudent now req db) <> reg_404_activity
             /\ (forall t, fst (registerStudent now req db)
                           <> reg_400_not_started t)
             /\ (registration_ended act now = false ->
                 forall t, fst (registerStudent now req db)
                           <> reg_400_ended t)).
  { intros now Hns. unfold registerStudent. rewrite Ha.
    destruct (rb_student_id req) as [s |];
      [| repeat split; intros; discriminate].
    destruct (rb_grade_level req) as [g |];
      [| repeat split; intros; discriminate].
    destruct (_ || _); [repeat split; intros; discriminate |].
    rewrite HQ, Hns.
    destruct (registration_ended act now) eqn:Hend.
    { repeat split; intros; discriminate. }
    repeat split; intros;
      repeat match goal with
             | |- context [match ?x with _ => _ end] => destruct x
             end; discriminate. }
  destruct (Shape now2 B1') as (H1 & H2 & _).
  destruct (Shape now1 B1) as (_ & _ & H3).
  repeat split; auto.
Qed.

Lemma store_windows_ok : schema_ok MoreExamples.store_windows.
Proof. keys_hold. Qed.

Lemma checkEnrollmentWindow_then_registerStudent_witness :
  schema_ok MoreExamples.store_windows
  /\ checkEnrollmentWindow (Some role_student)
       (rb_activity_id (Examples.register 7 2)) 100
       MoreExamples.store_windows = win_next
  /\ 100 <= 150
  /\ fst (registerStudent 150 (Examples.register 7 2)
            MoreExamples.store_windows) <> reg_404_activity.
Proof.
  assert (R : Some role_student <> Some role_admin) by discriminate.
  assert (L : 100 <= 150) by (vm_compute; discriminate).
  split; [exact store_windows_ok |]. split; [reflexivity |].
  split; [exact L |].
  exact (proj1 (checkEnrollmentWindow_then_registerStudent
                  (Some role_student) 100 150 (Examples.register 7 2)
                  MoreExamples.store_windows store_windows_ok R eq_refl L)).
Defined.

(** X19. The administrator's override of checkEnrollmentWindow stops at the
    middleware: for an administrator the middleware lets every existing
    activity through, but registerStudent repeats the checks without looking
    at the role, so an inactive activity is still answered 404 and a
    registration window that has not opened or has closed is still
    answered 400, the state left as it was. *)
Theorem admin_override_stops_at_registerStudent (now : Z)
  (req : register_body) (db : DB) (act : activity) (s a g : Z) :
  schema_ok db ->
  In act (activities db) -> a_id act = a ->
  rb_student_id req = Some s -> rb_activity_id req = Some a ->
  rb_grade_level req = Some g ->
  s <> 0 -> a <> 0 -> g <> 0 ->
  checkEnrollmentWindow (Some role_admin) (rb_activity_id req) now db
  = win_next
  /\ (a_status act <> act_active ->
      registerStudent now req db = (reg_404_activity, db))
  /\ (a_status act = act_active ->
      registration_not_started act now = true ->
      registerStudent now req db
      = (reg_400_not_started (a_registration_start act), db))
  /\ (a_status act = act_active ->
      registration_not_started act now = false ->
      registration_ended act now = true ->
      registerStudent now req db
      = (reg_400_ended (a_registration_end act), db)).
Proof.
  intros Hok Hin Hid Hs Ha Hg Ns Na Ng.
  assert (Fields : negb (truthy (Some s)) || negb (truthy (Some a))
                   || negb (truthy (Some g)) = false).
  { simpl. apply Z.eqb_neq in Ns, Na, Ng. rewrite Ns, Na, Ng. reflexivity. }
  split; [| split; [| split]].
  - unfold checkEnrollmentWindow. rewrite Ha. simpl.
    apply Z.eqb_neq in Na. rewrite Na. simpl.
    destruct (filter (fun x => a_id x =? a) (activities db)) eqn:F;
      [| reflexivity].
    exfalso. rewrite filter_nil_iff in F. specialize (F act Hin).
    rewrite Hid, Z.eqb_refl in F. discriminate.
  - intros Hst. unfold registerStudent. rewrite Hs, Ha, Hg, Fields.
    now rewrite (activityQuery_unique_inactive db a act).
  - intros Hst B. unfold registerStudent. rewrite Hs, Ha, Hg, Fields.
    destruct (activityQuery_unique_active db a act Hok Hin Hid Hst)
      as (n & rest & ->).
    now rewrite B.
  - intros Hst B1 B2. unfold registerStudent. rewrite Hs, Ha, Hg, Fields.
    destruct (activityQuery_unique_active db a act Hok Hin Hid Hst)
      as (n & rest & ->).
    now rewrite B1, B2.
Qed.

Lemma admin_override_stops_at_registerStudent_witness :
  checkEnrollmentWindow (Some role_admin)
    (rb_activity_id (Examples.register 7 1)) 150 MoreExamples.store_windows
  = win_next
  /\ registerStudent 150 (Examples.register 7 1) MoreExamples.store_windows
     = (reg_404_activity, MoreExamples.store_windows).
Proof.
  assert (Hin : In (mk_activity 1 "Closed" (Some 10) 0 10 None None None None
                      act_inactive None None)
                   (activities MoreExamples.store_windows))
    by (left; reflexivity).
  assert (N7 : 7 <> 0) by discriminate.
  assert (N1 : 1 <> 0) by discriminate.
  assert (N5 : 5 <> 0) by discriminate.
  assert (St : a_status (mk_activity 1 "Closed" (Some 10) 0 10 None None None
                           None act_inactive None None) <> act_active)
    by discriminate.
  destruct (admin_override_stops_at_registerStudent 150
              (Examples.register 7 1) MoreExamples.store_windows _ 7 1 5
              store_windows_ok Hin eq_refl eq_refl eq_refl eq_refl N7 N1 N5)
    as (W & R & _).
  split; [exact W | exact (R St)].
Defined.

(** X21. The conflict log never shows a time overlap: in every reachable
    state registerStudent does not answer 409, and every record it appends to
    enrollment_conflicts has type grade_restriction or quota_full. *)
Theorem registerStudent_never_logs_time_overlap (now : Z)
  (req : register_body) (db : DB) :
  reachable db ->
  register_status (fst (registerStudent now req db)) <> 409
  /\ exists added,
       enrollment_conflicts (snd (registerStudent now req db))
       = enrollment_conflicts db ++ added
       /\ Forall (fun c => c_conflict_type c = grade_restriction
                           \/ c_conflict_type c = quota_full) added.
Proof.
  intros R. apply reachable_keys in R.
  assert (N : forall c, fst (registerStudent now req db)
                        <> reg_409_time_overlap c).
  { intros c. apply registerStudent_never_409. apply R. }
  split.
  - destruct (fst (registerStudent now req db)); simpl; try discriminate.
    exfalso. eapply N; eauto.
  - rewrite registerStudent_conflict_log_eq.
    eexists. split; [reflexivity |].
    destruct (fst (registerStudent now req db)); simpl; auto.
    exfalso. eapply N; eauto.
Qed.

Lemma registerStudent_never_logs_time_overlap_witness :
  reachable Examples.store_AB
  /\ register_status
       (fst (registerStudent 0 (Examples.register 7 2) Examples.store_AB))
     <> 409.
Proof.
  assert (R : reachable Examples.store_AB)
    by (apply reachable_init; keys_hold).
  split; [exact R |].
  exact (proj1 (registerStudent_never_logs_time_overlap 0
                  (Examples.register 7 2) Examples.store_AB R)).
Defined.
